(** * Nexus: policy engine, registry, plugin provider and configuration

    A shallow embedding of the policy-gated core of the Nexus gateway
    (packages [policy], [registry], [plugins], [modules/plugins] and
    [config]) together with the properties its specification states.

    Go strings are byte sequences: they are modelled by [string], whose
    characters are the 256 byte values.  Go [int] values are only compared
    and used as slice bounds here, and are modelled by [Z]. *)

From Stdlib Require Import ZArith Ascii String List Bool Lia Permutation.
From stdpp Require Import gmap strings list fin_maps.

Import ListNotations.
Open Scope string_scope.
Open Scope Z_scope.

(** ** Byte strings *)

Module Bytes.

Definition bytes (s : string) : list ascii := list_ascii_of_string s.
Definition str (l : list ascii) : string := string_of_list_ascii l.

(** Numeric value of a byte, and the byte of a value in [0, 256). *)
Definition code (b : ascii) : Z := Z.of_N (N_of_ascii b).
Definition chr (z : Z) : ascii := ascii_of_N (Z.to_N z).

(** [len(s)] *)
Definition len (s : string) : Z := Z.of_nat (String.length s).

End Bytes.
Import Bytes.

(** ** The parts of Go's standard library the code calls into

    [unicode/utf8], [strings] and [path] are not part of the repository.
    [utf8.DecodeRuneInString], [utf8.AppendRune], [strings.ToLower] and
    [path.Match] are transcribed here after the library's sources,
    [strings.Map] and [strings.Contains] by what they return; the Unicode
    case tables beyond ASCII are left abstract. *)

Module Utf8.

Definition RuneError : Z := 65533.  (* U+FFFD *)
Definition RuneSelf : Z := 128.
Definition MaxRune : Z := 1114111.  (* U+10FFFF *)

(** Information about the first byte of an encoding: the [first] table. *)
Definition xx : Z := 241.  (* 0xF1: invalid, size 1 *)
Definition as_ : Z := 240. (* 0xF0: ASCII, size 1 *)
Definition s1 : Z := 2.    (* 0x02: accept 0, size 2 *)
Definition s2 : Z := 19.   (* 0x13: accept 1, size 3 *)
Definition s3 : Z := 3.    (* 0x03: accept 0, size 3 *)
Definition s4 : Z := 35.   (* 0x23: accept 2, size 3 *)
Definition s5 : Z := 52.   (* 0x34: accept 3, size 4 *)
Definition s6 : Z := 4.    (* 0x04: accept 0, size 4 *)
Definition s7 : Z := 68.   (* 0x44: accept 4, size 4 *)

Definition first (b : Z) : Z :=
  if b <? 128 then as_        (* 0x00-0x7F *)
  else if b <? 194 then xx    (* 0x80-0xC1 *)
  else if b <? 224 then s1    (* 0xC2-0xDF *)
  else if b =? 224 then s2    (* 0xE0 *)
  else if b <? 237 then s3    (* 0xE1-0xEC *)
  else if b =? 237 then s4    (* 0xED *)
  else if b <? 240 then s3    (* 0xEE-0xEF *)
  else if b =? 240 then s5    (* 0xF0 *)
  else if b <? 244 then s6    (* 0xF1-0xF3 *)
  else if b =? 244 then s7    (* 0xF4 *)
  else xx.                    (* 0xF5-0xFF *)

Definition locb : Z := 128.  (* 0x80 *)
Definition hicb : Z := 191.  (* 0xBF *)

(** [acceptRanges]: the admissible second byte, by accept index. *)
Definition acceptRanges (i : Z) : Z * Z :=
  if i =? 0 then (locb, hicb)
  else if i =? 1 then (160, hicb)
  else if i =? 2 then (locb, 159)
  else if i =? 3 then (144, hicb)
  else if i =? 4 then (locb, 143)
  else (0, 0).

(** [utf8.DecodeRuneInString]: the first rune of [s] and its width in
    bytes; [(RuneError, 0)] on the empty string and [(RuneError, 1)] on
    an invalid encoding. *)
Definition DecodeRune (s : list ascii) : Z * nat :=
  match s with
  | [] => (RuneError, 0%nat)
  | b0 :: t =>
    let c0 := code b0 in
    let x := first c0 in
    if as_ <=? x then ((if x =? as_ then c0 else RuneError), 1%nat)
    else
      let sz := Z.land x 7 in
      let '(lo, hi) := acceptRanges (Z.shiftr x 4) in
      if Z.of_nat (List.length s) <? sz then (RuneError, 1%nat)
      else
        match t with
        | [] => (RuneError, 1%nat)
        | b1 :: t1 =>
          let c1 := code b1 in
          if (c1 <? lo) || (hi <? c1) then (RuneError, 1%nat)
          else if sz <=? 2 then
            (Z.lor (Z.shiftl (Z.land c0 31) 6) (Z.land c1 63), 2%nat)
          else
            match t1 with
            | [] => (RuneError, 1%nat)
            | b2 :: t2 =>
              let c2 := code b2 in
              if (c2 <? locb) || (hicb <? c2) then (RuneError, 1%nat)
              else if sz <=? 3 then
                (Z.lor (Z.lor (Z.shiftl (Z.land c0 15) 12)
                              (Z.shiftl (Z.land c1 63) 6))
                       (Z.land c2 63), 3%nat)
              else
                match t2 with
                | [] => (RuneError, 1%nat)
                | b3 :: _ =>
                  let c3 := code b3 in
                  if (c3 <? locb) || (hicb <? c3) then (RuneError, 1%nat)
                  else
                    (Z.lor (Z.lor (Z.lor (Z.shiftl (Z.land c0 7) 18)
                                         (Z.shiftl (Z.land c1 63) 12))
                                  (Z.shiftl (Z.land c2 63) 6))
                           (Z.land c3 63), 4%nat)
                end
            end
        end
  end.

(** [utf8.AppendRune] on an empty buffer, for a rune [0 <= r] (a rune
    out of range or a surrogate is written as U+FFFD). *)
Definition EncodeRune (r : Z) : list ascii :=
  if r <=? 127 then [chr r]
  else if r <=? 2047 then
    [chr (Z.lor 192 (Z.shiftr r 6)); chr (Z.lor 128 (Z.land r 63))]
  else if (r <? 55296) || ((57343 <? r) && (r <=? 65535)) then
    [chr (Z.lor 224 (Z.shiftr r 12));
     chr (Z.lor 128 (Z.land (Z.shiftr r 6) 63));
     chr (Z.lor 128 (Z.land r 63))]
  else if (65535 <? r) && (r <=? MaxRune) then
    [chr (Z.lor 240 (Z.shiftr r 18));
     chr (Z.lor 128 (Z.land (Z.shiftr r 12) 63));
     chr (Z.lor 128 (Z.land (Z.shiftr r 6) 63));
     chr (Z.lor 128 (Z.land r 63))]
  else [chr 239; chr 191; chr 189].

End Utf8.

Module Strings.

(** [strings.Map], by what it returns: every rune of [s] is decoded,
    mapped and written back in UTF-8 (an invalid byte decodes to U+FFFD);
    a negative result drops the rune.  [skip] counts the bytes of the
    current rune that are still to be passed over. *)
Fixpoint Map_from (mapping : Z -> Z) (skip : nat) (s : list ascii)
  : list ascii :=
  match s with
  | [] => []
  | _ :: t =>
    match skip with
    | S k => Map_from mapping k t
    | O =>
      let '(c, width) := Utf8.DecodeRune s in
      let r := mapping c in
      ((if 0 <=? r then Utf8.EncodeRune r else []) ++
       Map_from mapping (Nat.pred width) t)%list
    end
  end.

Definition Map (mapping : Z -> Z) (s : string) : string :=
  str (Map_from mapping 0 (bytes s)).

(** ['A' <= c && c <= 'Z'] *)
Definition isUpperASCII (c : Z) : bool := (65 <=? c) && (c <=? 90).

(** The lower-case mapping of Unicode's case tables
    ([unicode.CaseRanges]) for the code points above ASCII. *)
Class CaseTables : Type := { lowerTable : Z -> Z }.

(** [unicode.ToLower]: ASCII letters directly, every other code point
    through the case tables. *)
Definition unicode_ToLower {tables : CaseTables} (r : Z) : Z :=
  if r <=? 127 then (if isUpperASCII r then r + 32 else r)
  else lowerTable r.

(** [c += 'a' - 'A'] for an upper-case letter [c]. *)
Definition lowerByte (b : ascii) : ascii :=
  if isUpperASCII (code b) then chr (code b + 32) else b.

Definition isASCII (s : string) : bool :=
  forallb (fun b => code b <? Utf8.RuneSelf) (bytes s).

Definition hasUpper (s : string) : bool :=
  existsb (fun b => isUpperASCII (code b)) (bytes s).

(** [strings.ToLower]: a string of ASCII bytes is lowered byte by byte
    (and returned as it is when it has no upper-case letter); any other
    string goes through [Map]. *)
Definition ToLower {tables : CaseTables} (s : string) : string :=
  if isASCII s then
    if negb (hasUpper s) then s
    else str (List.map lowerByte (bytes s))
  else Map unicode_ToLower s.

(** An ASCII byte, and a byte that lowering leaves alone (ASCII and
    not an upper-case letter). *)
Definition asciiByte (b : ascii) : Prop := code b < 128.

Definition lowered (b : ascii) : bool :=
  (code b <? 128) && negb (isUpperASCII (code b)).

(** An excerpt of the case tables, for the examples: the capital
    letters of Latin-1, U+0130 (dotted capital I) and U+212A (the Kelvin
    sign); every other code point is its own lower case. *)
Definition excerptTables : CaseTables :=
  {| lowerTable := fun r =>
       if (192 <=? r) && (r <=? 222) && negb (r =? 215) then r + 32
       else if r =? 304 then 105
       else if r =? 8490 then 107
       else r |}.

(** [strings.HasPrefix] and [strings.Contains]. *)
Fixpoint HasPrefix (s prefix : string) : bool :=
  match prefix, s with
  | EmptyString, _ => true
  | String p prefix', String c s' => Ascii.eqb c p && HasPrefix s' prefix'
  | String _ _, EmptyString => false
  end.

Fixpoint Contains (s substr : string) : bool :=
  HasPrefix s substr ||
  match s with
  | EmptyString => false
  | String _ s' => Contains s' substr
  end.

End Strings.

Module Path.

(** [path.ErrBadPattern], the only error [path.Match] returns. *)
Inductive error : Type := ErrBadPattern.

Definition isByte (c : ascii) (b : ascii) : bool := Ascii.eqb b c.

(** [scanChunk]: the leading stars, then the chunk up to the next star
    outside a character class. *)
Fixpoint skipStars (star : bool) (pattern : list ascii) : bool * list ascii :=
  match pattern with
  | c :: t => if isByte "*" c then skipStars true t else (star, pattern)
  | [] => (star, pattern)
  end.

Fixpoint chunkEnd (inrange : bool) (pattern : list ascii) : nat :=
  match pattern with
  | [] => 0
  | c :: t =>
    if isByte "\" c then
      match t with
      | [] => 1
      | _ :: t' => S (S (chunkEnd inrange t'))
      end
    else if isByte "[" c then S (chunkEnd true t)
    else if isByte "]" c then S (chunkEnd false t)
    else if isByte "*" c then (if inrange then S (chunkEnd inrange t) else 0)
    else S (chunkEnd inrange t)
  end%nat.

Definition scanChunk (pattern : list ascii)
  : bool * list ascii * list ascii :=
  let '(star, p) := skipStars false pattern in
  let i := chunkEnd false p in
  (star, firstn i p, skipn i p).

(** [getEsc]: a possibly escaped rune of a character class and the rest
    of the chunk; [None] stands for [ErrBadPattern]. *)
Definition getEsc (chunk : list ascii) : option (Z * list ascii) :=
  match chunk with
  | [] => None
  | c :: t =>
    if isByte "-" c || isByte "]" c then None
    else
      let chunk' := if isByte "\" c then t else chunk in
      match chunk' with
      | [] => None
      | _ =>
        let '(r, n) := Utf8.DecodeRune chunk' in
        let nchunk := skipn n chunk' in
        if (r =? Utf8.RuneError) && Nat.eqb n 1 then None
        else match nchunk with [] => None | _ => Some (r, nchunk) end
      end
  end.

(** The ranges of a character class, up to the closing bracket:
    whether [r] is in one of them, and the rest of the chunk. *)
Fixpoint classRanges (fuel : nat) (r : Z) (matched : bool) (nrange : nat)
    (chunk : list ascii) : option (bool * list ascii) :=
  match fuel with
  | O => None
  | S fuel' =>
    match chunk with
    | c :: t =>
      if isByte "]" c && negb (Nat.eqb nrange 0) then Some (matched, t)
      else
        match getEsc chunk with
        | None => None
        | Some (lo, chunk1) =>
          let next hi chunk2 :=
            classRanges fuel' r (matched || ((lo <=? r) && (r <=? hi)))
                        (S nrange) chunk2 in
          match chunk1 with
          | d :: t1 =>
            if isByte "-" d then
              match getEsc t1 with
              | None => None
              | Some (hi, chunk2) => next hi chunk2
              end
            else next lo chunk1
          | [] => None
          end
        end
    | [] => None
    end
  end.

Inductive chunkResult : Type :=
| ChunkErr                      (* err = ErrBadPattern *)
| ChunkFail                     (* ok = false, err = nil *)
| ChunkOk (rest : list ascii).  (* ok = true, the remainder of s *)

(** [matchChunk]: does [chunk] match a prefix of [s]?  After a failure
    the chunk is still read to its end to find syntax errors. *)
Fixpoint matchChunk_loop (fuel : nat) (failed : bool)
    (chunk s : list ascii) : chunkResult :=
  match fuel with
  | O => ChunkErr
  | S fuel' =>
    match chunk with
    | [] => if failed then ChunkFail else ChunkOk s
    | c :: chunk1 =>
      let failed := failed || match s with [] => true | _ => false end in
      if isByte "[" c then
        let '(r, s') :=
          if failed then (0, s)
          else let '(r, n) := Utf8.DecodeRune s in (r, skipn n s) in
        let '(negated, chunk2) :=
          match chunk1 with
          | d :: t => if isByte "^" d then (true, t) else (false, chunk1)
          | [] => (false, chunk1)
          end in
        match classRanges (S (List.length chunk2)) r false 0 chunk2 with
        | None => ChunkErr
        | Some (matched, chunk3) =>
          matchChunk_loop fuel' (failed || Bool.eqb matched negated)
                          chunk3 s'
        end
      else if isByte "?" c then
        match s with
        | s0 :: _ =>
          if failed then matchChunk_loop fuel' failed chunk1 s
          else
            let '(_, n) := Utf8.DecodeRune s in
            matchChunk_loop fuel' (isByte "/" s0) chunk1 (skipn n s)
        | [] => matchChunk_loop fuel' failed chunk1 s
        end
      else
        let literal (chunk : list ascii) :=
          match chunk with
          | [] => ChunkErr
          | l :: chunk' =>
            match s with
            | s0 :: s' =>
              if failed then matchChunk_loop fuel' failed chunk' s
              else matchChunk_loop fuel' (negb (Ascii.eqb l s0)) chunk' s'
            | [] => matchChunk_loop fuel' failed chunk' s
            end
          end in
        if isByte "\" c then literal chunk1 else literal chunk
    end
  end.

Definition matchChunk (chunk s : list ascii) : chunkResult :=
  matchChunk_loop (S (List.length chunk)) false chunk s.

Definition nonempty {A} (l : list A) : bool :=
  match l with [] => false | _ => true end.

(** The loop of [Match] that retries the chunk after skipping [i+1]
    bytes of the name, never past a slash. *)
Inductive starResult : Type :=
| StarErr | StarNone | StarFound (rest : list ascii).

Fixpoint starLoop (chunk : list ascii) (last : bool) (name : list ascii)
  : starResult :=
  match name with
  | [] => StarNone
  | c :: name' =>
    if isByte "/" c then StarNone
    else
      match matchChunk chunk name' with
      | ChunkOk t =>
        if last && nonempty t then starLoop chunk last name'
        else StarFound t
      | ChunkErr => StarErr
      | ChunkFail => starLoop chunk last name'
      end
  end.

(** The syntax check of the pattern that is left after a mismatch. *)
Fixpoint checkRest (fuel : nat) (pattern : list ascii) : option error :=
  match fuel with
  | O => None
  | S fuel' =>
    match pattern with
    | [] => None
    | _ =>
      let '(_, chunk, rest) := scanChunk pattern in
      match matchChunk chunk [] with
      | ChunkErr => Some ErrBadPattern
      | _ => checkRest fuel' rest
      end
    end
  end.

Fixpoint Match_loop (fuel : nat) (pattern name : list ascii)
  : bool * option error :=
  match fuel with
  | O => (false, None)
  | S fuel' =>
    match pattern with
    | [] => (negb (nonempty name), None)
    | _ =>
      let '(star, chunk, rest) := scanChunk pattern in
      if star && negb (nonempty chunk) then
        (negb (existsb (isByte "/") name), None)
      else
        let mismatch (_ : unit) :=
          match (if star then starLoop chunk (negb (nonempty rest)) name
                 else StarNone) with
          | StarFound t => Match_loop fuel' rest t
          | StarErr => (false, Some ErrBadPattern)
          | StarNone => (false, checkRest (List.length rest) rest)
          end in
        match matchChunk chunk name with
        | ChunkOk t =>
          if negb (nonempty t) || nonempty rest
          then Match_loop fuel' rest t
          else mismatch tt
        | ChunkErr => (false, Some ErrBadPattern)
        | ChunkFail => mismatch tt
        end
    end
  end.

(** [path.Match(pattern, name)].  Every round of the loops above takes
    at least one byte off the pattern, so that a fuel of its length plus
    one is never used up. *)
Definition Match (pattern name : string) : bool * option error :=
  Match_loop (S (String.length pattern)) (bytes pattern) (bytes name).

End Path.

(** ** Values of the Go runtime and the operating system

    An [error] is modelled by its message.  A call either returns or
    panics.  The file system is an interface of the environment. *)

Module Runtime.

Definition error : Type := string.

Inductive outcome (A : Type) : Type :=
| Returned (a : A)
| Panicked (msg : string).
Arguments Returned {A} a.
Arguments Panicked {A} msg.

(** [os.DirEntry], as far as the code reads it. *)
Record DirEntry : Type := {
  entry_Name : string;
  entry_IsDir : bool
}.

(** [os.ReadDir] and [os.ReadFile]: the result or the error. *)
Class FileSystem : Type := {
  os_ReadDir : string -> list DirEntry + error;
  os_ReadFile : string -> string + error
}.

End Runtime.

(** ** Package [config] *)

Module Config.

Record ServerConfig : Type := {
  Name : string;
  Version : string;
  LogLevel : string;
  SafeMode : bool
}.

Record PolicyConfig : Type := {
  AllowModules : list string;
  DenyModules : list string;
  AllowTools : list string;
  DenyTools : list string;
  ConfirmTools : list string
}.

Record KubernetesConfig : Type := {
  Kubernetes_Enabled : bool;
  Kubeconfig : string
}.

Record AWSConfig : Type := {
  AWS_Enabled : bool;
  Region : string
}.

Record PrometheusConfig : Type := {
  Prometheus_Enabled : bool;
  URL : string
}.

Record LogsConfig : Type := {
  Logs_Enabled : bool;
  AllowPaths : list string;
  Logs_MaxBytes : Z;
  Logs_MaxLines : Z
}.

Record DockerConfig : Type := {
  Docker_Enabled : bool;
  CLI : string;
  Docker_MaxLines : Z
}.

Record PluginsConfig : Type := {
  Plugins_Enabled : bool;
  Dir : string;
  Plugins_MaxBytes : Z;
  Env : list string
}.

Record ModulesConfig : Type := {
  Kubernetes : KubernetesConfig;
  AWS : AWSConfig;
  Prometheus : PrometheusConfig;
  Logs : LogsConfig;
  Docker : DockerConfig;
  Plugins : PluginsConfig
}.

Record NexusConfig : Type := {
  Server : ServerConfig;
  Modules : ModulesConfig;
  Policy : PolicyConfig
}.

Definition DefaultConfig : NexusConfig := {|
  Server := {| Name := "Nexus"; Version := "v0.0.1";
               LogLevel := "info"; SafeMode := true |};
  Modules := {|
    Kubernetes := {| Kubernetes_Enabled := true;
                     Kubeconfig := "~/.kube/config" |};
    AWS := {| AWS_Enabled := false; Region := "us-east-1" |};
    Prometheus := {| Prometheus_Enabled := false;
                     URL := "http://localhost:9090" |};
    Logs := {| Logs_Enabled := false; AllowPaths := [];
               Logs_MaxBytes := 256 * 1024; Logs_MaxLines := 200 |};
    Docker := {| Docker_Enabled := false; CLI := "docker";
                 Docker_MaxLines := 200 |};
    Plugins := {| Plugins_Enabled := false; Dir := "plugins";
                  Plugins_MaxBytes := 256 * 1024; Env := [] |}
  |};
  Policy := {| AllowModules := []; DenyModules := []; AllowTools := [];
               DenyTools := []; ConfirmTools := [] |}
|}.

(** [yaml.Unmarshal(data, cfg)]: the configuration as the decoder
    leaves it, and the error it reports. *)
Class Decoder : Type := {
  yaml_Unmarshal : string -> NexusConfig -> NexusConfig * option Runtime.error
}.

Definition orDefault (value default : string) : string :=
  if String.eqb value "" then default else value.

Definition positiveOr (value default : Z) : Z :=
  if value <=? 0 then default else value.

Definition applyDefaults (cfg : NexusConfig) : NexusConfig :=
  let server := Server cfg in
  let modules := Modules cfg in
  {| Server := {| Name := orDefault (Name server) "Nexus";
                  Version := orDefault (Version server) "v0.0.1";
                  LogLevel := orDefault (LogLevel server) "info";
                  SafeMode := SafeMode server |};
     Modules := {|
       Kubernetes := {|
         Kubernetes_Enabled := Kubernetes_Enabled (Kubernetes modules);
         Kubeconfig :=
           orDefault (Kubeconfig (Kubernetes modules)) "~/.kube/config" |};
       AWS := {| AWS_Enabled := AWS_Enabled (AWS modules);
                 Region := orDefault (Region (AWS modules)) "us-east-1" |};
       Prometheus := {|
         Prometheus_Enabled := Prometheus_Enabled (Prometheus modules);
         URL := orDefault (URL (Prometheus modules))
                          "http://localhost:9090" |};
       Logs := {|
         Logs_Enabled := Logs_Enabled (Logs modules);
         AllowPaths := AllowPaths (Logs modules);
         Logs_MaxBytes :=
           positiveOr (Logs_MaxBytes (Logs modules)) (256 * 1024);
         Logs_MaxLines := positiveOr (Logs_MaxLines (Logs modules)) 200 |};
       Docker := {|
         Docker_Enabled := Docker_Enabled (Docker modules);
         CLI := orDefault (CLI (Docker modules)) "docker";
         Docker_MaxLines :=
           positiveOr (Docker_MaxLines (Docker modules)) 200 |};
       Plugins := {|
         Plugins_Enabled := Plugins_Enabled (Plugins modules);
         Dir := orDefault (Dir (Plugins modules)) "plugins";
         Plugins_MaxBytes :=
           positiveOr (Plugins_MaxBytes (Plugins modules)) (256 * 1024);
         Env := Env (Plugins modules) |}
     |};
     Policy := Policy cfg |}.

(** [LoadConfig] returns a pointer that is never nil: the model returns
    the configuration itself. *)
Definition LoadConfig {fs : Runtime.FileSystem} {decoder : Decoder}
    (path : string)
  : NexusConfig * option Runtime.error :=
  let cfg := DefaultConfig in
  match Runtime.os_ReadFile path with
  | inr err => (cfg, Some err)
  | inl data =>
    match yaml_Unmarshal data cfg with
    | (cfg, Some err) => (cfg, Some err)
    | (cfg, None) => (applyDefaults cfg, None)
    end
  end.

End Config.

(** ** Package [policy] *)

Module Policy.
Import Config.

Inductive Decision : Type := Allow | Deny | Confirm.

Record Policy : Type := {
  cfg : PolicyConfig;
  safeMode : bool
}.

Definition New (cfg : PolicyConfig) (safeMode : bool) : Policy :=
  {| cfg := cfg; safeMode := safeMode |}.

(** [matched, _ := path.Match(pattern, value)] *)
Definition matched (pattern value : string) : bool :=
  fst (Path.Match pattern value).

Definition hasAllowList (cfg : PolicyConfig) : bool :=
  (0 <? Z.of_nat (List.length (AllowModules cfg)))
  || (0 <? Z.of_nat (List.length (AllowTools cfg))).

Fixpoint matchesAny (patterns : list string) (value : string) : bool :=
  match patterns with
  | [] => false
  | pattern :: patterns' =>
    if matched pattern value then true
    else matchesAny patterns' value
  end.

Fixpoint matchesAnyTool (patterns : list string) (module tool : string)
  : bool :=
  let qualified := module ++ "/" ++ tool in
  match patterns with
  | [] => false
  | pattern :: patterns' =>
    if matched pattern tool then true
    else if matched pattern qualified then true
    else matchesAnyTool patterns' module tool
  end.

Definition sensitive : list string :=
  ["delete"; "update"; "scale"; "write"; "create"; "apply"; "patch"].

Fixpoint containsAny (lower : string) (keywords : list string) : bool :=
  match keywords with
  | [] => false
  | keyword :: keywords' =>
    if Strings.Contains lower keyword then true
    else containsAny lower keywords'
  end.

Definition isSensitiveTool {tables : Strings.CaseTables} (tool : string)
  : bool :=
  let lower := Strings.ToLower tool in
  containsAny lower sensitive.

Definition Evaluate {tables : Strings.CaseTables} (p : Policy)
    (module tool : string) : Decision :=
  if safeMode p && isSensitiveTool tool then Deny
  else if matchesAny (DenyModules (cfg p)) module
          || matchesAnyTool (DenyTools (cfg p)) module tool then Deny
  else if hasAllowList (cfg p)
          && negb (matchesAny (AllowModules (cfg p)) module)
          && negb (matchesAnyTool (AllowTools (cfg p)) module tool)
       then Deny
  else if matchesAnyTool (ConfirmTools (cfg p)) module tool then Confirm
  else Allow.

(** A policy configuration from its five pattern lists. *)
Definition policyOf (allowModules denyModules allowTools denyTools
                     confirmTools : list string) : PolicyConfig :=
  {| AllowModules := allowModules; DenyModules := denyModules;
     AllowTools := allowTools; DenyTools := denyTools;
     ConfirmTools := confirmTools |}.

(** *** Vocabulary of the specification *)

(** [pattern] matches [value] with shell-glob semantics. *)
Definition glob (pattern value : string) : Prop :=
  matched pattern value = true.

(** The module matches one of the module patterns. *)
Definition moduleMatches (patterns : list string) (module : string) : Prop :=
  exists pattern, In pattern patterns /\ glob pattern module.

(** The tool matches one of the tool patterns, by its bare name or by
    its qualified name [module/tool]. *)
Definition toolMatches (patterns : list string) (module tool : string)
  : Prop :=
  exists pattern,
    In pattern patterns /\
    (glob pattern tool \/ glob pattern (module ++ "/" ++ tool)).

(** Two bytes are the same letter: equal, or the upper and the lower
    case of one ASCII letter. *)
Definition sameLetter (a b : ascii) : Prop :=
  a = b
  \/ (65 <= code a <= 90 /\ code b = code a + 32)
  \/ (65 <= code b <= 90 /\ code a = code b + 32).

Definition equalFold (s t : string) : Prop :=
  Forall2 sameLetter (bytes s) (bytes t).

(** [s] contains [keyword], letter case aside. *)
Definition containsFold (s keyword : string) : Prop :=
  exists before mid after,
    s = before ++ mid ++ after /\ equalFold mid keyword.

End Policy.

(** ** Package [registry]

    The registry is package state: the map [modules] from module names to
    registered providers and the run-once barrier [loadOnce].  A provider
    is a pointer to an object; the objects live in a heap, so that one
    object registered under two names is one object.  [Enabled] is a query
    of the configuration (no provider of the repository reads mutable
    state in it) and only the types that implement it have it; [Init]
    updates the fields of its receiver.

    Go leaves the iteration order of a map unspecified: each [range] over
    [modules] takes the order it visits the keys in as an argument.  The
    mutexes are left out. *)

Module Registry.
Import Config Runtime.

Definition ptr : Type := nat.

Section Providers.

(** The fields of a provider object, whatever its dynamic type. *)
Context {State : Type}.

(** A provider object: its methods, as far as [LoadModules] calls
    them, and its fields. *)
Record Object : Type := {
  Enabled : option (NexusConfig -> bool);
  Init : NexusConfig -> State -> State * option error;
  fields : State
}.

Record Registry : Type := {
  heap : ptr -> Object;
  modules : gmap string ptr;
  loadOnce : bool   (* has [loadOnce.Do] run its function? *)
}.

Definition store (p : ptr) (st : State) (r : Registry) : Registry :=
  let o := heap r p in
  {| heap := fun q =>
       if Nat.eqb q p
       then {| Enabled := Enabled o; Init := Init o; fields := st |}
       else heap r q;
     modules := modules r;
     loadOnce := loadOnce r |}.

Definition done (r : Registry) : Registry :=
  {| heap := heap r; modules := modules r; loadOnce := true |}.

(** [Register(name, module)] *)
Definition Register (name : string) (module : ptr) (r : Registry)
  : Registry * outcome unit :=
  match modules r !! name with
  | Some _ => (r, Panicked ("module already registered: " ++ name))
  | None =>
    ({| heap := heap r;
        modules := <[name := module]> (modules r);
        loadOnce := loadOnce r |}, Returned tt)
  end.

(** [toggleable, ok := module.(interface{ Enabled }); ok &&
    !toggleable.Enabled(cfg)] *)
Definition disabled (o : Object) (cfg : NexusConfig) : bool :=
  match Enabled o with
  | Some enabled => negb (enabled cfg)
  | None => false
  end.

(** A call of a provider's [Init], as an observer sees it. *)
Inductive event : Type := InitCall (name : string) (module : ptr).

(** The function run by [loadOnce.Do]: the registry after it, the
    [Init] calls it made and the value of [loadErr]. *)
Fixpoint initModules (cfg : NexusConfig) (order : list string)
    (r : Registry) : Registry * list event * option error :=
  match order with
  | [] => (r, [], None)
  | name :: order' =>
    match modules r !! name with
    | None => initModules cfg order' r
    | Some module =>
      let o := heap r module in
      if disabled o cfg then initModules cfg order' r
      else
        let '(st, err) := Init o cfg (fields o) in
        let r' := store module st r in
        match err with
        | Some e =>
          (r', [InitCall name module],
           Some ("failed to init module " ++ name ++ ": " ++ e))
        | None =>
          let '(r'', calls, loadErr) := initModules cfg order' r' in
          (r'', InitCall name module :: calls, loadErr)
        end
    end
  end.

(** The second loop: the enabled providers, in iteration order. *)
Fixpoint loaded (cfg : NexusConfig) (order : list string) (r : Registry)
  : list ptr :=
  match order with
  | [] => []
  | name :: order' =>
    match modules r !! name with
    | None => loaded cfg order' r
    | Some module =>
      if disabled (heap r module) cfg then loaded cfg order' r
      else module :: loaded cfg order' r
    end
  end.

(** [LoadModules(cfg)]: the registry after the call, the [Init] calls
    made, and the returned list and error.  [order1] and [order2] are the
    orders in which the two loops visit the map. *)
Record loadResult : Type := {
  after : Registry;
  calls : list event;
  returned : list ptr;   (* [nil] with an error *)
  err : option error
}.

Definition LoadModules (cfg : NexusConfig) (order1 order2 : list string)
    (r : Registry) : loadResult :=
  let '(r1, calls, loadErr) :=
    if loadOnce r then (r, [], None)
    else initModules cfg order1 (done r) in
  match loadErr with
  | Some e => {| after := r1; calls := calls; returned := []; err := Some e |}
  | None =>
    {| after := r1; calls := calls; returned := loaded cfg order2 r1;
       err := None |}
  end.

(** *** Vocabulary of the specification *)

(** An iteration order of the map: its keys, each once. *)
Definition iteration (r : Registry) (order : list string) : Prop :=
  NoDup order /\ forall name, name ∈ order <-> is_Some (modules r !! name).

(** How often [Init] was called for the provider registered as [name]. *)
Definition isInitOf (name : string) (e : event) : bool :=
  match e with InitCall n _ => String.eqb n name end.

Definition initCount (name : string) (calls : list event) : nat :=
  List.length (List.filter (isInitOf name) calls).

(** The [Init] call [LoadModules] owes the entry [name], if any. *)
Definition callOf (cfg : NexusConfig) (r : Registry) (name : string)
  : option event :=
  match modules r !! name with
  | Some module =>
    if disabled (heap r module) cfg then None else Some (InitCall name module)
  | None => None
  end.

Definition activeOf (cfg : NexusConfig) (r : Registry) (name : string)
  : option ptr :=
  match modules r !! name with
  | Some module => if disabled (heap r module) cfg then None else Some module
  | None => None
  end.

End Providers.
Arguments Object : clear implicits.
Arguments Registry : clear implicits.
Arguments loadResult : clear implicits.

(** Two calls of [LoadModules] on a registry that was never loaded call
    [Init] once for every enabled entry and never for a disabled one, and
    return the same providers. *)
Definition loadsOnce : Prop :=
  forall (State : Type) (cfg : NexusConfig) (r : Registry State)
         (order1 order2 order3 order4 : list string),
    loadOnce r = false ->
    iteration r order1 -> iteration r order2 ->
    iteration r order3 -> iteration r order4 ->
    let first := LoadModules cfg order1 order2 r in
    let second := LoadModules cfg order3 order4 (after first) in
    (forall name module,
       modules r !! name = Some module ->
       initCount name (calls first ++ calls second)%list
       = if disabled (heap r module) cfg then 0%nat else 1%nat)
    /\ returned first ≡ₚ returned second.

End Registry.

(** ** Package [plugins]: manifests and their loader *)

Module Manifests.
Import Runtime.

Record ArgSpec : Type := {
  arg_Name : string;
  arg_Type : string;
  arg_Required : bool;
  arg_Description : string
}.

Record ToolSpec : Type := {
  tool_Name : string;
  tool_Description : string;
  ReadOnly : bool;
  tool_Args : list ArgSpec
}.

Record Capabilities : Type := { Tools : list ToolSpec }.

Record Spec : Type := {
  Command : string;
  Args : list string;
  Env : gmap string string;
  Capabilities_ : Capabilities
}.

Record Metadata : Type := {
  Name : string;
  Vendor : string;
  Version : string;
  Description : string
}.

Record Manifest : Type := {
  APIVersion : string;
  Kind : string;
  Metadata_ : Metadata;
  Spec_ : Spec
}.

Definition ManifestName : string := "nexus.yaml".

(** [yaml.Unmarshal(data, &manifest)] into a zero manifest, and
    [filepath.Join]. *)
Class Library : Type := {
  yaml_Unmarshal : string -> Manifest + error;
  filepath_Join : list string -> string
}.

Definition withName (name : string) (m : Manifest) : Manifest :=
  {| APIVersion := APIVersion m;
     Kind := Kind m;
     Metadata_ := {| Name := name;
                     Vendor := Vendor (Metadata_ m);
                     Version := Version (Metadata_ m);
                     Description := Description (Metadata_ m) |};
     Spec_ := Spec_ m |}.

Section Loader.
Context {fs : FileSystem} {lib : Library}.

(** The loop of [LoadManifests] over the directory entries. *)
Fixpoint loadEntries (dir : string) (entries : list DirEntry)
    (manifests : list Manifest) : list Manifest + error :=
  match entries with
  | [] => inl manifests
  | entry :: entries' =>
    if negb (entry_IsDir entry) then loadEntries dir entries' manifests
    else
      let path := filepath_Join [dir; entry_Name entry; ManifestName] in
      match os_ReadFile path with
      | inr _ => loadEntries dir entries' manifests
      | inl data =>
        match yaml_Unmarshal data with
        | inr err => inr ("failed to parse " ++ path ++ ": " ++ err)
        | inl manifest =>
          let manifest :=
            if String.eqb (Name (Metadata_ manifest)) ""
            then withName (entry_Name entry) manifest
            else manifest in
          loadEntries dir entries' (manifests ++ [manifest])%list
        end
      end
  end.

Definition LoadManifests (dir : string) : list Manifest + error :=
  match os_ReadDir dir with
  | inr err => inr err
  | inl entries => loadEntries dir entries []
  end.

End Loader.

End Manifests.

(** ** Package [modules/plugins]: the plugin provider *)

Module Plugins.
Import Runtime.
Import Manifests.

Definition moduleName : string := "plugins".

Record pluginTool : Type := {
  manifest : Manifest;
  tool : ToolSpec
}.

Record Module : Type := {
  cfg : option Config.NexusConfig;   (* [None] is the nil pointer *)
  manifests : list Manifest;
  tools : gmap string pluginTool
}.

Definition New : Module := {| cfg := None; manifests := []; tools := ∅ |}.

Definition Enabled (cfg : Config.NexusConfig) : bool :=
  Config.Plugins_Enabled (Config.Plugins (Config.Modules cfg)).

Definition pluginToolName (pluginName toolName : string) : string :=
  "plugin/" ++ pluginName ++ "/" ++ toolName.

(** The truncation marker, a line feed and [... truncated]. *)
Definition marker : string := String (ascii_of_nat 10) "... truncated".

Definition trimOutput (output : string) (maxBytes : Z) : string :=
  if maxBytes <=? 0 then output
  else
    let data := bytes output in
    if Z.of_nat (List.length data) <=? maxBytes then output
    else str (firstn (Z.to_nat maxBytes) data) ++ marker.

(** The loops of [Init] that fill the tool table; on a duplicate name
    the table keeps what was entered before it. *)
Fixpoint addTools (m : Manifest) (specs : list ToolSpec)
    (table : gmap string pluginTool)
  : gmap string pluginTool * option error :=
  match specs with
  | [] => (table, None)
  | spec :: specs' =>
    let fullName := pluginToolName (Name (Metadata_ m)) (tool_Name spec) in
    match table !! fullName with
    | Some _ => (table, Some ("duplicate plugin tool name: " ++ fullName))
    | None =>
      addTools m specs' (<[fullName := {| manifest := m; tool := spec |}]> table)
    end
  end.

Fixpoint addManifests (ms : list Manifest) (table : gmap string pluginTool)
  : gmap string pluginTool * option error :=
  match ms with
  | [] => (table, None)
  | m :: ms' =>
    match addTools m (Tools (Capabilities_ (Spec_ m))) table with
    | (table', Some err) => (table', Some err)
    | (table', None) => addManifests ms' table'
    end
  end.

(** What [HandleCall] needs beyond the file system: [json.Marshal] of
    the payload [{"tool": name, "args": args}], [filepath.IsAbs],
    [strings.TrimSpace] and the run of a child process
    ([exec.CommandContext] with [CombinedOutput]).

    [Cmd] holds the fields [HandleCall] sets, as it sets them.  [cmd_Env]
    is the slice [cmd.Env]: [exec.CommandContext] leaves it nil and
    [HandleCall] only appends to it, so the empty list is the nil slice.
    What [os/exec] makes of the field when it starts the process belongs
    to [CombinedOutput]. *)
Record Cmd : Type := {
  cmd_Path : string;
  cmd_Args : list string;
  cmd_Env : list string;
  cmd_Stdin : string
}.

Class Host : Type := {
  Arguments_ : Type;   (* [map[string]interface{}] *)
  json_Marshal : string -> Arguments_ -> string + error;
  filepath_IsAbs : string -> bool;
  strings_TrimSpace : string -> string;
  CombinedOutput : Cmd -> string * option error
}.

(** [mcp.NewToolResultError] and [mcp.NewToolResultText]. *)
Inductive CallToolResult : Type :=
| NewToolResultError (text : string)
| NewToolResultText (text : string).

Section Provider.
Context {fs : FileSystem} {lib : Library} {host : Host}.

(** [Init]: the provider after the call and the returned error. *)
Definition Init (c : Config.NexusConfig) (m : Module)
  : Module * option error :=
  let m := {| cfg := Some c; manifests := manifests m; tools := tools m |} in
  if negb (Enabled c) then (m, None)
  else
    match LoadManifests (Config.Dir (Config.Plugins (Config.Modules c))) with
    | inr err => (m, None)   (* logged as a warning *)
    | inl loaded =>
      let '(table, err) := addManifests loaded (tools m) in
      ({| cfg := cfg m; manifests := loaded; tools := table |}, err)
    end.

(** [HandleCall]: the child processes it ran, and its result: a tool
    result or an error, unless the nil configuration is
    dereferenced. *)
Definition HandleCall (m : Module) (name : string) (args : Arguments_)
  : list Cmd * outcome (CallToolResult + error) :=
  match cfg m with
  | None => ([], Panicked "invalid memory address or nil pointer dereference")
  | Some c =>
    let plugins := Config.Plugins (Config.Modules c) in
    if negb (Config.Plugins_Enabled plugins) then
      ([], Returned (inl (NewToolResultError "plugins module is disabled")))
    else
      match tools m !! name with
      | None =>
        ([], Returned (inl (NewToolResultError ("unknown tool: " ++ name))))
      | Some pt =>
        if Config.SafeMode (Config.Server c) && negb (ReadOnly (tool pt))
        then
          ([], Returned (inl (NewToolResultError "tool blocked in safe mode")))
        else
          match json_Marshal (tool_Name (tool pt)) args with
          | inr err =>
            ([], Returned (inr ("failed to marshal plugin input: " ++ err)))
          | inl data =>
            let spec := Spec_ (manifest pt) in
            let cmdPath := Command spec in
            if String.eqb cmdPath "" then
              ([], Returned
                     (inl (NewToolResultError "plugin command not configured")))
            else
              let cmdPath :=
                if filepath_IsAbs cmdPath then cmdPath
                else filepath_Join [Config.Dir plugins;
                                    Name (Metadata_ (manifest pt));
                                    cmdPath] in
              let cmdArgs := (Args spec ++ ["--nexus-plugin"])%list in
              (* the runtime chooses the order of the manifest's
                 variables; here it is that of [map_to_list] *)
              let manifestEnv :=
                List.map (fun kv => fst kv ++ "=" ++ snd kv)
                         (map_to_list (Env spec)) in
              let env := (Config.Env plugins ++ manifestEnv)%list in
              let cmd := {| cmd_Path := cmdPath; cmd_Args := cmdArgs;
                            cmd_Env := env; cmd_Stdin := data |} in
              match CombinedOutput cmd with
              | (output, Some err) =>
                ([cmd], Returned
                   (inl (NewToolResultError
                           ("plugin error: " ++ err ++ ": "
                            ++ strings_TrimSpace output))))
              | (output, None) =>
                ([cmd], Returned
                   (inl (NewToolResultText
                           (trimOutput output
                                       (Config.Plugins_MaxBytes plugins)))))
              end
          end
      end
  end.

End Provider.

(** *** Vocabulary of the specification *)



End Plugins.

(** ** Sample environments, for the examples *)

Module Samples.
Import Runtime Manifests Plugins.

(** The table of [path]'s own tests of [Match]: pattern, name, the
    expected result and whether [ErrBadPattern] is expected. *)
Definition matchTests : list (string * string * bool * bool) := [
  ("abc", "abc", true, false);
  ("*", "abc", true, false);
  ("*c", "abc", true, false);
  ("a*", "a", true, false);
  ("a*", "abc", true, false);
  ("a*", "ab/c", false, false);
  ("a*/b", "abc/b", true, false);
  ("a*/b", "a/c/b", false, false);
  ("a*b*c*d*e*/f", "axbxcxdxe/f", true, false);
  ("a*b*c*d*e*/f", "axbxcxdxexxx/f", true, false);
  ("a*b*c*d*e*/f", "axbxcxdxe/xxx/f", false, false);
  ("a*b*c*d*e*/f", "axbxcxdxexxx/fff", false, false);
  ("a*b?c*x", "abxbbxdbxebxczzx", true, false);
  ("a*b?c*x", "abxbbxdbxebxczzy", false, false);
  ("ab[c]", "abc", true, false);
  ("ab[b-d]", "abc", true, false);
  ("ab[e-g]", "abc", false, false);
  ("ab[^c]", "abc", false, false);
  ("ab[^b-d]", "abc", false, false);
  ("ab[^e-g]", "abc", true, false);
  ("a\*b", "a*b", true, false);
  ("a\*b", "ab", false, false);
  ("a?b", "a☺b", true, false);
  ("a[^a]b", "a☺b", true, false);
  ("a???b", "a☺b", false, false);
  ("a[^a][^a][^a]b", "a☺b", false, false);
  ("[a-ζ]*", "α", true, false);
  ("*[a-ζ]", "A", false, false);
  ("a?b", "a/b", false, false);
  ("a*b", "a/b", false, false);
  ("[\]a]", "]", true, false);
  ("[\-]", "-", true, false);
  ("[x\-]", "x", true, false);
  ("[x\-]", "-", true, false);
  ("[x\-]", "z", false, false);
  ("[\-x]", "x", true, false);
  ("[\-x]", "-", true, false);
  ("[\-x]", "a", false, false);
  ("[]a]", "]", false, true);
  ("[-]", "-", false, true);
  ("[x-]", "x", false, true);
  ("[x-]", "-", false, true);
  ("[x-]", "z", false, true);
  ("[-x]", "x", false, true);
  ("[-x]", "-", false, true);
  ("[-x]", "a", false, true);
  ("\", "a", false, true);
  ("[a-b-c]", "a", false, true);
  ("[", "a", false, true);
  ("[^", "a", false, true);
  ("[^bc", "a", false, true);
  ("a[", "a", false, true);
  ("a[", "ab", false, true);
  ("a[", "x", false, true);
  ("a/b[", "x", false, true);
  ("*x", "xxx", true, false)
].

Definition passes (t : string * string * bool * bool) : bool :=
  let '(pattern, name, expected, bad) := t in
  let '(matched, err) := Path.Match pattern name in
  Bool.eqb matched expected
  && Bool.eqb (match err with Some _ => true | None => false end) bad.


Definition zeroManifest : Manifest := {|
  APIVersion := ""; Kind := "";
  Metadata_ := {| Name := ""; Vendor := ""; Version := "";
                  Description := "" |};
  Spec_ := {| Command := ""; Args := []; Env := ∅;
              Capabilities_ := {| Tools := [] |} |}
|}.

(** A decoder that rejects the manifest above, and [filepath.Join] on
    clean relative elements. *)
Definition sampleLibrary : Library := {|
  yaml_Unmarshal data :=
    if String.eqb data "metadata: [unclosed"
    then inr "yaml: line 1: did not find expected ',' or ']'"
    else inl zeroManifest;
  filepath_Join elems := String.concat "/" elems
|}.

Definition withPlugins (safe enabled : bool) (policy : Config.PolicyConfig)
  : Config.NexusConfig :=
  let d := Config.DefaultConfig in
  {| Config.Server :=
       {| Config.Name := Config.Name (Config.Server d);
          Config.Version := Config.Version (Config.Server d);
          Config.LogLevel := Config.LogLevel (Config.Server d);
          Config.SafeMode := safe |};
     Config.Modules :=
       {| Config.Kubernetes := Config.Kubernetes (Config.Modules d);
          Config.AWS := Config.AWS (Config.Modules d);
          Config.Prometheus := Config.Prometheus (Config.Modules d);
          Config.Logs := Config.Logs (Config.Modules d);
          Config.Docker := Config.Docker (Config.Modules d);
          Config.Plugins :=
            {| Config.Plugins_Enabled := enabled;
               Config.Dir := "plugins";
               Config.Plugins_MaxBytes := 256 * 1024;
               Config.Env := [] |} |};
     Config.Policy := policy |}.

(** A plugin [ops] with one tool that is not read-only. *)
Definition restartTool : ToolSpec := {|
  tool_Name := "restart"; tool_Description := "Restart a service";
  ReadOnly := false; tool_Args := []
|}.

Definition opsManifest : Manifest := {|
  APIVersion := "nexus/v1"; Kind := "Plugin";
  Metadata_ := {| Name := "ops"; Vendor := "acme"; Version := "0.1.0";
                  Description := "Operations" |};
  Spec_ := {| Command := "./bin/ops"; Args := []; Env := ∅;
              Capabilities_ := {| Tools := [restartTool] |} |}
|}.

Definition opsModule (c : Config.NexusConfig) : Module := {|
  cfg := Some c;
  manifests := [opsManifest];
  tools := {[ "plugin/ops/restart" :=
                {| manifest := opsManifest; tool := restartTool |} ]}
|}.

(** A host whose child processes all succeed. *)
Definition sampleHost : Host := {|
  Arguments_ := list (string * string);
  json_Marshal name args := inl ("{tool: " ++ name ++ "}");
  filepath_IsAbs path := Strings.HasPrefix path "/";
  strings_TrimSpace s := s;
  CombinedOutput cmd := ("done", None)
|}.

(** A configuration file whose [safe_mode] is not a boolean.  As its
    documentation says, [yaml.Unmarshal] goes on decoding after a type
    mismatch and reports the mismatches at the end: the name and the
    byte limit are written, and the error is returned. *)
Definition mistypedDocument : string :=
  "{server: {name: '', safe_mode: maybe}, modules: {plugins: {max_bytes: -1}}}".

Definition configFiles : FileSystem := {|
  os_ReadDir dir := inr "open: no such file or directory";
  os_ReadFile path :=
    if String.eqb path "nexus.yaml" then inl mistypedDocument
    else inr "open: no such file or directory"
|}.

Definition withNameAndLimit (name : string) (maxBytes : Z)
    (c : Config.NexusConfig) : Config.NexusConfig :=
  let server := Config.Server c in
  let modules := Config.Modules c in
  let plugins := Config.Plugins modules in
  {| Config.Server :=
       {| Config.Name := name;
          Config.Version := Config.Version server;
          Config.LogLevel := Config.LogLevel server;
          Config.SafeMode := Config.SafeMode server |};
     Config.Modules :=
       {| Config.Kubernetes := Config.Kubernetes modules;
          Config.AWS := Config.AWS modules;
          Config.Prometheus := Config.Prometheus modules;
          Config.Logs := Config.Logs modules;
          Config.Docker := Config.Docker modules;
          Config.Plugins :=
            {| Config.Plugins_Enabled := Config.Plugins_Enabled plugins;
               Config.Dir := Config.Dir plugins;
               Config.Plugins_MaxBytes := maxBytes;
               Config.Env := Config.Env plugins |} |};
     Config.Policy := Config.Policy c |}.

Definition sampleDecoder : Config.Decoder := {|
  Config.yaml_Unmarshal data c :=
    if String.eqb data mistypedDocument
    then (withNameAndLimit "" (-1) c,
          Some "yaml: unmarshal errors: line 1: cannot unmarshal !!str `maybe` into bool")
    else (c, None)
|}.

(** The provider of the registry's tests: [Init] counts its runs; it
    fails when [fails] is set. *)
Definition testModule (enabled fails : bool) : Registry.Object nat := {|
  Registry.Enabled := Some (fun _ => enabled);
  Registry.Init _ initRuns :=
    (S initRuns, if fails then Some "backend unreachable" else None);
  Registry.fields := 0%nat
|}.

(** A registry with the provider [test] whose [Init] fails. *)
Definition failingRegistry : Registry.Registry nat := {|
  Registry.heap _ := testModule true true;
  Registry.modules := {[ "test" := 0%nat ]};
  Registry.loadOnce := false
|}.

(** A registry with an enabled provider [test] and a disabled provider
    [off]. *)
Definition mixedRegistry : Registry.Registry nat := {|
  Registry.heap p := testModule (Nat.eqb p 0) false;
  Registry.modules := <[ "test" := 0%nat ]> {[ "off" := 1%nat ]};
  Registry.loadOnce := false
|}.

End Samples.

(** ** Package [modules/plugins]: advertisement

    [mcp.Tool] as far as [buildToolSchema] fills it: the name, the
    description, the input schema and the two hints it sets.  A schema
    property is the map with the keys [type] and [description]. *)

Module Advertise.
Import Runtime Manifests Plugins.

Record Property : Type := {
  prop_type : string;
  prop_description : string
}.

Record ToolInputSchema : Type := {
  schema_Type : string;
  Properties : gmap string Property;
  Required : list string
}.

Record Tool : Type := {
  Tool_Name : string;
  Tool_Description : string;
  InputSchema : ToolInputSchema;
  ReadOnlyHint : bool;
  DestructiveHint : bool
}.

Section Schema.
Context {tables : Strings.CaseTables}.

Definition normalizeType (value : string) : string :=
  let lower := Strings.ToLower value in
  if String.eqb lower "int" || String.eqb lower "integer" then "integer"
  else if String.eqb lower "bool" || String.eqb lower "boolean" then "boolean"
  else if String.eqb lower "number" || String.eqb lower "float" then "number"
  else "string".

(** The loop of [buildToolSchema] over the arguments of the tool. *)
Fixpoint addArgs (args : list ArgSpec) (properties : gmap string Property)
    (required : list string) : gmap string Property * list string :=
  match args with
  | [] => (properties, required)
  | arg :: args' =>
    let properties :=
      <[arg_Name arg := {| prop_type := normalizeType (arg_Type arg);
                           prop_description := arg_Description arg |}]>
        properties in
    let required :=
      if arg_Required arg then (required ++ [arg_Name arg])%list
      else required in
    addArgs args' properties required
  end.

Definition buildToolSchema (name : string) (spec : ToolSpec) : Tool :=
  let '(properties, required) := addArgs (tool_Args spec) ∅ [] in
  {| Tool_Name := name;
     Tool_Description := tool_Description spec;
     InputSchema := {| schema_Type := "object";
                       Properties := properties;
                       Required := required |};
     ReadOnlyHint := ReadOnly spec;
     DestructiveHint := negb (ReadOnly spec) |}.

(** [GetTools]: the runtime chooses the order of the table's entries;
    here it is that of [map_to_list]. *)
Definition GetTools (m : Module) : list Tool :=
  match cfg m with
  | None => []
  | Some c =>
    if negb (Enabled c) then []
    else List.map (fun entry => buildToolSchema (fst entry) (tool (snd entry)))
                  (map_to_list (tools m))
  end.

End Schema.

(** *** Vocabulary *)

(** The qualified names of the tools of a list of manifests, in the order
    [Init] enters them. *)
Definition toolNames (m : Manifest) : list string :=
  List.map (fun spec => pluginToolName (Name (Metadata_ m)) (tool_Name spec))
           (Tools (Capabilities_ (Spec_ m))).

Definition fullNames (ms : list Manifest) : list string :=
  List.flat_map toolNames ms.

(** The four types of a schema property. *)
Definition schemaTypes : list string :=
  ["string"; "number"; "integer"; "boolean"].

(** The spellings [normalizeType] knows, with the type each stands for. *)
Definition aliases : list (string * string) :=
  [("int", "integer"); ("integer", "integer");
   ("bool", "boolean"); ("boolean", "boolean");
   ("number", "number"); ("float", "number")].

(** The table entries [Init] makes for a manifest, in order. *)
Definition entriesOf (m : Manifest) : list (string * pluginTool) :=
  List.map (fun spec =>
              (pluginToolName (Name (Metadata_ m)) (tool_Name spec),
               {| manifest := m; tool := spec |}))
           (Tools (Capabilities_ (Spec_ m))).

Definition allEntries (ms : list Manifest) : list (string * pluginTool) :=
  List.flat_map entriesOf ms.

(** Entering a list of entries into the table the way the two loops of
    [Init] do, one after the other and stopping at a name that is
    taken. *)
Fixpoint enter (entries : list (string * pluginTool))
    (table : gmap string pluginTool)
  : gmap string pluginTool * option error :=
  match entries with
  | [] => (table, None)
  | (fullName, pt) :: entries' =>
    match table !! fullName with
    | Some _ => (table, Some ("duplicate plugin tool name: " ++ fullName))
    | None => enter entries' (<[fullName := pt]> table)
    end
  end.

(** The names of the entries are distinct and not in the table. *)
Definition enterable (entries : list (string * pluginTool))
    (table : gmap string pluginTool) : Prop :=
  List.NoDup (List.map fst entries)
  /\ forall k, In k (List.map fst entries) -> table !! k = None.

(** The entries [key=value] of the variables a manifest declares, one
    for each key. *)
Definition assignments (env : gmap string string) : list string :=
  List.map (fun kv => fst kv ++ "=" ++ snd kv) (map_to_list env).

(** The manifest [LoadManifests] takes from a directory entry: the
    decoded manifest, under the name of the directory when it declares
    none. *)
Definition named (entry : DirEntry) (m : Manifest) : Manifest :=
  if String.eqb (Name (Metadata_ m)) "" then withName (entry_Name entry) m
  else m.

Definition manifestPath {lib : Library} (dir : string) (entry : DirEntry)
  : string :=
  filepath_Join [dir; entry_Name entry; ManifestName].

(** The directory entry holds a manifest that parses to [m]. *)
Definition holds {fs : FileSystem} {lib : Library} (dir : string)
    (entry : DirEntry) (m : Manifest) : Prop :=
  entry_IsDir entry = true
  /\ exists data decoded,
       os_ReadFile (manifestPath dir entry) = inl data
       /\ yaml_Unmarshal data = inl decoded
       /\ m = named entry decoded.

End Advertise.

(** ** Package [plugins]: the installer

    [strings.HasSuffix], [strings.TrimSuffix] and, for slash-separated
    paths, [filepath.Ext] and [filepath.Base] after the library's
    sources.  Downloading, [os.Stat] and the four ways of copying or
    unpacking a bundle belong to the environment; [Install] is modelled
    with the operations it asks for, in order. *)

Module Filepath.

Definition isSeparator (b : ascii) : bool := Ascii.eqb b "/".

(** [strings.HasSuffix]:
    [len(s) >= len(suffix) && s[len(s)-len(suffix):] == suffix] *)
Definition HasSuffix (s suffix : string) : bool :=
  let n := String.length s in
  let k := String.length suffix in
  Nat.leb k n && String.eqb (str (skipn (n - k) (bytes s))) suffix.

(** [strings.TrimSuffix] *)
Definition TrimSuffix (s suffix : string) : string :=
  if HasSuffix s suffix
  then str (firstn (String.length s - String.length suffix) (bytes s))
  else s.

(** [filepath.Ext]: the loop runs from the last byte backwards, up to a
    separator; [tail] holds the bytes already passed. *)
Fixpoint extFrom (backwards tail : list ascii) : list ascii :=
  match backwards with
  | [] => []
  | b :: backwards' =>
    if isSeparator b then []
    else if Ascii.eqb b "." then b :: tail
    else extFrom backwards' (b :: tail)
  end.

Definition Ext (path : string) : string :=
  str (extFrom (rev (bytes path)) []).

(** [filepath.Base]: trailing separators are stripped, then the bytes
    after the last separator are kept. *)
Fixpoint stripSeparators (backwards : list ascii) : list ascii :=
  match backwards with
  | b :: backwards' =>
    if isSeparator b then stripSeparators backwards' else backwards
  | [] => []
  end.

Fixpoint lastElement (backwards tail : list ascii) : list ascii :=
  match backwards with
  | [] => tail
  | b :: backwards' =>
    if isSeparator b then tail else lastElement backwards' (b :: tail)
  end.

Definition Base (path : string) : string :=
  if String.eqb path "" then "."
  else
    match lastElement (stripSeparators (rev (bytes path))) [] with
    | [] => "/"
    | name => str name
    end.

End Filepath.

Module Installer.
Import Runtime Manifests Filepath.

Definition trimExt (name : string) : string :=
  TrimSuffix name (Ext name).

(** The operations [Install] asks of the environment. *)
Inductive op : Type :=
| MkdirAll (path : string)
| Get (url : string)                    (* [download] *)
| CopyDir (src dst : string)
| Unzip (src dst : string)
| UntarGz (src dst : string)
| CopyFile (src dst : string)
| Remove (path : string).               (* the deferred [cleanup] *)

(** Their results: the error of an operation, the temporary file of a
    download, and whether [os.Stat] finds a directory. *)
Class Disk : Type := {
  os_MkdirAll : string -> option error;
  download : string -> string + error;
  os_Stat : string -> bool + error;
  copyDir : string -> string -> option error;
  unzip : string -> string -> option error;
  untarGz : string -> string -> option error;
  copyFile : string -> string -> option error
}.

Section Install.
Context {tables : Strings.CaseTables} {lib : Library} {disk : Disk}.

(** One copying or unpacking operation and what [Install] returns after
    it. *)
Definition attempt (o : op) (target : string) (result : option error)
  : list op * (string * option error) :=
  match result with
  | Some err => ([o], ("", Some err))
  | None => ([o], (target, None))
  end.

(** [Install] from [os.Stat] on. *)
Definition place (localPath destDir : string)
  : list op * (string * option error) :=
  match os_Stat localPath with
  | inr err => ([], ("", Some err))
  | inl isDir =>
    if isDir then
      let target := filepath_Join [destDir; Base localPath] in
      attempt (CopyDir localPath target) target (copyDir localPath target)
    else
      let ext := Strings.ToLower (Ext localPath) in
      if String.eqb ext ".zip" then
        let target := filepath_Join [destDir; trimExt (Base localPath)] in
        attempt (Unzip localPath target) target (unzip localPath target)
      else if String.eqb ext ".gz"
              && (HasSuffix localPath ".tar.gz" || HasSuffix localPath ".tgz")
      then
        let target :=
          filepath_Join [destDir; trimExt (trimExt (Base localPath))] in
        attempt (UntarGz localPath target) target (untarGz localPath target)
      else
        let target := filepath_Join [destDir; Base localPath] in
        attempt (CopyFile localPath target) target (copyFile localPath target)
  end.

(** [resolveSource]: is the source a URL? *)
Definition isRemote (source : string) : bool :=
  Strings.HasPrefix source "http://" || Strings.HasPrefix source "https://".

Definition Install (source destDir : string)
  : list op * (string * option error) :=
  if String.eqb source "" then ([], ("", Some "source is required"))
  else if String.eqb destDir "" then
    ([], ("", Some "plugins directory is required"))
  else
    match os_MkdirAll destDir with
    | Some err => ([MkdirAll destDir], ("", Some err))
    | None =>
      if isRemote source then
        match download source with
        | inr err => ([MkdirAll destDir; Get source], ("", Some err))
        | inl localPath =>
          let '(ops, result) := place localPath destDir in
          ((MkdirAll destDir :: Get source :: ops) ++ [Remove localPath],
           result)%list
        end
      else
        let '(ops, result) := place source destDir in
        (MkdirAll destDir :: ops, result)
    end.

End Install.

(** *** Vocabulary *)





End Installer.

(** ** The dispatcher of [cmd/nexus]

    A provider, as one pass over the providers sees it: its name, the
    tools its [GetTools] returns when the pass calls it, and its
    [HandleCall].  [registerTools] and [collectToolSummaries] each make a
    pass of their own, and a provider may answer the two differently:
    the plugin provider ranges over a map, so the order of its tools
    changes from call to call.  The server is the list of the [AddTool]
    calls; a handler is modelled with the [HandleCall] calls it makes.
    [confirmTool] reads one line from the terminal: [None] when the
    terminal cannot be opened. *)

Module Dispatch.
Import Config Advertise.

Record toolSummary : Type := {
  summary_Module : string;
  summary_Name : string;
  summary_Description : string;
  summary_Status : string
}.

Section Server.
Context {tables : Strings.CaseTables}.

(** Argument bags, replies, [mcp.NewToolResultError], the empty bag and
    [strings.TrimSpace]. *)
Context {Arguments_ Reply : Type}.
Variable NewToolResultError : string -> Reply.
Variable noArguments : Arguments_.
Variable TrimSpace : string -> string.

Record NexusModule : Type := {
  mod_Name : string;
  mod_GetTools : list Tool;
  mod_HandleCall : string -> Arguments_ -> Reply
}.

(** A call of a provider's [HandleCall]. *)
Inductive invocation : Type :=
| Invoke (module name : string) (args : Arguments_).

Definition confirmTool (module tool : string) (tty : option string) : bool :=
  match tty with
  | None => false
  | Some line =>
    let response := TrimSpace (Strings.ToLower line) in
    String.eqb response "y" || String.eqb response "yes"
  end.

Definition isDeny (d : Policy.Decision) : bool :=
  match d with Policy.Deny => true | _ => false end.

Definition isConfirm (d : Policy.Decision) : bool :=
  match d with Policy.Confirm => true | _ => false end.

(** The handler [registerTools] adds for the tool [name] of [provider]:
    [request] is the argument bag of the request, if it is one. *)
Definition handler (toolPolicy : Policy.Policy) (provider : NexusModule)
    (name : string) (tty : option string) (request : option Arguments_)
  : list invocation * Reply :=
  let callDecision := Policy.Evaluate toolPolicy (mod_Name provider) name in
  if isDeny callDecision then
    ([], NewToolResultError "tool blocked by policy")
  else if isConfirm callDecision
          && negb (confirmTool (mod_Name provider) name tty) then
    ([], NewToolResultError "tool execution denied by user")
  else
    let args := match request with Some a => a | None => noArguments end in
    ([Invoke (mod_Name provider) name args], mod_HandleCall provider name args).

(** An [AddTool] call: the tool and the provider and name its handler
    closes over. *)
Record registration : Type := {
  reg_Tool : Tool;
  reg_Module : NexusModule;
  reg_Name : string
}.

Definition handle (toolPolicy : Policy.Policy) (r : registration)
  : option string -> option Arguments_ -> list invocation * Reply :=
  handler toolPolicy (reg_Module r) (reg_Name r).

Fixpoint registerModule (toolPolicy : Policy.Policy) (provider : NexusModule)
    (tools : list Tool) : list registration :=
  match tools with
  | [] => []
  | tool :: tools' =>
    let decision :=
      Policy.Evaluate toolPolicy (mod_Name provider) (Tool_Name tool) in
    if isDeny decision then registerModule toolPolicy provider tools'
    else {| reg_Tool := tool; reg_Module := provider;
            reg_Name := Tool_Name tool |}
         :: registerModule toolPolicy provider tools'
  end.

Definition registerTools (modules : list NexusModule)
    (toolPolicy : Policy.Policy) : list registration :=
  List.flat_map (fun provider => registerModule toolPolicy provider (mod_GetTools provider))
                modules.

Definition statusOf (decision : Policy.Decision) : string :=
  match decision with
  | Policy.Confirm => "confirm"
  | Policy.Deny => "denied"
  | Policy.Allow => "allowed"
  end.

Definition summarize (toolPolicy : Policy.Policy) (provider : NexusModule)
    (tool : Tool) : toolSummary :=
  {| summary_Module := mod_Name provider;
     summary_Name := Tool_Name tool;
     summary_Description := Tool_Description tool;
     summary_Status :=
       statusOf (Policy.Evaluate toolPolicy (mod_Name provider) (Tool_Name tool)) |}.

Definition collectToolSummaries (modules : list NexusModule)
    (toolPolicy : Policy.Policy) : list toolSummary :=
  List.flat_map (fun provider => List.map (summarize toolPolicy provider)
                                     (mod_GetTools provider))
                modules.

(** *** Vocabulary *)

(** What a registration and a summary say of a tool: the provider, the
    name and the description. *)
Definition registered (r : registration) : string * string * string :=
  (mod_Name (reg_Module r), reg_Name r, Tool_Description (reg_Tool r)).

Definition summarized (s : toolSummary) : string * string * string :=
  (summary_Module s, summary_Name s, summary_Description s).

(** A provider as two passes see it: under the same name and with the
    same tools, each time in an order of the provider's choice. *)
Definition sameTools (seen seen' : NexusModule) : Prop :=
  mod_Name seen = mod_Name seen'
  /\ Permutation (mod_GetTools seen) (mod_GetTools seen').

End Server.

(** A summary whose status is not [denied]. *)
Definition listed (s : toolSummary) : bool :=
  negb (String.eqb (summary_Status s) "denied").

End Dispatch.

(** ** Further vocabulary *)

Module Rules.
Import Config Policy.

(** One of the three deny rules of [Evaluate] applies. *)
Definition denies {tables : Strings.CaseTables} (p : Policy)
    (module tool : string) : Prop :=
  (safeMode p = true /\ isSensitiveTool tool = true)
  \/ moduleMatches (DenyModules (cfg p)) module
  \/ toolMatches (DenyTools (cfg p)) module tool
  \/ ((AllowModules (cfg p) <> [] \/ AllowTools (cfg p) <> [])
      /\ ~ moduleMatches (AllowModules (cfg p)) module
      /\ ~ toolMatches (AllowTools (cfg p)) module tool).

(** Two pattern lists with the same patterns, in any order and any
    number of copies. *)
Definition samePatterns (l k : list string) : Prop :=
  forall pattern, In pattern l <-> In pattern k.

Definition sameLists (c c' : PolicyConfig) : Prop :=
  samePatterns (AllowModules c) (AllowModules c')
  /\ samePatterns (DenyModules c) (DenyModules c')
  /\ samePatterns (AllowTools c) (AllowTools c')
  /\ samePatterns (DenyTools c) (DenyTools c')
  /\ samePatterns (ConfirmTools c) (ConfirmTools c').

End Rules.

Module Filled.
Import Config.

(** Every field [applyDefaults] looks at is set: the strings are not
    empty and the limits are positive. *)
Definition filled (c : NexusConfig) : Prop :=
  Name (Server c) <> ""
  /\ Version (Server c) <> ""
  /\ LogLevel (Server c) <> ""
  /\ Kubeconfig (Kubernetes (Modules c)) <> ""
  /\ Region (AWS (Modules c)) <> ""
  /\ URL (Prometheus (Modules c)) <> ""
  /\ 0 < Logs_MaxBytes (Logs (Modules c))
  /\ 0 < Logs_MaxLines (Logs (Modules c))
  /\ CLI (Docker (Modules c)) <> ""
  /\ 0 < Docker_MaxLines (Docker (Modules c))
  /\ Dir (Plugins (Modules c)) <> ""
  /\ 0 < Plugins_MaxBytes (Plugins (Modules c)).

(** The fields [applyDefaults] never touches. *)
Definition switches (c : NexusConfig)
  : bool * (bool * bool * bool * bool * bool * bool)
    * (list string * list string) * PolicyConfig :=
  (SafeMode (Server c),
   (Kubernetes_Enabled (Kubernetes (Modules c)),
    AWS_Enabled (AWS (Modules c)),
    Prometheus_Enabled (Prometheus (Modules c)),
    Logs_Enabled (Logs (Modules c)),
    Docker_Enabled (Docker (Modules c)),
    Plugins_Enabled (Plugins (Modules c))),
   (AllowPaths (Logs (Modules c)), Env (Plugins (Modules c))),
   Policy c).

End Filled.

(** ** Further sample environments *)

Module MoreSamples.
Import Runtime Manifests Plugins.

(** A configuration file that leaves the server name empty and sets the
    byte limit of the plugins to zero, and a decoder for it. *)
Definition sparseDocument : string :=
  "{server: {name: ''}, modules: {plugins: {max_bytes: 0}}}".

Definition sparseFiles : FileSystem := {|
  os_ReadDir dir := inr "open: no such file or directory";
  os_ReadFile path :=
    if String.eqb path "sparse.yaml" then inl sparseDocument
    else inr "open: no such file or directory"
|}.

Definition sparseDecoder : Config.Decoder := {|
  Config.yaml_Unmarshal data c :=
    if String.eqb data sparseDocument
    then (Samples.withNameAndLimit "" 0 c, None)
    else (c, Some "yaml: did not find expected node content")
|}.

(** A registry with the provider [first], whose [Init] succeeds, and the
    provider [second], whose [Init] fails. *)
Definition halfRegistry : Registry.Registry nat := {|
  Registry.heap p := Samples.testModule true (Nat.eqb p 1);
  Registry.modules := <[ "first" := 0%nat ]> {[ "second" := 1%nat ]};
  Registry.loadOnce := false
|}.

(** A plugins directory with the plugin [metrics], whose manifest
    declares no name, a file, the plugin [ops] and a directory without
    manifest; and a decoder for the two manifests. *)
Definition queryTool : ToolSpec := {|
  tool_Name := "query"; tool_Description := "Query a metric";
  ReadOnly := true;
  tool_Args := [
    {| arg_Name := "expr"; arg_Type := "String"; arg_Required := true;
       arg_Description := "Expression" |};
    {| arg_Name := "limit"; arg_Type := "INT"; arg_Required := false;
       arg_Description := "Maximum number of series" |}
  ]
|}.

Definition metricsManifest : Manifest := {|
  APIVersion := "nexus/v1"; Kind := "Plugin";
  Metadata_ := {| Name := ""; Vendor := "acme"; Version := "0.2.0";
                  Description := "Metrics" |};
  Spec_ := {| Command := "/usr/local/bin/metrics"; Args := ["--json"];
              Env := {[ "REGION" := "eu" ]};
              Capabilities_ := {| Tools := [queryTool] |} |}
|}.

Definition pluginDir : FileSystem := {|
  os_ReadDir dir :=
    if String.eqb dir "plugins"
    then inl [{| entry_Name := "metrics"; entry_IsDir := true |};
              {| entry_Name := "notes.txt"; entry_IsDir := false |};
              {| entry_Name := "ops"; entry_IsDir := true |};
              {| entry_Name := "scratch"; entry_IsDir := true |}]
    else inr "open: no such file or directory";
  os_ReadFile path :=
    if String.eqb path "plugins/metrics/nexus.yaml" then inl "metrics manifest"
    else if String.eqb path "plugins/ops/nexus.yaml" then inl "ops manifest"
    else inr "open: no such file or directory"
|}.

Definition pluginLibrary : Library := {|
  yaml_Unmarshal data :=
    if String.eqb data "metrics manifest" then inl metricsManifest
    else if String.eqb data "ops manifest" then inl Samples.opsManifest
    else inr "yaml: did not find expected node content";
  filepath_Join elems := String.concat "/" elems
|}.

(** The same directory where both plugins declare the name [ops]. *)
Definition clashLibrary : Library := {|
  yaml_Unmarshal data :=
    if String.eqb data "metrics manifest" then inl Samples.opsManifest
    else if String.eqb data "ops manifest" then inl Samples.opsManifest
    else inr "yaml: did not find expected node content";
  filepath_Join elems := String.concat "/" elems
|}.

(** The provider after [Init] on that directory, with the plugins
    switched on. *)
Definition pluginsConfig : Config.NexusConfig :=
  Samples.withPlugins false true (Config.Policy Config.DefaultConfig).

Definition loadedModule : Module :=
  fst (Init (fs := pluginDir) (lib := pluginLibrary) pluginsConfig New).

(** A disk on which every operation succeeds: [bundles] is a
    directory, every other path a file, and a download is kept in a
    temporary file. *)
Definition sampleDisk : Installer.Disk := {|
  Installer.os_MkdirAll _ := None;
  Installer.download _ := inl "/tmp/nexus-plugin-4187";
  Installer.os_Stat path :=
    if String.eqb path "bundles" then inl true else inl false;
  Installer.copyDir _ _ := None;
  Installer.unzip _ _ := None;
  Installer.untarGz _ _ := None;
  Installer.copyFile _ _ := None
|}.

(** The plugin provider as the dispatcher sees it, with a [HandleCall]
    that echoes the name, and a policy that asks for confirmation of the
    tools of [metrics] and denies those of [ops]. *)
Definition echoModule
  : Dispatch.NexusModule (Arguments_ := list (string * string))
                         (Reply := string) := {|
  Dispatch.mod_Name := "plugins";
  Dispatch.mod_GetTools :=
    Advertise.GetTools (tables := Strings.excerptTables)
      (fst (Init (fs := pluginDir) (lib := pluginLibrary)
                 (Samples.withPlugins false true
                    (Config.Policy Config.DefaultConfig)) New));
  Dispatch.mod_HandleCall name _ := "ran " ++ name
|}.

(** The same provider at a later call of [GetTools], its tools in the
    opposite order. *)
Definition echoModuleAgain
  : Dispatch.NexusModule (Arguments_ := list (string * string))
                         (Reply := string) := {|
  Dispatch.mod_Name := "plugins";
  Dispatch.mod_GetTools := rev (Dispatch.mod_GetTools echoModule);
  Dispatch.mod_HandleCall name _ := "ran " ++ name
|}.

Definition confirmMetrics : Policy.Policy :=
  Policy.New (Policy.policyOf [] [] [] ["plugin/ops/*"] ["plugin/metrics/*"])
             false.

Definition queryRegistration : Dispatch.registration := {|
  Dispatch.reg_Tool :=
    Advertise.buildToolSchema (tables := Strings.excerptTables)
      "plugin/metrics/query" queryTool;
  Dispatch.reg_Module := echoModule;
  Dispatch.reg_Name := "plugin/metrics/query"
|}.

(** The process [HandleCall] starts for the tool [query]. *)
Definition queryCmd : Cmd := {|
  cmd_Path := "/usr/local/bin/metrics";
  cmd_Args := ["--json"; "--nexus-plugin"];
  cmd_Env := ["REGION=eu"];
  cmd_Stdin := "{tool: query}"
|}.

End MoreSamples.

(** * Properties *)

(** ** Byte strings and the library functions *)

Module BytesFacts.

Lemma append_cons c (s t : string) : String c s ++ t = String c (s ++ t).
Proof. reflexivity. Qed.

Lemma append_nil (t : string) : "" ++ t = t.
Proof. reflexivity. Qed.

Lemma bytes_str l : bytes (str l) = l.
Proof. apply list_ascii_of_string_of_list_ascii. Qed.

Lemma str_bytes s : str (bytes s) = s.
Proof. apply string_of_list_ascii_of_string. Qed.

Lemma bytes_app s t : bytes (s ++ t) = (bytes s ++ bytes t)%list.
Proof.
  induction s as [|c s IH]; [reflexivity |].
  rewrite append_cons. unfold bytes in *. simpl. now rewrite IH.
Qed.

Lemma str_app l k : str (l ++ k)%list = str l ++ str k.
Proof.
  induction l as [|c l IH]; [reflexivity |].
  unfold str in *. simpl. now rewrite IH, append_cons.
Qed.

Lemma length_bytes s : List.length (bytes s) = String.length s.
Proof.
  induction s as [|c s IH]; [reflexivity |].
  unfold bytes in *. simpl. now rewrite IH.
Qed.

Lemma code_range b : 0 <= code b < 256.
Proof. unfold code. pose proof (N_ascii_bounded b) as Hb. lia. Qed.

Lemma chr_code b : chr (code b) = b.
Proof. unfold chr, code. rewrite N2Z.id. apply ascii_N_embedding. Qed.

Lemma code_chr z : 0 <= z < 256 -> code (chr z) = z.
Proof.
  intros Hz. unfold chr, code. rewrite N_ascii_embedding by lia. lia.
Qed.

Lemma append_assoc (s t u : string) : (s ++ t) ++ u = s ++ t ++ u.
Proof.
  induction s as [|c s IH]; [reflexivity |].
  now rewrite !append_cons, IH.
Qed.

End BytesFacts.

Module StringsFacts.
Import BytesFacts Strings.

Lemma HasPrefix_app s t : HasPrefix (s ++ t) s = true.
Proof.
  induction s as [|c s IH]; [rewrite append_nil; now destruct t |].
  rewrite append_cons. simpl. now rewrite Ascii.eqb_refl, IH.
Qed.

Lemma Contains_app before s after :
  Contains (before ++ s ++ after) s = true.
Proof.
  induction before as [|c before IH].
  - rewrite append_nil.
    destruct s as [|c s]; [now destruct after |].
    rewrite append_cons. simpl.
    now rewrite Ascii.eqb_refl, HasPrefix_app.
  - rewrite append_cons. simpl. rewrite IH. apply orb_true_r.
Qed.

Lemma Contains_bytes s sub x y :
  bytes s = (x ++ bytes sub ++ y)%list -> Contains s sub = true.
Proof.
  intros Hs.
  rewrite <- (str_bytes s), Hs, !str_app, str_bytes.
  apply Contains_app.
Qed.

End StringsFacts.

Module Utf8Facts.
Import BytesFacts Utf8.

Lemma DecodeRune_ascii b t :
  code b < 128 -> DecodeRune (b :: t) = (code b, 1%nat).
Proof.
  intros Hb. unfold DecodeRune, first.
  destruct (code b <? 128) eqn:E; [reflexivity | lia].
Qed.

Lemma first_cases b :
  In (first b) [as_; xx; s1; s2; s3; s4; s5; s6; s7].
Proof.
  unfold first.
  repeat match goal with
         | |- context [if ?c then _ else _] => destruct c
         end; simpl; tauto.
Qed.

Ltac eval_first H :=
  repeat match type of H with
  | context [acceptRanges (Z.shiftr (Zpos ?p) 4)] =>
    let v := eval vm_compute in (acceptRanges (Z.shiftr (Zpos p) 4)) in
    change (acceptRanges (Z.shiftr (Zpos p) 4)) with v in H
  | context [Z.land (Zpos ?p) 7] =>
    let v := eval vm_compute in (Z.land (Zpos p) 7) in
    change (Z.land (Zpos p) 7) with v in H
  | context [Zpos ?p <=? Zpos ?q] =>
    let v := eval vm_compute in (Zpos p <=? Zpos q) in
    change (Zpos p <=? Zpos q) with v in H
  | context [Zpos ?p =? Zpos ?q] =>
    let v := eval vm_compute in (Zpos p =? Zpos q) in
    change (Zpos p =? Zpos q) with v in H
  end;
  cbv iota beta in H.

Ltac continuation :=
  repeat match goal with
         | H : (_ || _) = false |- _ =>
           apply orb_false_elim in H; destruct H
         end;
  unfold locb, hicb in *; lia.

(** Every byte of a rune after the first is a continuation byte. *)
Lemma DecodeRune_width s c w :
  DecodeRune s = (c, w) ->
  forall k, (1 <= k < w)%nat ->
  exists b, nth_error s k = Some b /\ 128 <= code b.
Proof.
  intros Hd k Hk. unfold DecodeRune in Hd.
  destruct s as [|b0 t]; [inversion Hd; subst; lia |].
  cbv zeta in Hd.
  pose proof (first_cases (code b0)) as Hf.
  simpl in Hf.
  destruct Hf as [E|[E|[E|[E|[E|[E|[E|[E|[E|[]]]]]]]]]]; rewrite <- E in Hd;
    clear E; cbv [as_ xx s1 s2 s3 s4 s5 s6 s7] in Hd; eval_first Hd.
  all: try (inversion Hd; subst; lia).
  all: repeat match type of Hd with
              | context [if ?c then _ else _] => destruct c eqn:?
              | context [match ?l with [] => _ | _ :: _ => _ end] =>
                destruct l
              end.
  all: inversion Hd; subst; clear Hd; try lia.
  all: destruct k as [|[|[|[|k]]]]; try lia; simpl;
    eexists; (split; [reflexivity | continuation]).
Qed.

Example DecodeRune_samples :
  DecodeRune (bytes "☺") = (9786, 3%nat)
  /\ DecodeRune (bytes "é!") = (233, 2%nat)
  /\ DecodeRune [chr 192; chr 128] = (RuneError, 1%nat)   (* overlong *)
  /\ DecodeRune [chr 237; chr 160; chr 128] = (RuneError, 1%nat) (* surrogate *)
  /\ DecodeRune [chr 226; chr 152] = (RuneError, 1%nat)   (* cut short *)
  /\ DecodeRune [chr 240; chr 159; chr 152; chr 128] = (128512, 4%nat).
Proof. vm_compute. repeat split. Qed.

Example EncodeRune_samples :
  EncodeRune 9786 = bytes "☺"
  /\ EncodeRune 233 = bytes "é"
  /\ EncodeRune RuneError = [chr 239; chr 191; chr 189]
  /\ EncodeRune 55296 = [chr 239; chr 191; chr 189].
Proof. vm_compute. repeat split. Qed.

End Utf8Facts.

Module PathFacts.

(** The model of [path.Match] passes the tests of the library. *)
Example Match_passes_library_tests :
  forallb Samples.passes Samples.matchTests = true.
Proof. vm_compute. reflexivity. Qed.

End PathFacts.

Module LowerFacts.
Import BytesFacts StringsFacts Utf8Facts Strings.

Section Lower.
Context {tables : CaseTables}.

Lemma lowerByte_code b :
  asciiByte b -> unicode_ToLower (code b) = code (lowerByte b).
Proof.
  unfold asciiByte, unicode_ToLower, lowerByte, isUpperASCII. intros Hb.
  pose proof (code_range b).
  destruct (code b <=? 127) eqn:E; [| lia].
  destruct ((65 <=? code b) && (code b <=? 90)) eqn:U; [| reflexivity].
  rewrite code_chr; lia.
Qed.

Lemma lowerByte_ascii b : asciiByte b -> asciiByte (lowerByte b).
Proof.
  unfold asciiByte, lowerByte, isUpperASCII. intros Hb.
  destruct ((65 <=? code b) && (code b <=? 90)) eqn:U; [| exact Hb].
  rewrite code_chr; lia.
Qed.

(** A run of ASCII bytes is lowered byte by byte. *)
Lemma Map_from_ascii_run mid rest :
  Forall asciiByte mid ->
  Map_from unicode_ToLower 0 (mid ++ rest)
  = (List.map lowerByte mid ++ Map_from unicode_ToLower 0 rest)%list.
Proof.
  induction 1 as [|b mid Hb Hmid IH]; [reflexivity |].
  change ((b :: mid) ++ rest)%list with (b :: (mid ++ rest))%list.
  cbn [Map_from].
  rewrite (DecodeRune_ascii b (mid ++ rest)%list Hb).
  rewrite (lowerByte_code b Hb).
  pose proof (code_range (lowerByte b)) as Hr.
  pose proof (lowerByte_ascii b Hb) as Hl. unfold asciiByte in Hl.
  destruct (0 <=? code (lowerByte b)) eqn:E0; [| lia].
  unfold Utf8.EncodeRune.
  destruct (code (lowerByte b) <=? 127) eqn:E1; [| lia].
  rewrite chr_code. cbn [Nat.pred app List.map]. now rewrite IH.
Qed.

(** Decoding never runs over an ASCII byte: the output from an ASCII
    byte on does not depend on what precedes it. *)
Lemma Map_from_prefix mapping before skip b rest :
  asciiByte b -> (skip <= List.length before)%nat ->
  exists out,
    Map_from mapping skip (before ++ b :: rest)
    = (out ++ Map_from mapping 0 (b :: rest))%list.
Proof.
  intros Hb. revert skip.
  induction before as [|a before IH]; intros skip Hskip.
  - simpl in Hskip. assert (skip = 0%nat) as -> by lia.
    now exists [].
  - change ((a :: before) ++ b :: rest)%list
      with (a :: (before ++ b :: rest))%list.
    destruct skip as [|skip].
    + cbn [Map_from].
      destruct (Utf8.DecodeRune (a :: before ++ b :: rest)) as [c w] eqn:Hd.
      assert (Nat.pred w <= List.length before)%nat as Hw.
      { destruct (Nat.le_gt_cases (Nat.pred w) (List.length before))
          as [Hle|Hgt]; [exact Hle |].
        destruct (DecodeRune_width _ _ _ Hd (S (List.length before)))
          as [x [Hx Hc]]; [lia |].
        simpl in Hx. rewrite nth_error_app2 in Hx by lia.
        rewrite Nat.sub_diag in Hx. simpl in Hx.
        injection Hx as <-. unfold asciiByte in Hb. lia. }
      destruct (IH _ Hw) as [out Hout]. rewrite Hout.
      eexists. now rewrite app_assoc.
    + cbn [Map_from]. apply IH. simpl in Hskip. lia.
Qed.

Example ToLower_samples :
  ToLower "k8s_list_pods" = "k8s_list_pods"
  /\ ToLower "K8s_DELETE_Pod" = "k8s_delete_pod"
  /\ ToLower (tables := excerptTables) "CAFÉ_Write" = "café_write".
Proof. vm_compute. repeat split. Qed.

Lemma sameLetter_lowered a b :
  Policy.sameLetter a b -> lowered b = true ->
  lowerByte a = b /\ asciiByte a.
Proof.
  unfold Policy.sameLetter, lowered, lowerByte, isUpperASCII, asciiByte.
  intros Hs Hb. pose proof (code_range a). pose proof (code_range b).
  apply andb_true_iff in Hb as [Hb1 Hb2].
  apply negb_true_iff in Hb2.
  destruct Hs as [-> | [[Ha Hab] | [Hb Hab]]].
  - rewrite Hb2. split; [reflexivity | lia].
  - destruct ((65 <=? code a) && (code a <=? 90)) eqn:U; [| lia].
    split; [| lia]. now rewrite <- Hab, chr_code.
  - apply andb_false_iff in Hb2. lia.
Qed.

Lemma equalFold_lowered mid keyword :
  Policy.equalFold mid keyword ->
  forallb lowered (bytes keyword) = true ->
  List.map lowerByte (bytes mid) = bytes keyword
  /\ Forall asciiByte (bytes mid).
Proof.
  unfold Policy.equalFold. intros Hf.
  induction Hf as [|a b l k Hab Hlk IH]; intros Hk; [now split |].
  simpl in Hk. apply andb_true_iff in Hk as [Hb Hk].
  destruct (sameLetter_lowered a b Hab Hb) as [E Ha].
  destruct (IH Hk) as [E' Hl].
  split; [simpl; now rewrite E, E' | now constructor].
Qed.

Lemma Contains_empty s : Contains s "" = true.
Proof. now destruct s. Qed.

(** The lowered string contains every keyword the string contains,
    letter case aside. *)
Lemma ToLower_contains tool keyword :
  forallb lowered (bytes keyword) = true ->
  Policy.containsFold tool keyword ->
  Contains (ToLower tool) keyword = true.
Proof.
  intros Hk (before & mid & after & -> & Hf).
  destruct (equalFold_lowered _ _ Hf Hk) as [Hmap Hascii].
  unfold ToLower.
  destruct (isASCII (before ++ mid ++ after)) eqn:HA.
  - destruct (hasUpper (before ++ mid ++ after)) eqn:HU; cbn [negb].
    + apply Contains_bytes with
        (x := List.map lowerByte (bytes before))
        (y := List.map lowerByte (bytes after)).
      now rewrite bytes_str, !bytes_app, !map_app, Hmap.
    + assert (mid = keyword) as ->; [| apply Contains_app].
      rewrite <- (str_bytes mid), <- (str_bytes keyword), <- Hmap.
      f_equal. symmetry.
      unfold hasUpper in HU. rewrite !bytes_app, !existsb_app in HU.
      apply orb_false_elim in HU as [_ HU].
      apply orb_false_elim in HU as [HU _].
      clear -HU. induction (bytes mid) as [|a l IH]; [reflexivity |].
      simpl in HU. apply orb_false_elim in HU as [Ha HU].
      simpl. unfold lowerByte at 1. rewrite Ha. now rewrite IH.
  - unfold Map. rewrite !bytes_app.
    destruct (bytes mid) as [|b mid'] eqn:Hm.
    + simpl in Hmap.
      rewrite <- (str_bytes keyword), <- Hmap. apply Contains_empty.
    + inversion Hascii as [|? ? Hb Hmid']; subst.
      destruct (Map_from_prefix unicode_ToLower (bytes before) 0 b
                  (mid' ++ bytes after) Hb) as [out Hout]; [lia |].
      change ((b :: mid') ++ bytes after)%list
        with (b :: (mid' ++ bytes after))%list.
      rewrite Hout.
      change (b :: (mid' ++ bytes after))%list
        with ((b :: mid') ++ bytes after)%list.
      rewrite (Map_from_ascii_run (b :: mid') (bytes after) Hascii), Hmap.
      eapply Contains_bytes. now rewrite bytes_str.
Qed.

End Lower.
End LowerFacts.

(** ** The policy engine *)

Module PolicyFacts.
Import Config Policy.

Section Evaluate.
Context {tables : Strings.CaseTables}.

Lemma matchesAny_iff patterns value :
  matchesAny patterns value = true <-> moduleMatches patterns value.
Proof.
  unfold moduleMatches, glob.
  induction patterns as [|pattern patterns IH]; simpl.
  - split; [discriminate | intros (? & [] & _)].
  - destruct (matched pattern value) eqn:E.
    + split; [| reflexivity]. intros _. exists pattern. auto.
    + rewrite IH. split.
      * intros (q & Hq & Hm). exists q. auto.
      * intros (q & [<- | Hq] & Hm); [congruence | eauto].
Qed.

Lemma matchesAnyTool_iff patterns module tool :
  matchesAnyTool patterns module tool = true
  <-> toolMatches patterns module tool.
Proof.
  unfold toolMatches, glob.
  induction patterns as [|pattern patterns IH]; simpl.
  - split; [discriminate | intros (? & [] & _)].
  - destruct (matched pattern tool) eqn:E1.
    { split; [| reflexivity]. intros _. exists pattern. auto. }
    destruct (matched pattern (module ++ "/" ++ tool)) eqn:E2.
    { split; [| reflexivity]. intros _. exists pattern. auto. }
    rewrite IH. split.
    + intros (q & Hq & Hm). exists q. auto.
    + intros (q & [<- | Hq] & Hm); [| eauto].
      destruct Hm; congruence.
Qed.

Lemma hasAllowList_iff c :
  hasAllowList c = true <-> AllowModules c <> [] \/ AllowTools c <> [].
Proof.
  unfold hasAllowList. rewrite orb_true_iff, !Z.ltb_lt.
  destruct (AllowModules c), (AllowTools c); simpl;
    intuition (try congruence; try lia).
Qed.

Lemma containsAny_intro lower keyword keywords :
  In keyword keywords -> Strings.Contains lower keyword = true ->
  containsAny lower keywords = true.
Proof.
  induction keywords as [|k keywords IH]; simpl; [tauto |].
  intros [-> | Hin] Hc; [now rewrite Hc |].
  destruct (Strings.Contains lower k); auto.
Qed.

Lemma sensitive_lowered keyword :
  In keyword sensitive ->
  forallb Strings.lowered (bytes keyword) = true.
Proof.
  unfold sensitive. simpl.
  intros [<- | [<- | [<- | [<- | [<- | [<- | [<- | []]]]]]]];
    reflexivity.
Qed.

Lemma isSensitiveTool_intro tool keyword :
  In keyword sensitive -> containsFold tool keyword ->
  isSensitiveTool tool = true.
Proof.
  intros Hin Hc. unfold isSensitiveTool.
  apply containsAny_intro with keyword; [exact Hin |].
  apply LowerFacts.ToLower_contains; [| exact Hc].
  now apply sensitive_lowered.
Qed.

(** C1. Deny has absolute precedence: when the module matches a
    deny-module pattern, or the tool matches a deny-tool pattern by
    its bare name or by its qualified name [module/tool], [Evaluate]
    returns [Deny], whatever the allow and confirm patterns are.  The
    restriction to safe mode off or a name without mutating keyword is
    not needed: the safe-mode rule, which comes first, returns [Deny]
    as well. *)
Theorem deny_has_precedence (p : Policy) (module tool : string) :
  moduleMatches (DenyModules (cfg p)) module
  \/ toolMatches (DenyTools (cfg p)) module tool ->
  Evaluate p module tool = Deny.
Proof.
  intros Hdeny. unfold Evaluate.
  destruct (safeMode p && isSensitiveTool tool); [reflexivity |].
  rewrite <- matchesAny_iff, <- matchesAnyTool_iff in Hdeny.
  apply orb_true_iff in Hdeny. now rewrite Hdeny.
Qed.

(** C2. With safe mode on, a tool whose name contains one of the
    keywords delete, update, scale, write, create, apply, patch,
    letter case aside, is denied for every module and every pattern
    configuration, an allow pattern that matches included. *)
Theorem safe_mode_denies_mutating (p : Policy)
    (module tool keyword : string) :
  safeMode p = true ->
  In keyword
     ["delete"; "update"; "scale"; "write"; "create"; "apply"; "patch"] ->
  containsFold tool keyword ->
  Evaluate p module tool = Deny.
Proof.
  intros Hsafe Hin Hc. unfold Evaluate.
  now rewrite Hsafe, (isSensitiveTool_intro tool keyword Hin Hc).
Qed.

(** C4. Default deny under an allow list: when allow-modules or
    allow-tools is not empty and neither the module matches an
    allow-module pattern nor the tool (bare or qualified) an
    allow-tool pattern, [Evaluate] returns [Deny].  This is the third
    rule; where a deny pattern matches or safe mode triggers, the
    earlier rules return [Deny] too. *)
Theorem allowlist_default_deny (p : Policy) (module tool : string) :
  AllowModules (cfg p) <> [] \/ AllowTools (cfg p) <> [] ->
  ~ moduleMatches (AllowModules (cfg p)) module ->
  ~ toolMatches (AllowTools (cfg p)) module tool ->
  Evaluate p module tool = Deny.
Proof.
  intros Hlist Hmod Htool. unfold Evaluate.
  destruct (safeMode p && isSensitiveTool tool); [reflexivity |].
  destruct (matchesAny (DenyModules (cfg p)) module
            || matchesAnyTool (DenyTools (cfg p)) module tool);
    [reflexivity |].
  apply hasAllowList_iff in Hlist. rewrite Hlist.
  rewrite <- matchesAny_iff in Hmod.
  rewrite <- matchesAnyTool_iff in Htool.
  apply not_true_is_false in Hmod, Htool.
  now rewrite Hmod, Htool.
Qed.

End Evaluate.

(** The scenarios of the specification and of the package's tests. *)

Example deny_tools_scenario :
  Evaluate (tables := Strings.excerptTables)
    (New (policyOf [] [] [] ["k8s_list_pods"] []) false)
    "kubernetes" "k8s_list_pods" = Deny.
Proof. vm_compute. reflexivity. Qed.

Example allow_tools_scenario :
  let p := New (policyOf [] [] ["prometheus_query_metric"] [] []) false in
  Evaluate (tables := Strings.excerptTables) p
    "kubernetes" "k8s_list_pods" = Deny
  /\ Evaluate (tables := Strings.excerptTables) p
       "prometheus" "prometheus_query_metric" = Allow.
Proof. vm_compute. split; reflexivity. Qed.

Example confirm_tools_scenario :
  Evaluate (tables := Strings.excerptTables)
    (New (policyOf [] [] [] [] ["kubernetes/k8s_list_pods"]) false)
    "kubernetes" "k8s_list_pods" = Confirm.
Proof. vm_compute. reflexivity. Qed.

Example safe_mode_scenario :
  Evaluate (tables := Strings.excerptTables)
    (New (policyOf [] [] [] [] []) true)
    "kubernetes" "k8s_delete_pod" = Deny.
Proof. vm_compute. reflexivity. Qed.

(** A name with bytes beyond ASCII goes through [strings.Map]; its
    keyword is found all the same. *)
Example safe_mode_non_ascii_name :
  Evaluate (tables := Strings.excerptTables)
    (New (policyOf [] [] ["plugin/*"] [] []) true)
    "plugins" "plugin/café/Apply" = Deny.
Proof. vm_compute. reflexivity. Qed.

(** A deny-tool pattern wins over allow and confirm patterns that match
    the same tool. *)
Lemma deny_has_precedence_witness :
  let p := New (policyOf ["kubernetes"] [] ["k8s_*"] ["k8s_list_pods"]
                         ["kubernetes/*"]) false in
  (moduleMatches (DenyModules (cfg p)) "kubernetes"
   \/ toolMatches (DenyTools (cfg p)) "kubernetes" "k8s_list_pods")
  /\ Evaluate (tables := Strings.excerptTables) p
       "kubernetes" "k8s_list_pods" = Deny.
Proof.
  intros p.
  assert (toolMatches (DenyTools (cfg p)) "kubernetes" "k8s_list_pods")
    as Hdeny.
  { exists "k8s_list_pods". split; [now left |]. left. vm_compute. reflexivity. }
  split; [now right |].
  apply (deny_has_precedence p "kubernetes" "k8s_list_pods"). now right.
Defined.

(** [k8s_DELETE_pod] is denied in safe mode although the allow lists
    name both its module and the tool itself. *)
Lemma safe_mode_denies_mutating_witness :
  let p := New (policyOf ["kubernetes"] [] ["k8s_DELETE_pod"] [] []) true in
  (safeMode p = true
   /\ In "delete"
        ["delete"; "update"; "scale"; "write"; "create"; "apply"; "patch"]
   /\ containsFold "k8s_DELETE_pod" "delete"
   /\ moduleMatches (AllowModules (cfg p)) "kubernetes"
   /\ toolMatches (AllowTools (cfg p)) "kubernetes" "k8s_DELETE_pod")
  /\ Evaluate (tables := Strings.excerptTables) p
       "kubernetes" "k8s_DELETE_pod" = Deny.
Proof.
  intros p.
  assert (In "delete" sensitive) as Hin by (now left).
  unfold sensitive in Hin.
  assert (containsFold "k8s_DELETE_pod" "delete") as Hc.
  { exists "k8s_", "DELETE", "_pod". split; [reflexivity |].
    unfold equalFold.
    repeat (constructor;
            [right; left; split; [vm_compute; intuition discriminate
                                 | reflexivity] |]).
    constructor. }
  split.
  - split; [reflexivity |]. split; [exact Hin |]. split; [exact Hc |].
    split.
    + exists "kubernetes". split; [now left | vm_compute; reflexivity].
    + exists "k8s_DELETE_pod". split; [now left |]. left.
      vm_compute. reflexivity.
  - apply (safe_mode_denies_mutating p "kubernetes" "k8s_DELETE_pod"
             "delete"); [reflexivity | exact Hin | exact Hc].
Defined.

(** With an allow list for Prometheus, a Kubernetes tool is denied. *)
Lemma allowlist_default_deny_witness :
  let p := New (policyOf ["prometheus"] [] ["prometheus_*"] [] []) false in
  (AllowModules (cfg p) <> [] \/ AllowTools (cfg p) <> [])
  /\ ~ moduleMatches (AllowModules (cfg p)) "kubernetes"
  /\ ~ toolMatches (AllowTools (cfg p)) "kubernetes" "k8s_list_pods"
  /\ Evaluate (tables := Strings.excerptTables) p
       "kubernetes" "k8s_list_pods" = Deny.
Proof.
  intros p.
  assert (AllowModules (cfg p) <> [] \/ AllowTools (cfg p) <> []) as Hlist
    by (left; discriminate).
  assert (~ moduleMatches (AllowModules (cfg p)) "kubernetes") as Hmod.
  { intros (q & [<- | []] & Hq). vm_compute in Hq. discriminate. }
  assert (~ toolMatches (AllowTools (cfg p)) "kubernetes" "k8s_list_pods")
    as Htool.
  { intros (q & [<- | []] & [Hq | Hq]); vm_compute in Hq; discriminate. }
  split; [exact Hlist |]. split; [exact Hmod |]. split; [exact Htool |].
  apply (allowlist_default_deny p "kubernetes" "k8s_list_pods");
    [exact Hlist | exact Hmod | exact Htool].
Defined.

End PolicyFacts.

(** ** Output trimming of the plugin provider *)

Module TrimFacts.
Import BytesFacts Plugins.

Lemma str_firstn n s : str (firstn n (bytes s)) = substring 0 n s.
Proof.
  revert n. induction s as [|c s IH]; intros [|n]; try reflexivity.
  unfold str, bytes in *. simpl. now rewrite IH.
Qed.

Lemma substring_split n s :
  (n <= String.length s)%nat ->
  s = substring 0 n s ++ substring n (String.length s - n) s
  /\ String.length (substring 0 n s) = n.
Proof.
  revert n. induction s as [|c s IH]; intros [|n] Hn; simpl in *;
    try lia.
  - now split.
  - rewrite append_nil. split; [| reflexivity].
    f_equal. clear. induction s as [|d s IH]; simpl; [reflexivity |].
    now rewrite <- IH.
  - destruct (IH n) as [E L]; [lia |].
    rewrite append_cons, <- E, L. now split.
Qed.

(** C9. A limit of zero or less disables truncation: the output comes
    back unchanged. *)
Theorem trimOutput_disabled (output : string) (maxBytes : Z) :
  maxBytes <= 0 -> trimOutput output maxBytes = output.
Proof.
  intros Hmax. unfold trimOutput.
  destruct (maxBytes <=? 0) eqn:E; [reflexivity | lia].
Qed.

Lemma trimOutput_disabled_witness :
  (-1 <= 0 /\ trimOutput "plugin output" (-1) = "plugin output")
  /\ (0 <= 0 /\ trimOutput "plugin output" 0 = "plugin output").
Proof.
  split; (split; [lia | apply trimOutput_disabled; lia]).
Defined.

Lemma len_append (s t : string) : len (s ++ t) = len s + len t.
Proof.
  unfold len. rewrite <- !length_bytes, bytes_app, length_app. lia.
Qed.

(** C5. For a positive limit, an output of at most [maxBytes] bytes
    comes back unchanged, and a longer one comes back as its first
    [maxBytes] bytes followed by the truncation marker: a line feed and
    the fourteen bytes in all of [... truncated], so that the result is
    [maxBytes + 14] bytes long and differs from the bytes kept. *)
Theorem trimOutput_limit (output : string) (maxBytes : Z) :
  0 < maxBytes ->
  (len output <= maxBytes -> trimOutput output maxBytes = output)
  /\ (maxBytes < len output ->
      let kept := substring 0 (Z.to_nat maxBytes) output in
      trimOutput output maxBytes
      = kept ++ String (ascii_of_nat 10) "... truncated"
      /\ len kept = maxBytes
      /\ (exists dropped, output = kept ++ dropped)
      /\ len (trimOutput output maxBytes) = maxBytes + 14
      /\ trimOutput output maxBytes <> kept).
Proof.
  intros Hpos.
  assert (maxBytes < len output ->
          trimOutput output maxBytes
          = substring 0 (Z.to_nat maxBytes) output
            ++ String (ascii_of_nat 10) "... truncated"
          /\ len (substring 0 (Z.to_nat maxBytes) output) = maxBytes
          /\ exists dropped,
               output = substring 0 (Z.to_nat maxBytes) output ++ dropped)
    as Hover.
  { intros Hlen. unfold trimOutput, len in *.
    destruct (maxBytes <=? 0) eqn:E; [lia |]. clear E.
    rewrite length_bytes.
    destruct (Z.of_nat (String.length output) <=? maxBytes) eqn:E; [lia |].
    cbv zeta. rewrite str_firstn.
    destruct (substring_split (Z.to_nat maxBytes) output) as [Hsplit Hkept];
      [lia |].
    split; [reflexivity |]. split; [lia |]. eauto. }
  split; intros Hlen.
  - unfold trimOutput, len in *.
    destruct (maxBytes <=? 0) eqn:E; [lia |]. clear E.
    rewrite length_bytes.
    destruct (Z.of_nat (String.length output) <=? maxBytes) eqn:E;
      [reflexivity | lia].
  - cbv zeta. destruct (Hover Hlen) as (Hcut & Hkept & Hdropped).
    assert (len (trimOutput output maxBytes) = maxBytes + 14) as Hsize.
    { rewrite Hcut, len_append, Hkept. reflexivity. }
    split; [exact Hcut |]. split; [exact Hkept |].
    split; [exact Hdropped |]. split; [exact Hsize |].
    intros Hsame. rewrite Hsame, Hkept in Hsize. lia.
Qed.

Lemma trimOutput_limit_witness :
  0 < 6
  /\ trimOutput "abcdef" 6 = "abcdef"
  /\ trimOutput "abcdefg" 6
     = "abcdef" ++ String (ascii_of_nat 10) "... truncated"
  /\ len (trimOutput "abcdefg" 6) = 20.
Proof.
  split; [lia |].
  destruct (trimOutput_limit "abcdef" 6) as [Hfit _]; [lia |].
  destruct (trimOutput_limit "abcdefg" 6) as [_ Hover]; [lia |].
  split; [apply Hfit; vm_compute; discriminate |].
  destruct Hover as (Hcut & _ & _ & Hsize & _); [reflexivity |].
  split; [exact Hcut | exact Hsize].
Defined.

End TrimFacts.

(** ** The plugin provider *)

Module PluginFacts.
Import Runtime Manifests Plugins.

Section Loading.
Context {fs : FileSystem} {lib : Library}.




End Loading.




Section Calls.
Context {lib : Library} {host : Host}.

(** C7. In safe mode a call of a plugin tool that is not marked read-only
    returns an error result and runs no child process, whatever the
    policy block of the configuration says: with the provider enabled the
    result is the refusal [tool blocked in safe mode], with the provider
    disabled it is [plugins module is disabled]. *)
Theorem safe_mode_blocks_plugin_call (m : Module) (c : Config.NexusConfig)
    (name : string) (args : Arguments_) (pt : pluginTool) :
  cfg m = Some c ->
  Config.SafeMode (Config.Server c) = true ->
  tools m !! name = Some pt ->
  ReadOnly (tool pt) = false ->
  HandleCall m name args
  = ([], Returned (inl (NewToolResultError
                          (if Enabled c then "tool blocked in safe mode"
                           else "plugins module is disabled")))).
Proof.
  intros Hcfg Hsafe Htool Hro. unfold HandleCall, Enabled.
  rewrite Hcfg.
  destruct (Config.Plugins_Enabled (Config.Plugins (Config.Modules c)));
    [| reflexivity].
  cbn [negb]. now rewrite Htool, Hsafe, Hro.
Qed.

End Calls.

(** The policy engine allows [plugin/ops/restart] here (safe mode is on
    in the server configuration only); the provider refuses the call all
    the same. *)
Lemma safe_mode_blocks_plugin_call_witness :
  let c := Samples.withPlugins true true (Policy.policyOf [] [] [] [] []) in
  let m := Samples.opsModule c in
  let pt := {| manifest := Samples.opsManifest; tool := Samples.restartTool |} in
  (cfg m = Some c
   /\ Config.SafeMode (Config.Server c) = true
   /\ tools m !! "plugin/ops/restart" = Some pt
   /\ ReadOnly (tool pt) = false
   /\ Policy.Evaluate (tables := Strings.excerptTables)
        (Policy.New (Config.Policy c) false) moduleName "plugin/ops/restart"
      = Policy.Allow)
  /\ HandleCall (lib := Samples.sampleLibrary) (host := Samples.sampleHost)
       m "plugin/ops/restart" []
     = ([], Returned (inl (NewToolResultError "tool blocked in safe mode"))).
Proof.
  intros c m pt.
  assert (tools m !! "plugin/ops/restart" = Some pt) as Htool
    by apply lookup_singleton_eq.
  split.
  - split; [reflexivity |]. split; [reflexivity |]. split; [exact Htool |].
    split; [reflexivity | vm_compute; reflexivity].
  - apply (safe_mode_blocks_plugin_call
             (lib := Samples.sampleLibrary) (host := Samples.sampleHost)
             m c "plugin/ops/restart" [] pt);
      [reflexivity | reflexivity | exact Htool | reflexivity].
Defined.

End PluginFacts.

(** ** The registry *)

Module RegistryFacts.
Import Config Runtime Registry.

Section Providers.
Context {State : Type}.
Implicit Types (r : Registry State) (cfg : NexusConfig).

Lemma disabled_store r p st q cfg :
  disabled (heap (store p st r) q) cfg = disabled (heap r q) cfg.
Proof.
  unfold store, disabled. simpl.
  destruct (Nat.eqb q p) eqn:E; [| reflexivity].
  apply Nat.eqb_eq in E. now subst.
Qed.

Lemma callOf_store r p st cfg name :
  callOf cfg (store p st r) name = callOf cfg r name.
Proof.
  unfold callOf. change (modules (store p st r)) with (modules r).
  destruct (modules r !! name); [| reflexivity].
  now rewrite disabled_store.
Qed.

Lemma activeOf_store r p st cfg name :
  activeOf cfg (store p st r) name = activeOf cfg r name.
Proof.
  unfold activeOf. change (modules (store p st r)) with (modules r).
  destruct (modules r !! name); [| reflexivity].
  now rewrite disabled_store.
Qed.

(** The loop of [initModules] changes fields of providers only. *)
Lemma initModules_frame cfg order r r' made e :
  initModules cfg order r = (r', made, e) ->
  modules r' = modules r
  /\ loadOnce r' = loadOnce r
  /\ forall name, callOf cfg r' name = callOf cfg r name
                  /\ activeOf cfg r' name = activeOf cfg r name.
Proof.
  revert r r' made e.
  induction order as [|name order IH]; intros r r' made e Hrun; simpl in Hrun.
  - injection Hrun as <- _ _. auto.
  - destruct (modules r !! name) as [p|]; [| now apply IH in Hrun].
    destruct (disabled (heap r p) cfg); [now apply IH in Hrun |].
    destruct (Init (heap r p) cfg (fields (heap r p))) as [st [failure|]].
    + injection Hrun as <- _ _.
      repeat split; auto using callOf_store, activeOf_store.
    + destruct (initModules cfg order (store p st r))
        as [[r'' made'] e'] eqn:Hrest.
      injection Hrun as <- _ _.
      destruct (IH _ _ _ _ Hrest) as (Hm & Ho & Hc).
      repeat split; try assumption.
      * now rewrite (proj1 (Hc name0)), callOf_store.
      * now rewrite (proj2 (Hc name0)), activeOf_store.
Qed.

Lemma omap_pointwise {A B} (f g : A -> option B) (l : list A) :
  (forall x, f x = g x) -> omap f l = omap g l.
Proof.
  intros Hfg. induction l as [|x l IH]; [reflexivity |].
  cbn [omap list_omap]. rewrite Hfg. fold (omap f l) (omap g l).
  now rewrite IH.
Qed.

(** Without an error, the loop makes the call it owes each key it
    visits. *)
Lemma initModules_calls cfg order r r' made :
  initModules cfg order r = (r', made, None) ->
  made = omap (callOf cfg r) order.
Proof.
  revert r r' made.
  induction order as [|name order IH]; intros r r' made Hrun; simpl in Hrun.
  - now injection Hrun as _ <-.
  - cbn [omap list_omap]. fold (omap (callOf cfg r) order).
    unfold callOf at 1.
    destruct (modules r !! name) as [p|]; [| now apply IH in Hrun].
    destruct (disabled (heap r p) cfg); [now apply IH in Hrun |].
    destruct (Init (heap r p) cfg (fields (heap r p))) as [st [failure|]];
      [discriminate |].
    destruct (initModules cfg order (store p st r))
      as [[r'' made'] e'] eqn:Hrest.
    injection Hrun as _ <- ->.
    f_equal. rewrite (IH _ _ _ Hrest).
    apply omap_pointwise. intros x. apply callOf_store.
Qed.

Lemma loaded_omap cfg order r :
  loaded cfg order r = omap (activeOf cfg r) order.
Proof.
  induction order as [|name order IH]; [reflexivity |].
  cbn [omap list_omap loaded]. fold (omap (activeOf cfg r) order).
  unfold activeOf at 1.
  destruct (modules r !! name) as [p|]; [| exact IH].
  destruct (disabled (heap r p) cfg); [exact IH | now rewrite IH].
Qed.

(** Every key is owed at most one call, and it is a call for that key. *)
Lemma initCount_other cfg r name order :
  name ∉ order -> initCount name (omap (callOf cfg r) order) = 0%nat.
Proof.
  unfold initCount.
  induction order as [|x order IH]; intros Hnot; [reflexivity |].
  apply not_elem_of_cons in Hnot as [Hne Hnot].
  cbn [omap list_omap]. fold (omap (callOf cfg r) order).
  unfold callOf at 1.
  destruct (modules r !! x) as [p|]; [| now apply IH].
  destruct (disabled (heap r p) cfg); [now apply IH |].
  cbn [List.filter isInitOf].
  destruct (String.eqb x name) eqn:E; [| now apply IH].
  apply String.eqb_eq in E. congruence.
Qed.

Lemma initCount_visited cfg r name module order :
  NoDup order -> name ∈ order ->
  modules r !! name = Some module ->
  initCount name (omap (callOf cfg r) order)
  = if disabled (heap r module) cfg then 0%nat else 1%nat.
Proof.
  intros Hnodup Hin Hmod.
  induction order as [|x order IH]; [now apply elem_of_nil in Hin |].
  apply NoDup_cons in Hnodup as [Hx Hnodup].
  cbn [omap list_omap]. fold (omap (callOf cfg r) order).
  destruct (decide (x = name)) as [-> | Hne].
  - unfold callOf at 1. rewrite Hmod.
    destruct (disabled (heap r module) cfg); [now apply initCount_other |].
    unfold initCount. cbn [List.filter isInitOf].
    rewrite String.eqb_refl. cbn [List.length]. f_equal.
    now apply initCount_other.
  - apply elem_of_cons in Hin as [-> | Hin]; [congruence |].
    unfold callOf at 1.
    destruct (modules r !! x) as [p|]; [| now apply IH].
    destruct (disabled (heap r p) cfg); [now apply IH |].
    unfold initCount. cbn [List.filter isInitOf].
    destruct (String.eqb x name) eqn:E;
      [apply String.eqb_eq in E; congruence |].
    now apply IH.
Qed.

Lemma iteration_Permutation r order order' :
  iteration r order -> iteration r order' -> order ≡ₚ order'.
Proof.
  intros [Hn Hk] [Hn' Hk'].
  apply NoDup_Permutation; [exact Hn | exact Hn' |].
  intros name. now rewrite Hk, Hk'.
Qed.

(** With or without an error, the loop makes the call it owes each key
    it visits, up to the point where it stops. *)
Lemma initModules_visited cfg order r r' made e :
  initModules cfg order r = (r', made, e) ->
  exists visited rest,
    order = (visited ++ rest)%list
    /\ made = omap (callOf cfg r) visited.
Proof.
  revert r r' made e.
  induction order as [|name order IH]; intros r r' made e Hrun; simpl in Hrun.
  - injection Hrun as _ <- _. now exists [], [].
  - assert (forall visited rest made',
              order = (visited ++ rest)%list ->
              made' = omap (callOf cfg r) visited ->
              callOf cfg r name = None ->
              exists visited0 rest0,
                name :: order = (visited0 ++ rest0)%list
                /\ made' = omap (callOf cfg r) visited0) as Hskip.
    { intros visited rest made' -> -> Hnone.
      exists (name :: visited), rest. split; [reflexivity |].
      cbn [omap list_omap]. now rewrite Hnone. }
    destruct (modules r !! name) as [p|] eqn:Hp.
    2:{ destruct (IH _ _ _ _ Hrun) as (visited & rest & Ho & Hmade).
        apply (Hskip visited rest); [exact Ho | exact Hmade |].
        unfold callOf. now rewrite Hp. }
    destruct (disabled (heap r p) cfg) eqn:Hd.
    { destruct (IH _ _ _ _ Hrun) as (visited & rest & Ho & Hmade).
      apply (Hskip visited rest); [exact Ho | exact Hmade |].
      unfold callOf. now rewrite Hp, Hd. }
    assert (callOf cfg r name = Some (InitCall name p)) as Hcall
      by (unfold callOf; now rewrite Hp, Hd).
    destruct (Init (heap r p) cfg (fields (heap r p))) as [st [failure|]].
    + injection Hrun as _ <- _.
      exists [name], order. split; [reflexivity |].
      cbn [omap list_omap]. now rewrite Hcall.
    + destruct (initModules cfg order (store p st r))
        as [[r'' made'] e'] eqn:Hrest.
      injection Hrun as _ <- _.
      destruct (IH _ _ _ _ Hrest) as (visited & rest & -> & ->).
      exists (name :: visited), rest. split; [reflexivity |].
      cbn [omap list_omap]. rewrite Hcall. f_equal.
      apply omap_pointwise. intros x. apply callOf_store.
Qed.

Lemma initCount_bound cfg r name module order :
  NoDup order -> modules r !! name = Some module ->
  (initCount name (omap (callOf cfg r) order)
   <= if disabled (heap r module) cfg then 0 else 1)%nat.
Proof.
  intros Hnodup Hmod.
  destruct (decide (name ∈ order)) as [Hin | Hnot].
  - now rewrite (initCount_visited cfg r name module order).
  - rewrite initCount_other by exact Hnot. lia.
Qed.

(** C6, as the code has it. On a registry that was never loaded, two
    calls of [LoadModules] with the same configuration call [Init] at
    most once for every registered provider, never for one that reports
    itself disabled, and not at all in the second call.  When the first
    call returns no error, [Init] is called exactly once for every
    enabled provider, the second call returns no error either, and the
    two returned lists hold the same providers. *)
Theorem load_twice_inits_once cfg r order1 order2 order3 order4 :
  loadOnce r = false ->
  iteration r order1 -> iteration r order2 -> iteration r order4 ->
  let first := LoadModules cfg order1 order2 r in
  let second := LoadModules cfg order3 order4 (after first) in
  calls second = []
  /\ (forall name module,
        modules r !! name = Some module ->
        (initCount name (calls first ++ calls second)%list
         <= if disabled (heap r module) cfg then 0 else 1)%nat)
  /\ (err first = None ->
      err second = None
      /\ (forall name module,
            modules r !! name = Some module ->
            initCount name (calls first ++ calls second)%list
            = if disabled (heap r module) cfg then 0%nat else 1%nat)
      /\ returned first ≡ₚ returned second).
Proof.
  intros Hfresh [Hnodup Hkeys] H2 H4.
  assert (LoadModules cfg order1 order2 r
          = let '(r1, made, e) := initModules cfg order1 (done r) in
            match e with
            | Some e =>
              {| after := r1; calls := made; returned := []; err := Some e |}
            | None =>
              {| after := r1; calls := made;
                 returned := loaded cfg order2 r1; err := None |}
            end) as Hfirst
    by (unfold LoadModules; now rewrite Hfresh).
  cbv zeta. rewrite Hfirst. clear Hfirst.
  destruct (initModules cfg order1 (done r)) as [[r1 made] e] eqn:Hrun.
  destruct (initModules_frame _ _ _ _ _ _ Hrun) as (Hm & Ho & Hc).
  assert (calls (LoadModules cfg order3 order4 r1) = []) as Hquiet
    by (unfold LoadModules; now rewrite Ho).
  assert (forall name module,
            modules r !! name = Some module ->
            (initCount name (made ++ [])%list
             <= if disabled (heap r module) cfg then 0 else 1)%nat) as Hbound.
  { intros name module Hmod. rewrite app_nil_r.
    destruct (initModules_visited _ _ _ _ _ _ Hrun)
      as (visited & rest & Horder & ->).
    rewrite Horder in Hnodup. apply NoDup_app in Hnodup as (Hvisited & _ & _).
    now apply (initCount_bound cfg (done r) name module visited). }
  destruct e as [failure|]; cbn [after calls returned err].
  - rewrite Hquiet.
    split; [reflexivity |]. split; [exact Hbound | discriminate].
  - rewrite Hquiet.
    split; [reflexivity |]. split; [exact Hbound |]. intros _.
    unfold LoadModules. rewrite Ho.
    cbn [done loadOnce after calls returned err].
    split; [reflexivity |]. split.
    + intros name module Hmod. rewrite app_nil_r.
      rewrite (initModules_calls _ _ _ _ _ Hrun).
      apply (initCount_visited cfg (done r) name module order1 Hnodup);
        [| exact Hmod].
      apply Hkeys. now exists module.
    + rewrite !loaded_omap.
      now rewrite (iteration_Permutation r order2 order4 H2 H4).
Qed.

(** C8. A second [Register] under a name panics and leaves the registry
    as the first call left it: the entry still is the provider of the
    first registration (or, if the name was taken before, the provider
    it already held). *)
Theorem register_twice_panics (r : Registry State) (name : string)
    (module1 module2 : ptr) :
  let r1 := fst (Register name module1 r) in
  Register name module2 r1
  = (r1, Panicked ("module already registered: " ++ name))
  /\ modules r1 !! name = Some (default module1 (modules r !! name)).
Proof.
  unfold Register.
  destruct (modules r !! name) as [held|] eqn:Hheld; cbn [fst default].
  - now rewrite Hheld.
  - cbn [modules]. now rewrite lookup_insert_eq.
Qed.

End Providers.

Lemma iteration_failingRegistry :
  iteration Samples.failingRegistry ["test"].
Proof.
  split; [apply NoDup_singleton |].
  intros name. rewrite list_elem_of_singleton.
  unfold Samples.failingRegistry; cbn [modules].
  rewrite lookup_singleton_is_Some. split; congruence.
Qed.

(** C6, as stated, fails: when the [Init] of the only provider fails, the
    first call returns the error and no provider, and the second call
    returns the provider. *)
Lemma load_twice_after_failure : ~ loadsOnce.
Proof.
  intros Hclaim.
  destruct (Hclaim nat DefaultConfig Samples.failingRegistry
              ["test"] ["test"] ["test"] ["test"])
    as [_ Hsame]; try exact iteration_failingRegistry; [reflexivity |].
  vm_compute in Hsame.
  apply Permutation_length in Hsame. discriminate.
Qed.

Lemma iteration_mixedRegistry order :
  order = ["test"; "off"] \/ order = ["off"; "test"] ->
  iteration Samples.mixedRegistry order.
Proof.
  intros Horder. split.
  - destruct Horder as [-> | ->]; repeat constructor;
      rewrite ?elem_of_cons, ?elem_of_nil; intuition discriminate.
  - intros name. unfold Samples.mixedRegistry; cbn [modules].
    rewrite lookup_insert_is_Some', lookup_singleton_is_Some.
    destruct Horder as [-> | ->];
      rewrite !elem_of_cons, elem_of_nil; intuition congruence.
Qed.

Lemma load_twice_inits_once_witness :
  let r := Samples.mixedRegistry in
  let first := LoadModules DefaultConfig ["test"; "off"] ["off"; "test"] r in
  let second :=
    LoadModules DefaultConfig ["off"; "test"] ["test"; "off"] (after first) in
  (loadOnce r = false /\ err first = None)
  /\ calls first = [InitCall "test" 0%nat]
  /\ err second = None
  /\ calls second = []
  /\ initCount "test" (calls first ++ calls second)%list = 1%nat
  /\ initCount "off" (calls first ++ calls second)%list = 0%nat
  /\ returned first ≡ₚ returned second.
Proof.
  intros r first second.
  destruct (load_twice_inits_once DefaultConfig r
              ["test"; "off"] ["off"; "test"] ["off"; "test"] ["test"; "off"])
    as (Hquiet & _ & Hsuccess);
    [reflexivity | apply iteration_mixedRegistry; now left
     | apply iteration_mixedRegistry; now right
     | apply iteration_mixedRegistry; now left |].
  destruct Hsuccess as (Herr & Hcount & Hsame); [reflexivity |].
  split; [split; reflexivity |]. split; [reflexivity |].
  split; [exact Herr |]. split; [exact Hquiet |].
  split; [exact (Hcount "test" 0%nat eq_refl) |].
  split; [exact (Hcount "off" 1%nat eq_refl) | exact Hsame].
Defined.

End RegistryFacts.

(** ** Loading the configuration *)

Module ConfigFacts.
Import Runtime Config.

Section Loading.
Context {fs : FileSystem} {decoder : Decoder}.

(** A file that cannot be read gives the defaults and the error. *)
Lemma LoadConfig_unreadable path err :
  os_ReadFile path = inr err ->
  LoadConfig path = (DefaultConfig, Some err).
Proof. intros Hread. unfold LoadConfig. now rewrite Hread. Qed.

(** A decoding error gives the configuration as the decoder left it:
    [applyDefaults] does not run. *)
Lemma LoadConfig_undecodable path data c err :
  os_ReadFile path = inl data ->
  yaml_Unmarshal data DefaultConfig = (c, Some err) ->
  LoadConfig path = (c, Some err).
Proof. intros Hread Hdec. unfold LoadConfig. now rewrite Hread, Hdec. Qed.

(** After [applyDefaults] the names are not empty and the limits are
    positive. *)
Lemma applyDefaults_filled c :
  let c' := applyDefaults c in
  Name (Server c') <> ""
  /\ Kubeconfig (Kubernetes (Modules c')) <> ""
  /\ URL (Prometheus (Modules c')) <> ""
  /\ 0 < Logs_MaxBytes (Logs (Modules c'))
  /\ 0 < Logs_MaxLines (Logs (Modules c'))
  /\ 0 < Docker_MaxLines (Docker (Modules c'))
  /\ 0 < Plugins_MaxBytes (Plugins (Modules c')).
Proof.
  cbn. unfold orDefault, positiveOr.
  repeat match goal with
         | |- context [String.eqb ?a ?b] =>
           destruct (String.eqb_spec a b)
         | |- context [?a <=? ?b] => destruct (Z.leb_spec a b)
         end;
    repeat split; try lia; try assumption; discriminate.
Qed.

End Loading.

(** C10 at the configuration file [mistypedDocument]: [LoadConfig]
    returns the error together with a configuration that is not the
    default one; its server name is empty and its plugin byte limit is
    negative. *)
Theorem LoadConfig_mistyped_document :
  let '(c, err) :=
    LoadConfig (fs := Samples.configFiles) (decoder := Samples.sampleDecoder)
      "nexus.yaml" in
  err <> None
  /\ c <> DefaultConfig
  /\ Name (Server c) = ""
  /\ Plugins_MaxBytes (Plugins (Modules c)) = -1.
Proof.
  vm_compute. repeat split; discriminate.
Qed.

End ConfigFacts.

(** * Further properties *)

(** ** The policy engine, rule by rule *)

Module PolicyRules.
Import Config Policy Rules BytesFacts StringsFacts PolicyFacts.

Section Decisions.
Context {tables : Strings.CaseTables}.

Lemma denies_iff p module tool :
  denies p module tool <->
  (safeMode p && isSensitiveTool tool
   || (matchesAny (DenyModules (cfg p)) module
       || matchesAnyTool (DenyTools (cfg p)) module tool)
   || (hasAllowList (cfg p)
       && negb (matchesAny (AllowModules (cfg p)) module)
       && negb (matchesAnyTool (AllowTools (cfg p)) module tool))) = true.
Proof.
  unfold denies.
  rewrite !orb_true_iff, !andb_true_iff, !negb_true_iff.
  rewrite <- !not_true_iff_false.
  rewrite !matchesAny_iff, !matchesAnyTool_iff, hasAllowList_iff.
  tauto.
Qed.

(** X1. [Evaluate] returns [Deny] exactly when one of its three deny
    rules applies: safe mode with a sensitive name, a matching deny
    pattern, or an allow list that neither the module nor the tool
    matches. *)
Theorem Evaluate_Deny_iff (p : Policy) (module tool : string) :
  Evaluate p module tool = Deny <-> denies p module tool.
Proof.
  rewrite denies_iff. unfold Evaluate.
  destruct (safeMode p && isSensitiveTool tool); [easy |].
  destruct (matchesAny (DenyModules (cfg p)) module
            || matchesAnyTool (DenyTools (cfg p)) module tool); [easy |].
  destruct (hasAllowList (cfg p)
            && negb (matchesAny (AllowModules (cfg p)) module)
            && negb (matchesAnyTool (AllowTools (cfg p)) module tool));
    [easy |].
  destruct (matchesAnyTool (ConfirmTools (cfg p)) module tool); easy.
Qed.

(** X2. When no deny rule applies, the decision is [Confirm] if a
    confirm pattern matches the tool (bare or qualified), and [Allow]
    otherwise; there is no other way to either decision. *)
Theorem Evaluate_Confirm_Allow_iff (p : Policy) (module tool : string) :
  (Evaluate p module tool = Confirm <->
   ~ denies p module tool
   /\ toolMatches (ConfirmTools (cfg p)) module tool)
  /\ (Evaluate p module tool = Allow <->
      ~ denies p module tool
      /\ ~ toolMatches (ConfirmTools (cfg p)) module tool).
Proof.
  rewrite denies_iff, <- matchesAnyTool_iff. unfold Evaluate.
  destruct (safeMode p && isSensitiveTool tool);
    [intuition (try discriminate; try congruence) |].
  destruct (matchesAny (DenyModules (cfg p)) module
            || matchesAnyTool (DenyTools (cfg p)) module tool);
    [intuition (try discriminate; try congruence) |].
  destruct (hasAllowList (cfg p)
            && negb (matchesAny (AllowModules (cfg p)) module)
            && negb (matchesAnyTool (AllowTools (cfg p)) module tool));
    [intuition (try discriminate; try congruence) |].
  cbn [orb].
  destruct (matchesAnyTool (ConfirmTools (cfg p)) module tool);
    intuition (try discriminate; try congruence).
Qed.

(** X3. Safe mode only adds denials: with safe mode on, a call is
    either denied or decided as it is with safe mode off. *)
Theorem safe_mode_only_denies (c : PolicyConfig) (module tool : string) :
  Evaluate (New c true) module tool = Deny
  \/ Evaluate (New c true) module tool = Evaluate (New c false) module tool.
Proof.
  unfold Evaluate, New. cbn [safeMode cfg andb].
  destruct (isSensitiveTool tool); [now left | now right].
Qed.

Lemma matchesAny_same l k value :
  samePatterns l k -> matchesAny l value = matchesAny k value.
Proof.
  intros Hsame. apply eq_true_iff_eq. rewrite !matchesAny_iff.
  unfold moduleMatches. split; intros (q & Hq & Hm); exists q;
    (split; [now apply Hsame | exact Hm]).
Qed.

Lemma matchesAnyTool_same l k module tool :
  samePatterns l k ->
  matchesAnyTool l module tool = matchesAnyTool k module tool.
Proof.
  intros Hsame. apply eq_true_iff_eq. rewrite !matchesAnyTool_iff.
  unfold toolMatches. split; intros (q & Hq & Hm); exists q;
    (split; [now apply Hsame | exact Hm]).
Qed.

Lemma nonempty_same (l k : list string) :
  samePatterns l k -> (l <> [] <-> k <> []).
Proof.
  intros Hsame. destruct l as [|x l], k as [|y k].
  - tauto.
  - destruct (proj2 (Hsame y)). now left.
  - destruct (proj1 (Hsame x)). now left.
  - split; discriminate.
Qed.

(** X4. The decision depends on each pattern list as a set: neither
    the order of the patterns nor repeated patterns change it. *)
Theorem Evaluate_same_lists (c c' : PolicyConfig) (safe : bool)
    (module tool : string) :
  sameLists c c' ->
  Evaluate (New c safe) module tool = Evaluate (New c' safe) module tool.
Proof.
  intros (Ham & Hdm & Hat & Hdt & Hct).
  unfold Evaluate, New. cbn [safeMode cfg].
  rewrite (matchesAny_same _ _ module Hdm), (matchesAny_same _ _ module Ham).
  rewrite (matchesAnyTool_same _ _ module tool Hdt),
    (matchesAnyTool_same _ _ module tool Hat),
    (matchesAnyTool_same _ _ module tool Hct).
  replace (hasAllowList c) with (hasAllowList c'); [reflexivity |].
  apply eq_true_iff_eq. rewrite !hasAllowList_iff.
  rewrite (nonempty_same _ _ Ham), (nonempty_same _ _ Hat). tauto.
Qed.




Lemma ToLower_ascii s :
  Strings.isASCII s = true ->
  bytes (Strings.ToLower s) = List.map Strings.lowerByte (bytes s).
Proof.
  intros HA. unfold Strings.ToLower. rewrite HA.
  destruct (Strings.hasUpper s) eqn:HU; cbn [negb]; [apply bytes_str |].
  unfold Strings.hasUpper in HU.
  induction (bytes s) as [|b l IH]; [reflexivity |].
  simpl in HU. apply orb_false_elim in HU as [Hb HU].
  simpl. unfold Strings.lowerByte at 1. rewrite Hb. now rewrite <- IH.
Qed.



End Decisions.

Lemma Match_loop_error fuel pattern name :
  snd (Path.Match_loop fuel pattern name) <> None ->
  fst (Path.Match_loop fuel pattern name) = false.
Proof.
  revert pattern name.
  induction fuel as [|fuel IH]; intros pattern name; [easy |].
  cbn [Path.Match_loop].
  destruct pattern as [|c pattern]; [easy |].
  destruct (Path.scanChunk (c :: pattern)) as [[star chunk] rest].
  destruct (star && negb (Path.nonempty chunk)); [easy |].
  destruct (Path.matchChunk chunk name) as [| |t]; [easy | |].
  - destruct star; [| easy].
    destruct (Path.starLoop chunk (negb (Path.nonempty rest)) name);
      [easy | easy | apply IH].
  - destruct (negb (Path.nonempty t) || Path.nonempty rest); [apply IH |].
    destruct star; [| easy].
    destruct (Path.starLoop chunk (negb (Path.nonempty rest)) name);
      [easy | easy | apply IH].
Qed.

(** X6. A pattern that [path.Match] rejects as malformed for a value
    does not match it: in a pattern list it counts for nothing. *)
Theorem malformed_pattern_never_matches (pattern value : string)
    (patterns : list string) :
  snd (Path.Match pattern value) <> None ->
  matched pattern value = false
  /\ matchesAny (pattern :: patterns) value = matchesAny patterns value.
Proof.
  intros Herr.
  assert (matched pattern value = false) as Hm
    by (now apply Match_loop_error).
  split; [exact Hm |]. cbn [matchesAny]. now rewrite Hm.
Qed.

Lemma malformed_pattern_never_matches_witness :
  snd (Path.Match "k8s_[" "k8s_list_pods") <> None
  /\ matched "k8s_[" "k8s_list_pods" = false
  /\ matchesAny ["k8s_["; "k8s_*"] "k8s_list_pods"
     = matchesAny ["k8s_*"] "k8s_list_pods".
Proof.
  assert (snd (Path.Match "k8s_[" "k8s_list_pods") <> None) as Herr
    by (vm_compute; discriminate).
  split; [exact Herr |].
  apply (malformed_pattern_never_matches "k8s_[" "k8s_list_pods" ["k8s_*"]
           Herr).
Defined.


Lemma Evaluate_same_lists_witness :
  let c := policyOf ["kubernetes"; "logs"] [] [] ["*_delete"] ["k8s_*"] in
  let c' := policyOf ["logs"; "kubernetes"; "logs"] [] []
                     ["*_delete"; "*_delete"] ["k8s_*"] in
  sameLists c c'
  /\ Evaluate (tables := Strings.excerptTables) (New c false)
       "kubernetes" "k8s_list_pods"
     = Evaluate (tables := Strings.excerptTables) (New c' false)
         "kubernetes" "k8s_list_pods".
Proof.
  intros c c'.
  assert (sameLists c c') as Hsame.
  { unfold sameLists, samePatterns, c, c', policyOf; cbn.
    repeat split; tauto. }
  split; [exact Hsame |].
  apply (Evaluate_same_lists c c' false "kubernetes" "k8s_list_pods" Hsame).
Defined.

End PolicyRules.

(** ** Defaults of the configuration *)

Module ConfigDefaults.
Import Runtime Config Filled.

Lemma orDefault_set value default :
  default <> "" -> orDefault value default <> "".
Proof.
  unfold orDefault. destruct (String.eqb_spec value ""); auto.
Qed.

Lemma orDefault_id value default :
  value <> "" -> orDefault value default = value.
Proof.
  unfold orDefault. destruct (String.eqb_spec value ""); tauto.
Qed.

Lemma orDefault_fixed value default :
  default <> "" -> orDefault value default = value -> value <> "".
Proof.
  unfold orDefault. destruct (String.eqb_spec value ""); congruence.
Qed.

Lemma positiveOr_set value default :
  0 < default -> 0 < positiveOr value default.
Proof.
  unfold positiveOr. destruct (Z.leb_spec value 0); lia.
Qed.

Lemma positiveOr_id value default :
  0 < value -> positiveOr value default = value.
Proof.
  unfold positiveOr. destruct (Z.leb_spec value 0); lia.
Qed.

Lemma positiveOr_fixed value default :
  0 < default -> positiveOr value default = value -> 0 < value.
Proof.
  unfold positiveOr. destruct (Z.leb_spec value 0); lia.
Qed.

Lemma applyDefaults_is_filled c : filled (applyDefaults c).
Proof.
  unfold filled, applyDefaults; cbn.
  repeat split; (apply orDefault_set; discriminate) || (apply positiveOr_set; lia).
Qed.

(** X7. [applyDefaults] sets every empty string and every limit that is
    not positive to its default, and changes neither the enabled flags,
    safe mode, the path and environment lists nor the policy. *)
Theorem applyDefaults_fills (c : NexusConfig) :
  filled (applyDefaults c) /\ switches (applyDefaults c) = switches c.
Proof. split; [apply applyDefaults_is_filled | reflexivity]. Qed.

(** X8. [applyDefaults] changes nothing in a configuration whose fields
    are all set; the configurations it leaves unchanged are exactly
    those.  It is idempotent. *)
Theorem applyDefaults_fixed_points (c : NexusConfig) :
  (applyDefaults c = c <-> filled c)
  /\ applyDefaults (applyDefaults c) = applyDefaults c.
Proof.
  assert (forall d, filled d -> applyDefaults d = d) as Hid.
  { intros d (H1 & H2 & H3 & H4 & H5 & H6 & H7 & H8 & H9 & H10 & H11 & H12).
    destruct d as [[n v l s] [[ke kc] [ae ar] [pe pu] [le lp lb ll]
                              [de dc dl] [ge gd gb gv]] pol].
    cbn in *. unfold applyDefaults; cbn.
    now rewrite !orDefault_id, !positiveOr_id by assumption. }
  split; [split; [| apply Hid] | apply Hid, applyDefaults_is_filled].
  intros Hfix. rewrite <- Hfix. apply applyDefaults_is_filled.
Qed.

Section Loading.
Context {fs : FileSystem} {decoder : Decoder}.

(** X9. A configuration that [LoadConfig] returns without error has
    every defaulted field set: the server name is not empty and the byte
    and line limits are positive, whatever the file says. *)
Theorem LoadConfig_success_filled (path : string) (c : NexusConfig) :
  LoadConfig path = (c, None) -> filled c.
Proof.
  unfold LoadConfig.
  destruct (os_ReadFile path) as [data | err]; [| discriminate].
  destruct (yaml_Unmarshal data DefaultConfig) as [c' [err |]];
    [discriminate |].
  intros [= <-]. apply applyDefaults_is_filled.
Qed.

End Loading.

Lemma LoadConfig_success_filled_witness :
  let c := DefaultConfig in
  LoadConfig (fs := MoreSamples.sparseFiles)
    (decoder := MoreSamples.sparseDecoder) "sparse.yaml" = (c, None)
  /\ filled c.
Proof.
  intros c.
  assert (LoadConfig (fs := MoreSamples.sparseFiles)
            (decoder := MoreSamples.sparseDecoder) "sparse.yaml" = (c, None))
    as Hload by reflexivity.
  split; [exact Hload |].
  apply (LoadConfig_success_filled
           (fs := MoreSamples.sparseFiles)
           (decoder := MoreSamples.sparseDecoder) "sparse.yaml" c Hload).
Defined.

End ConfigDefaults.

(** ** The registry: what is kept and what is returned *)

Module RegistryMore.
Import Config Runtime Registry RegistryFacts.

Section Providers.
Context {State : Type}.
Implicit Types (r : Registry State) (cfg : NexusConfig).

Lemma LoadModules_modules cfg order1 order2 r :
  modules (after (LoadModules cfg order1 order2 r)) = modules r
  /\ forall name,
       activeOf cfg (after (LoadModules cfg order1 order2 r)) name
       = activeOf cfg r name.
Proof.
  unfold LoadModules.
  destruct (loadOnce r).
  - now split.
  - destruct (initModules cfg order1 (done r)) as [[r1 made] e] eqn:Hrun.
    destruct (initModules_frame _ _ _ _ _ _ Hrun) as (Hm & _ & Hc).
    destruct e; cbn [after]; (split; [exact Hm | intros name; apply Hc]).
Qed.

(** X10. A registration is never removed or replaced: neither a further
    [Register], under whatever name, nor [LoadModules] changes the
    provider a name is registered for, and [LoadModules] adds no name. *)
Theorem registrations_persist r cfg (name name' : string)
    (module held : ptr) (order1 order2 : list string) :
  modules r !! name' = Some held ->
  modules (fst (Register name module r)) !! name' = Some held
  /\ modules (after (LoadModules cfg order1 order2 r)) = modules r.
Proof.
  intros Hheld. split; [| apply LoadModules_modules].
  unfold Register.
  destruct (modules r !! name) as [taken|] eqn:Hname; cbn [fst modules];
    [exact Hheld |].
  rewrite lookup_insert_ne; [exact Hheld | congruence].
Qed.

(** X11. A call of [LoadModules] that returns no error returns exactly
    the registered providers that are enabled under the configuration,
    whether it is the first call or a later one. *)
Theorem LoadModules_returns_enabled cfg r (order1 order2 : list string)
    (module : ptr) :
  iteration r order2 ->
  err (LoadModules cfg order1 order2 r) = None ->
  (module ∈ returned (LoadModules cfg order1 order2 r) <->
   exists name,
     modules r !! name = Some module
     /\ disabled (heap r module) cfg = false).
Proof.
  intros [_ Hkeys] Herr.
  assert (returned (LoadModules cfg order1 order2 r)
          = omap (activeOf cfg r) order2) as ->.
  { pose proof (LoadModules_modules cfg order1 order2 r) as [_ Hact].
    revert Herr Hact. unfold LoadModules.
    destruct (if loadOnce r then (r, [], None)
              else initModules cfg order1 (done r)) as [[r1 made] e].
    destruct e; cbn [err after returned]; [discriminate |].
    intros _ Hact. rewrite loaded_omap.
    now apply omap_pointwise. }
  rewrite list_elem_of_omap. unfold activeOf. split.
  - intros (name & _ & Hname).
    destruct (modules r !! name) as [p|] eqn:Hp; [| discriminate].
    destruct (disabled (heap r p) cfg) eqn:Hd; [discriminate |].
    injection Hname as <-. now exists name.
  - intros (name & Hp & Hd). exists name. split.
    + apply Hkeys. now exists module.
    + now rewrite Hp, Hd.
Qed.

(** The loop stops at the first [Init] that fails, with an error that
    names the provider. *)
Lemma initModules_failure cfg order r r' made e :
  initModules cfg order r = (r', made, Some e) ->
  exists name module cause earlier,
    e = "failed to init module " ++ name ++ ": " ++ cause
    /\ modules r !! name = Some module
    /\ name ∈ order
    /\ made = (earlier ++ [InitCall name module])%list.
Proof.
  revert r r' made.
  induction order as [|x order IH]; intros r r' made Hrun; simpl in Hrun;
    [discriminate |].
  assert (forall r0 made0,
            modules r0 = modules r ->
            initModules cfg order r0 = (r', made0, Some e) ->
            forall front,
            exists name module cause earlier,
              e = "failed to init module " ++ name ++ ": " ++ cause
              /\ modules r !! name = Some module
              /\ name ∈ x :: order
              /\ (front ++ made0 = earlier ++ [InitCall name module])%list)
    as Hrest.
  { intros r0 made0 Hm Hrun0 front.
    destruct (IH _ _ _ Hrun0) as (name & p & cause & earlier & He & Hp & Hin & ->).
    exists name, p, cause, (front ++ earlier)%list.
    rewrite <- Hm. repeat split; try assumption.
    - apply elem_of_cons. now right.
    - now rewrite app_assoc. }
  destruct (modules r !! x) as [p|] eqn:Hp.
  2:{ destruct (Hrest r made eq_refl Hrun []) as (n & q & c & ea & H).
      now exists n, q, c, ea. }
  destruct (disabled (heap r p) cfg).
  { destruct (Hrest r made eq_refl Hrun []) as (n & q & c & ea & H).
    now exists n, q, c, ea. }
  destruct (Init (heap r p) cfg (fields (heap r p))) as [st [failure|]].
  - injection Hrun as _ <- <-.
    exists x, p, failure, []. repeat split; [exact Hp |].
    apply elem_of_cons. now left.
  - destruct (initModules cfg order (store p st r))
      as [[r'' made'] e'] eqn:Hrun'.
    injection Hrun as -> <- ->.
    destruct (Hrest (store p st r) made' eq_refl Hrun' [InitCall x p])
      as (n & q & c & ea & H).
    now exists n, q, c, ea.
Qed.

(** X12. When an [Init] fails in the first call of [LoadModules], the
    call returns no provider and an error that names the provider whose
    [Init] failed; that call of [Init] is the last one made.  The barrier
    has run all the same: a later call calls no [Init], reports no error
    and returns the enabled providers, initialised or not. *)
Theorem LoadModules_failure cfg r (order1 order2 order3 order4 : list string)
    (e : error) :
  loadOnce r = false ->
  err (LoadModules cfg order1 order2 r) = Some e ->
  let first := LoadModules cfg order1 order2 r in
  let second := LoadModules cfg order3 order4 (after first) in
  returned first = []
  /\ (exists name module cause earlier,
        e = "failed to init module " ++ name ++ ": " ++ cause
        /\ modules r !! name = Some module
        /\ calls first = (earlier ++ [InitCall name module])%list)
  /\ calls second = []
  /\ err second = None
  /\ returned second = loaded cfg order4 (after first).
Proof.
  intros Hfresh Herr. cbv zeta.
  assert (loadOnce (after (LoadModules cfg order1 order2 r)) = true) as Hdone.
  { unfold LoadModules. rewrite Hfresh.
    destruct (initModules cfg order1 (done r)) as [[r1 made] e1] eqn:Hrun.
    destruct (initModules_frame _ _ _ _ _ _ Hrun) as (_ & Ho & _).
    now destruct e1. }
  split; [| split].
  - revert Herr. unfold LoadModules.
    destruct (if loadOnce r then (r, [], None)
              else initModules cfg order1 (done r)) as [[r1 made] e1].
    now destruct e1.
  - revert Herr. unfold LoadModules. rewrite Hfresh.
    destruct (initModules cfg order1 (done r)) as [[r1 made] e1] eqn:Hrun.
    destruct e1 as [e1|]; cbn [err calls]; [| discriminate].
    intros [= ->].
    destruct (initModules_failure _ _ _ _ _ _ Hrun)
      as (name & p & cause & earlier & He & Hp & _ & Hmade).
    now exists name, p, cause, earlier.
  - unfold LoadModules at 1 3 5. rewrite Hdone. now cbn.
Qed.

End Providers.

Lemma registrations_persist_witness :
  let r := Samples.mixedRegistry in
  modules r !! "off" = Some 1%nat
  /\ modules (fst (Register "off" 7%nat r)) !! "off" = Some 1%nat
  /\ modules (fst (Register "new" 7%nat r)) !! "off" = Some 1%nat
  /\ modules (after (LoadModules DefaultConfig ["test"; "off"]
                                 ["test"; "off"] r)) = modules r.
Proof.
  intros r.
  assert (modules r !! "off" = Some 1%nat) as Hoff by reflexivity.
  split; [exact Hoff |].
  destruct (registrations_persist r DefaultConfig "off" "off" 7%nat 1%nat
              ["test"; "off"] ["test"; "off"] Hoff) as [Hsame Hload].
  destruct (registrations_persist r DefaultConfig "new" "off" 7%nat 1%nat
              ["test"; "off"] ["test"; "off"] Hoff) as [Hother _].
  split; [exact Hsame |]. split; [exact Hother | exact Hload].
Defined.

Lemma LoadModules_returns_enabled_witness :
  let r := Samples.mixedRegistry in
  let result := LoadModules DefaultConfig ["test"; "off"] ["off"; "test"] r in
  (iteration r ["off"; "test"] /\ err result = None)
  /\ 0%nat ∈ returned result
  /\ 1%nat ∉ returned result.
Proof.
  intros r result.
  assert (iteration r ["off"; "test"]) as Hit
    by (apply iteration_mixedRegistry; now right).
  split; [split; [exact Hit | reflexivity] |].
  pose proof (LoadModules_returns_enabled DefaultConfig r
                ["test"; "off"] ["off"; "test"]) as Hspec.
  split.
  - apply (Hspec 0%nat Hit eq_refl). now exists "test".
  - intros Hin. apply (Hspec 1%nat Hit eq_refl) in Hin.
    destruct Hin as (name & _ & Hd). vm_compute in Hd. discriminate.
Defined.

Lemma LoadModules_failure_witness :
  let r := MoreSamples.halfRegistry in
  let first := LoadModules DefaultConfig ["first"; "second"]
                           ["first"; "second"] r in
  let second := LoadModules DefaultConfig ["first"; "second"]
                            ["first"; "second"] (after first) in
  (loadOnce r = false
   /\ err first = Some "failed to init module second: backend unreachable")
  /\ returned first = []
  /\ calls first = [InitCall "first" 0%nat; InitCall "second" 1%nat]
  /\ calls second = []
  /\ err second = None
  /\ returned second = [0%nat; 1%nat].
Proof.
  intros r first second.
  assert (err first = Some "failed to init module second: backend unreachable")
    as Herr by reflexivity.
  destruct (LoadModules_failure DefaultConfig r
              ["first"; "second"] ["first"; "second"]
              ["first"; "second"] ["first"; "second"] _ eq_refl Herr)
    as (Hnone & _ & Hquiet & Hok & Hall).
  split; [split; [reflexivity | exact Herr] |].
  split; [exact Hnone |]. split; [reflexivity |].
  split; [exact Hquiet |]. split; [exact Hok |].
  etransitivity; [exact Hall | reflexivity].
Defined.

End RegistryMore.

(** ** The plugin provider: schemas, the tool table and calls *)

Module PluginMore.
Import Runtime Manifests Plugins Advertise BytesFacts StringsFacts.

Lemma length_append (s t : string) :
  String.length (s ++ t) = (String.length s + String.length t)%nat.
Proof.
  induction s as [|c s IH]; [reflexivity |].
  rewrite append_cons. simpl. now rewrite IH.
Qed.

(** X13. With a positive limit the trimmed output is at most the limit
    plus the fourteen bytes of the marker long, and it is never longer
    than the output by more than the marker. *)
Theorem trimOutput_bounded (output : string) (maxBytes : Z) :
  0 < maxBytes ->
  len (trimOutput output maxBytes) <= maxBytes + 14
  /\ len (trimOutput output maxBytes) <= len output + 14.
Proof.
  intros Hpos. unfold trimOutput, len.
  destruct (maxBytes <=? 0) eqn:E; [lia |]. clear E.
  rewrite length_bytes.
  destruct (Z.of_nat (String.length output) <=? maxBytes) eqn:E; [lia |].
  rewrite TrimFacts.str_firstn, length_append.
  destruct (TrimFacts.substring_split (Z.to_nat maxBytes) output)
    as [_ Hkept]; [lia |].
  rewrite Hkept. change (String.length marker) with 14%nat. lia.
Qed.

Lemma trimOutput_bounded_witness :
  0 < 4
  /\ len (trimOutput "0123456789" 4) <= 4 + 14
  /\ len (trimOutput "0123456789" 4) <= len "0123456789" + 14.
Proof.
  split; [lia |]. apply (trimOutput_bounded "0123456789" 4). lia.
Defined.

Section Schema.
Context {tables : Strings.CaseTables}.

(** X14. [normalizeType] returns one of the four schema types, whatever
    the declared type is, and leaves those four as they are. *)
Theorem normalizeType_canonical (value : string) :
  In (normalizeType value) schemaTypes
  /\ normalizeType (normalizeType value) = normalizeType value
  /\ forall type, In type schemaTypes -> normalizeType type = type.
Proof.
  assert (forall type, In type schemaTypes -> normalizeType type = type)
    as Hfix.
  { intros type [<- | [<- | [<- | [<- | []]]]]; reflexivity. }
  assert (In (normalizeType value) schemaTypes) as Hin.
  { unfold normalizeType, schemaTypes.
    repeat match goal with
           | |- context [if ?c then _ else _] => destruct c
           end; simpl; tauto. }
  split; [exact Hin |]. split; [now apply Hfix | exact Hfix].
Qed.

Lemma ToLower_equalFold value keyword :
  Policy.equalFold value keyword ->
  forallb Strings.lowered (bytes keyword) = true ->
  Strings.ToLower value = keyword.
Proof.
  intros Hf Hk.
  destruct (LowerFacts.equalFold_lowered _ _ Hf Hk) as [Hmap Hascii].
  rewrite <- (str_bytes (Strings.ToLower value)), <- (str_bytes keyword).
  f_equal. rewrite <- Hmap.
  apply PolicyRules.ToLower_ascii.
  unfold Strings.isASCII. apply forallb_forall. intros b Hb.
  rewrite Forall_forall in Hascii.
  apply Z.ltb_lt. apply Hascii. now apply list_elem_of_In.
Qed.

(** X15. [normalizeType] reads the declared type letter case aside:
    [int] and [integer] give [integer], [bool] and [boolean] give
    [boolean], [number] and [float] give [number], in any mix of upper
    and lower case. *)
Theorem normalizeType_alias (value alias type : string) :
  In (alias, type) aliases ->
  Policy.equalFold value alias ->
  normalizeType value = type.
Proof.
  intros Hin Hf. unfold normalizeType.
  rewrite (ToLower_equalFold value alias Hf).
  - simpl in Hin.
    destruct Hin as [E | [E | [E | [E | [E | [E | []]]]]]];
      injection E as <- <-; reflexivity.
  - simpl in Hin.
    destruct Hin as [E | [E | [E | [E | [E | [E | []]]]]]];
      injection E as <- <-; reflexivity.
Qed.

End Schema.

Lemma normalizeType_alias_witness :
  In ("bool", "boolean") aliases
  /\ Policy.equalFold "Bool" "bool"
  /\ normalizeType (tables := Strings.excerptTables) "Bool" = "boolean".
Proof.
  assert (In ("bool", "boolean") aliases) as Hin
    by (right; right; now left).
  assert (Policy.equalFold "Bool" "bool") as Hf.
  { unfold Policy.equalFold.
    constructor; [right; left; split; [vm_compute; intuition discriminate
                                      | reflexivity] |].
    repeat (constructor; [now left |]). constructor. }
  split; [exact Hin |]. split; [exact Hf |].
  apply (normalizeType_alias "Bool" "bool" "boolean" Hin Hf).
Defined.

Section Table.
Context {fs : FileSystem} {lib : Library}.

Lemma addTools_enter m specs table :
  addTools m specs table
  = enter (List.map (fun spec =>
                       (pluginToolName (Name (Metadata_ m)) (tool_Name spec),
                        {| manifest := m; tool := spec |})) specs) table.
Proof.
  revert table. induction specs as [|spec specs IH]; intros table;
    [reflexivity |].
  cbn [addTools List.map enter].
  destruct (table !! pluginToolName (Name (Metadata_ m)) (tool_Name spec));
    [reflexivity | apply IH].
Qed.

Lemma enter_app es1 es2 table :
  enter (es1 ++ es2) table
  = match enter es1 table with
    | (table', Some e) => (table', Some e)
    | (table', None) => enter es2 table'
    end.
Proof.
  revert table. induction es1 as [|[k v] es1 IH]; intros table;
    [reflexivity |].
  cbn [app enter]. destruct (table !! k); [reflexivity | apply IH].
Qed.

Lemma addManifests_enter ms table :
  addManifests ms table = enter (allEntries ms) table.
Proof.
  revert table. induction ms as [|m ms IH]; intros table; [reflexivity |].
  cbn [addManifests allEntries flat_map]. rewrite enter_app.
  rewrite addTools_enter. fold (entriesOf m).
  destruct (enter (entriesOf m) table) as [table' [e|]];
    [reflexivity | apply IH].
Qed.

Lemma fst_allEntries ms : List.map fst (allEntries ms) = fullNames ms.
Proof.
  unfold allEntries, fullNames.
  induction ms as [|m ms IH]; [reflexivity |].
  cbn [flat_map]. rewrite map_app, IH. f_equal.
  unfold entriesOf, toolNames. rewrite map_map. reflexivity.
Qed.

Lemma enterable_cons k v entries table :
  enterable ((k, v) :: entries) table <->
  table !! k = None /\ enterable entries (<[k := v]> table).
Proof.
  unfold enterable. cbn [List.map fst]. rewrite List.NoDup_cons_iff. split.
  - intros [[Hk Hnodup] Hfresh]. split; [apply Hfresh; now left |].
    split; [exact Hnodup |]. intros j Hj.
    rewrite lookup_insert_ne by (intros ->; contradiction).
    apply Hfresh. now right.
  - intros [Hk [Hnodup Hfresh]]. split; [split; [| exact Hnodup] |].
    + intros Hin. specialize (Hfresh k Hin).
      now rewrite lookup_insert_eq in Hfresh.
    + intros j [<- | Hj]; [exact Hk |].
      specialize (Hfresh j Hj).
      destruct (decide (k = j)) as [-> | Hne];
        [now rewrite lookup_insert_eq in Hfresh |].
      now rewrite lookup_insert_ne in Hfresh.
Qed.

Lemma enter_success entries table table' :
  enter entries table = (table', None) ->
  enterable entries table
  /\ forall k v, table' !! k = Some v <->
                 table !! k = Some v \/ In (k, v) entries.
Proof.
  revert table. induction entries as [|[k v] entries IH]; intros table Hrun.
  - injection Hrun as <-. split; [split; [constructor | intros ? []] |].
    intros k v. simpl. tauto.
  - cbn [enter] in Hrun.
    destruct (table !! k) eqn:Hk; [discriminate |].
    destruct (IH _ Hrun) as [Hable Hlook]. split.
    + apply enterable_cons. now split.
    + intros j w. rewrite Hlook. cbn [In].
      destruct (decide (k = j)) as [<- | Hne].
      * rewrite lookup_insert_eq, Hk. split.
        -- intros [[= <-] | Hin]; [right; now left | right; now right].
        -- intros [? | [[= <-] | Hin]]; [discriminate | now left | now right].
      * rewrite lookup_insert_ne by exact Hne. split.
        -- intros [? | ?]; [now left | right; now right].
        -- intros [? | [[= ? ?] | ?]]; [now left | contradiction | now right].
Qed.

Lemma enter_failure entries table table' e :
  enter entries table = (table', Some e) ->
  ~ enterable entries table
  /\ (exists k, In k (List.map fst entries)
                /\ e = "duplicate plugin tool name: " ++ k)
  /\ forall k v, table !! k = Some v -> table' !! k = Some v.
Proof.
  revert table. induction entries as [|[k v] entries IH]; intros table Hrun;
    [discriminate |].
  cbn [enter] in Hrun. destruct (table !! k) as [held|] eqn:Hk.
  - injection Hrun as <- <-. split; [| split].
    + rewrite enterable_cons. intros [? _]. congruence.
    + exists k. split; [now left | reflexivity].
    + auto.
  - destruct (IH _ Hrun) as (Hnot & (j & Hj & He) & Hkeep). split; [| split].
    + rewrite enterable_cons. tauto.
    + exists j. split; [now right | exact He].
    + intros i w Hi. apply Hkeep.
      rewrite lookup_insert_ne; [exact Hi | congruence].
Qed.

Lemma enter_ok_iff entries table :
  snd (enter entries table) = None <-> enterable entries table.
Proof.
  destruct (enter entries table) as [table' [e|]] eqn:Hrun; cbn [snd].
  - destruct (enter_failure _ _ _ _ Hrun) as [Hnot _].
    split; [discriminate | tauto].
  - destruct (enter_success _ _ _ Hrun) as [Hable _]. tauto.
Qed.

Lemma Init_loaded c m ms :
  Enabled c = true ->
  LoadManifests (Config.Dir (Config.Plugins (Config.Modules c))) = inl ms ->
  Init c m
  = let '(table, err) := enter (allEntries ms) (tools m) in
    ({| cfg := Some c; manifests := ms; tools := table |}, err).
Proof.
  intros Hen Hload. unfold Init. rewrite Hen, Hload. cbn [negb tools cfg].
  now rewrite addManifests_enter.
Qed.

(** X16. With the manifests loaded, [Init] of a provider whose table is
    empty succeeds exactly when the qualified names of all tools of all
    manifests are distinct; otherwise its error names a tool name that is
    taken. *)
Theorem Init_duplicate_names (c : Config.NexusConfig) (m : Module)
    (ms : list Manifest) :
  Enabled c = true ->
  LoadManifests (Config.Dir (Config.Plugins (Config.Modules c))) = inl ms ->
  tools m = ∅ ->
  (snd (Init c m) = None <-> List.NoDup (fullNames ms))
  /\ forall e, snd (Init c m) = Some e ->
               exists name, In name (fullNames ms)
                            /\ e = "duplicate plugin tool name: " ++ name.
Proof.
  intros Hen Hload Hempty.
  rewrite (Init_loaded c m ms Hen Hload), Hempty.
  destruct (enter (allEntries ms) ∅) as [table e] eqn:Hrun. cbn [snd].
  split.
  - replace e with (snd (enter (allEntries ms) ∅)) by now rewrite Hrun.
    rewrite enter_ok_iff. unfold enterable. rewrite fst_allEntries.
    split; [tauto |]. intros Hnodup. split; [exact Hnodup |].
    intros k _. apply lookup_empty.
  - intros e' ->.
    destruct (enter_failure _ _ _ _ Hrun) as (_ & (k & Hk & He) & _).
    rewrite fst_allEntries in Hk. now exists k.
Qed.

(** X17. After a successful [Init] of a provider whose table was empty,
    the provider holds the loaded manifests and its table maps the
    qualified name of every tool of every manifest to that manifest and
    tool, and nothing else. *)
Theorem Init_table (c : Config.NexusConfig) (m : Module)
    (ms : list Manifest) :
  Enabled c = true ->
  LoadManifests (Config.Dir (Config.Plugins (Config.Modules c))) = inl ms ->
  tools m = ∅ ->
  snd (Init c m) = None ->
  cfg (fst (Init c m)) = Some c
  /\ manifests (fst (Init c m)) = ms
  /\ forall name pt,
       tools (fst (Init c m)) !! name = Some pt <-> In (name, pt) (allEntries ms).
Proof.
  intros Hen Hload Hempty.
  rewrite (Init_loaded c m ms Hen Hload), Hempty.
  destruct (enter (allEntries ms) ∅) as [table [e|]] eqn:Hrun; cbn [snd fst];
    [discriminate |]. intros _.
  split; [reflexivity |]. split; [reflexivity |].
  intros name pt.
  destruct (enter_success _ _ _ Hrun) as [_ Hlook].
  rewrite Hlook, lookup_empty. split; [intros [? | ?]; [discriminate | auto] | auto].
Qed.

(** What the loop of [LoadManifests] adds on success. *)
Lemma loadEntries_success dir entries acc ms :
  loadEntries dir entries acc = inl ms ->
  exists new,
    ms = (acc ++ new)%list
    /\ (forall m, In m new <->
                  exists entry, In entry entries /\ holds dir entry m)
    /\ (List.length new
        <= List.length (List.filter entry_IsDir entries))%nat.
Proof.
  revert acc.
  induction entries as [|e entries IH]; intros acc Hrun; simpl in Hrun.
  - injection Hrun as <-. exists []. rewrite app_nil_r.
    split; [reflexivity |]. split; [| simpl; lia].
    intros m. split; [intros [] | intros (? & [] & _)].
  - assert (forall new,
              (forall m, In m new <->
                         exists entry, In entry entries /\ holds dir entry m) ->
              (forall m, ~ holds dir e m) ->
              forall m, In m new <->
                        exists entry, In entry (e :: entries)
                                      /\ holds dir entry m) as Hskip.
    { intros new Hnew Hnone m. rewrite Hnew. split.
      - intros (entry & Hin & Hh). exists entry. split; [now right | exact Hh].
      - intros (entry & [<- | Hin] & Hh); [now apply Hnone in Hh |].
        now exists entry. }
    cbn [List.filter]. destruct (entry_IsDir e) eqn:Hdir; cbn [negb] in Hrun.
    + destruct (os_ReadFile (filepath_Join [dir; entry_Name e; ManifestName]))
        as [data|] eqn:Hread.
      * destruct (yaml_Unmarshal data) as [decoded|] eqn:Hparse;
          [| discriminate].
        destruct (IH _ Hrun) as (new & -> & Hnew & Hlen).
        exists (named e decoded :: new). split; [| split].
        -- unfold named. now rewrite <- app_assoc.
        -- intros m. cbn [In]. rewrite Hnew. split.
           ++ intros [<- | (entry & Hin & Hh)].
              ** exists e. split; [now left |]. split; [exact Hdir |].
                 now exists data, decoded.
              ** exists entry. split; [now right | exact Hh].
           ++ intros (entry & [<- | Hin] & Hh); [| right; now exists entry].
              left. destruct Hh as (_ & d & dec & Hr & Hp & ->).
              unfold manifestPath in Hr. congruence.
        -- cbn [List.length]. lia.
      * destruct (IH _ Hrun) as (new & -> & Hnew & Hlen).
        exists new. split; [reflexivity |]. split; [| cbn [List.length]; lia].
        apply Hskip; [exact Hnew |].
        intros m (_ & d & dec & Hr & _). unfold manifestPath in Hr. congruence.
    + destruct (IH _ Hrun) as (new & -> & Hnew & Hlen).
      exists new. split; [reflexivity |]. split; [| exact Hlen].
      apply Hskip; [exact Hnew |]. intros m (Hd & _). congruence.
Qed.

(** X18. On success [LoadManifests] returns the manifests of exactly the
    subdirectories whose manifest file can be read and parses: plain
    files and directories without a manifest are passed over, so there
    are at most as many manifests as subdirectories. *)
Theorem LoadManifests_members (dir : string) (entries : list DirEntry)
    (ms : list Manifest) :
  os_ReadDir dir = inl entries ->
  LoadManifests dir = inl ms ->
  (forall m, In m ms <->
             exists entry, In entry entries /\ holds dir entry m)
  /\ (List.length ms <= List.length (List.filter entry_IsDir entries))%nat.
Proof.
  intros Hdir Hload. unfold LoadManifests in Hload. rewrite Hdir in Hload.
  destruct (loadEntries_success _ _ _ _ Hload) as (new & -> & Hnew & Hlen).
  now split.
Qed.

Lemma named_Name entry m :
  entry_Name entry <> "" -> Name (Metadata_ (named entry m)) <> "".
Proof.
  intros Hentry. unfold named.
  destruct (String.eqb_spec (Name (Metadata_ m)) ""); [exact Hentry | assumption].
Qed.

(** X19. Every manifest [LoadManifests] returns has a name: a manifest
    that declares none is given the name of its directory (directory
    entries have a name), and a declared name is kept. *)
Theorem LoadManifests_named (dir : string) (entries : list DirEntry)
    (ms : list Manifest) :
  os_ReadDir dir = inl entries ->
  (forall entry, In entry entries -> entry_Name entry <> "") ->
  LoadManifests dir = inl ms ->
  forall m, In m ms ->
    Name (Metadata_ m) <> ""
    /\ exists entry decoded,
         In entry entries
         /\ m = named entry decoded
         /\ (Name (Metadata_ decoded) = "" ->
             Name (Metadata_ m) = entry_Name entry)
         /\ (Name (Metadata_ decoded) <> "" -> m = decoded).
Proof.
  intros Hdir Hnames Hload m Hm.
  unfold LoadManifests in Hload. rewrite Hdir in Hload.
  destruct (loadEntries_success _ _ _ _ Hload) as (new & -> & Hnew & _).
  apply Hnew in Hm as (entry & Hin & _ & data & decoded & _ & _ & ->).
  split; [apply named_Name; now apply Hnames |].
  exists entry, decoded. split; [exact Hin |]. split; [reflexivity |].
  unfold named. destruct (String.eqb_spec (Name (Metadata_ decoded)) "");
    split; intros ?; try reflexivity; contradiction.
Qed.

End Table.

Lemma Init_duplicate_names_witness :
  let c := MoreSamples.pluginsConfig in
  let ms := [Samples.opsManifest; Samples.opsManifest] in
  let init := Init (fs := MoreSamples.pluginDir)
                   (lib := MoreSamples.clashLibrary) c New in
  Enabled c = true
  /\ LoadManifests (fs := MoreSamples.pluginDir)
                   (lib := MoreSamples.clashLibrary)
                   (Config.Dir (Config.Plugins (Config.Modules c))) = inl ms
  /\ snd init = Some "duplicate plugin tool name: plugin/ops/restart"
  /\ (snd init = None <-> List.NoDup (fullNames ms))
  /\ forall e, snd init = Some e ->
               exists name, In name (fullNames ms)
                            /\ e = "duplicate plugin tool name: " ++ name.
Proof.
  cbv zeta.
  split; [reflexivity |]. split; [reflexivity |]. split; [reflexivity |].
  apply (Init_duplicate_names (fs := MoreSamples.pluginDir)
                              (lib := MoreSamples.clashLibrary));
    reflexivity.
Defined.

Lemma Init_table_witness :
  let c := MoreSamples.pluginsConfig in
  let ms := [withName "metrics" MoreSamples.metricsManifest;
             Samples.opsManifest] in
  let init := Init (fs := MoreSamples.pluginDir)
                   (lib := MoreSamples.pluginLibrary) c New in
  snd init = None
  /\ cfg (fst init) = Some c
  /\ manifests (fst init) = ms
  /\ forall name pt,
       tools (fst init) !! name = Some pt <-> In (name, pt) (allEntries ms).
Proof.
  cbv zeta. split; [reflexivity |].
  apply (Init_table (fs := MoreSamples.pluginDir)
                    (lib := MoreSamples.pluginLibrary));
    reflexivity.
Defined.

Lemma LoadManifests_members_witness :
  let entries := [{| entry_Name := "metrics"; entry_IsDir := true |};
                  {| entry_Name := "notes.txt"; entry_IsDir := false |};
                  {| entry_Name := "ops"; entry_IsDir := true |};
                  {| entry_Name := "scratch"; entry_IsDir := true |}] in
  let ms := [withName "metrics" MoreSamples.metricsManifest;
             Samples.opsManifest] in
  LoadManifests (fs := MoreSamples.pluginDir)
                (lib := MoreSamples.pluginLibrary) "plugins" = inl ms
  /\ (forall m, In m ms <->
                exists entry,
                  In entry entries
                  /\ holds (fs := MoreSamples.pluginDir)
                           (lib := MoreSamples.pluginLibrary)
                           "plugins" entry m)
  /\ (List.length ms <= List.length (List.filter entry_IsDir entries))%nat.
Proof.
  cbv zeta. split; [reflexivity |].
  apply (LoadManifests_members (fs := MoreSamples.pluginDir)
                               (lib := MoreSamples.pluginLibrary));
    reflexivity.
Defined.

Lemma LoadManifests_named_witness :
  let entries := [{| entry_Name := "metrics"; entry_IsDir := true |};
                  {| entry_Name := "notes.txt"; entry_IsDir := false |};
                  {| entry_Name := "ops"; entry_IsDir := true |};
                  {| entry_Name := "scratch"; entry_IsDir := true |}] in
  let m := withName "metrics" MoreSamples.metricsManifest in
  Name (Metadata_ m) <> ""
  /\ exists entry decoded,
       In entry entries
       /\ m = named entry decoded
       /\ (Name (Metadata_ decoded) = "" ->
           Name (Metadata_ m) = entry_Name entry)
       /\ (Name (Metadata_ decoded) <> "" -> m = decoded).
Proof.
  cbv zeta.
  apply (LoadManifests_named (fs := MoreSamples.pluginDir)
                             (lib := MoreSamples.pluginLibrary)
                             "plugins" _
                             [withName "metrics" MoreSamples.metricsManifest;
                              Samples.opsManifest]).
  - reflexivity.
  - intros entry [<- | [<- | [<- | [<- | []]]]]; discriminate.
  - reflexivity.
  - now left.
Defined.

Section Tools.
Context {tables : Strings.CaseTables}.

Lemma normalizeType_in value : In (normalizeType value) schemaTypes.
Proof.
  unfold normalizeType, schemaTypes.
  repeat match goal with
         | |- context [if ?c then _ else _] => destruct c
         end; simpl; tauto.
Qed.

(** The loop over the arguments keeps the schema well formed. *)
Lemma addArgs_wellformed args properties required properties' required' :
  addArgs args properties required = (properties', required') ->
  (forall n, is_Some (properties !! n) -> is_Some (properties' !! n))
  /\ (forall arg, In arg args -> is_Some (properties' !! arg_Name arg))
  /\ ((forall n, In n required -> is_Some (properties !! n)) ->
      forall n, In n required' -> is_Some (properties' !! n))
  /\ ((forall n p, properties !! n = Some p -> In (prop_type p) schemaTypes) ->
      forall n p, properties' !! n = Some p -> In (prop_type p) schemaTypes)
  /\ (forall n, In n required' <->
                In n required
                \/ exists arg, In arg args /\ arg_Required arg = true
                               /\ arg_Name arg = n).
Proof.
  revert properties required.
  induction args as [|arg args IH]; intros properties required Hrun.
  - injection Hrun as <- <-. repeat split; auto.
    + intros ? [].
    + intros [? | (? & [] & _)]. assumption.
  - cbn [addArgs] in Hrun.
    apply IH in Hrun as (Hkeep & Hargs & Hreq & Htyp & Hlist).
    assert (forall n, is_Some (properties !! n) ->
                      is_Some (<[arg_Name arg :=
                                   {| prop_type := normalizeType (arg_Type arg);
                                      prop_description := arg_Description arg |}]>
                                 properties !! n)) as Hins.
    { intros n Hn. rewrite lookup_insert_is_Some. destruct Hn as [p Hp].
      destruct (decide (arg_Name arg = n)); [now left | right; eauto]. }
    split; [| split; [| split; [| split]]].
    + intros n Hn. apply Hkeep, Hins, Hn.
    + intros a [<- | Ha]; [| now apply Hargs].
      apply Hkeep. rewrite lookup_insert_eq. eauto.
    + intros Hbefore. apply Hreq. intros n Hn.
      destruct (arg_Required arg).
      * apply in_app_or in Hn as [Hn | [<- | []]].
        -- apply Hins, Hbefore, Hn.
        -- rewrite lookup_insert_eq. eauto.
      * apply Hins, Hbefore, Hn.
    + intros Hbefore. apply Htyp. intros n p.
      rewrite lookup_insert_Some. intros [[_ <-] | [_ Hp]].
      * apply normalizeType_in.
      * now apply Hbefore in Hp.
    + intros n. rewrite Hlist. destruct (arg_Required arg) eqn:Hr.
      * rewrite in_app_iff. cbn [In]. split.
        -- intros [[? | [<- | []]] | (a & Ha & Hra & Hna)].
           ++ now left.
           ++ right. exists arg. split; [now left | now split].
           ++ right. exists a. split; [now right | now split].
        -- intros [? | (a & [<- | Ha] & Hra & Hna)].
           ++ left. now left.
           ++ left. right. now left.
           ++ right. exists a. now split.
      * split.
        -- intros [? | (a & Ha & Hra & Hna)]; [now left |].
           right. exists a. split; [now right | now split].
        -- intros [? | (a & [<- | Ha] & Hra & Hna)];
             [now left | congruence | right; exists a; now split].
Qed.

(** X20. Every tool the plugin provider advertises has an object
    schema in which each declared argument has a property, each property
    has one of the four schema types, and every required name has a
    property; its destructive hint is the negation of its read-only hint,
    and both come from a tool of the table under the advertised name. *)
Theorem GetTools_schema (m : Module) (t : Tool) :
  In t (GetTools m) ->
  (exists pt,
     tools m !! Tool_Name t = Some pt
     /\ ReadOnlyHint t = ReadOnly (tool pt)
     /\ Tool_Description t = tool_Description (tool pt)
     /\ forall arg, In arg (tool_Args (tool pt)) ->
                    is_Some (Properties (InputSchema t) !! arg_Name arg))
  /\ DestructiveHint t = negb (ReadOnlyHint t)
  /\ schema_Type (InputSchema t) = "object"
  /\ (forall n, In n (Required (InputSchema t)) ->
                is_Some (Properties (InputSchema t) !! n))
  /\ (forall n p, Properties (InputSchema t) !! n = Some p ->
                  In (prop_type p) schemaTypes).
Proof.
  unfold GetTools. destruct (cfg m) as [c|]; [| intros []].
  destruct (negb (Enabled c)); [intros [] |].
  intros Hin. apply in_map_iff in Hin as ([name pt] & <- & Hentry).
  apply list_elem_of_In, elem_of_map_to_list in Hentry.
  unfold buildToolSchema. cbn [fst snd].
  destruct (addArgs (tool_Args (tool pt)) ∅ []) as [properties required]
    eqn:Hrun.
  destruct (addArgs_wellformed _ _ _ _ _ Hrun)
    as (_ & Hargs & Hreq & Htyp & _).
  cbn. split; [| split; [| split; [| split]]]; try reflexivity.
  - exists pt. repeat split; auto.
  - apply Hreq. intros ? [].
  - apply Htyp. intros n p. rewrite lookup_empty. discriminate.
Qed.

(** X21. The plugin provider advertises no name twice, and a name is
    advertised exactly when [Init] has run, the provider is enabled and
    the name is in its tool table: nothing is advertised before [Init]
    or while the provider is disabled. *)
Theorem GetTools_names (m : Module) :
  List.NoDup (List.map Tool_Name (GetTools m))
  /\ forall name,
       In name (List.map Tool_Name (GetTools m)) <->
       exists c, cfg m = Some c /\ Enabled c = true
                 /\ is_Some (tools m !! name).
Proof.
  unfold GetTools. destruct (cfg m) as [c|].
  2:{ split; [constructor |]. intros name. split; [intros [] |].
      intros (c & ? & _). discriminate. }
  destruct (Enabled c) eqn:Hen; cbn [negb].
  2:{ split; [constructor |]. intros name. split; [intros [] |].
      intros (c' & [= <-] & ? & _). congruence. }
  rewrite map_map.
  replace (List.map
             (fun x => Tool_Name (buildToolSchema (fst x) (tool (snd x))))
             (map_to_list (tools m)))
    with (List.map fst (map_to_list (tools m))).
  2:{ apply map_ext. intros [name pt]. unfold buildToolSchema. cbn [fst snd].
      now destruct (addArgs (tool_Args (tool pt)) ∅ []). }
  split.
  - apply NoDup_ListNoDup. apply (NoDup_fst_map_to_list (tools m)).
  - intros name. rewrite <- list_elem_of_In.
    change (List.map fst (map_to_list (tools m)))
      with (fst <$> map_to_list (tools m)).
    rewrite list_elem_of_fmap. split.
    + intros ([n pt] & -> & Hin). apply elem_of_map_to_list in Hin.
      exists c. eauto.
    + intros (_ & _ & _ & [pt Hpt]). exists (name, pt).
      split; [reflexivity |]. now apply elem_of_map_to_list.
Qed.

End Tools.

Lemma GetTools_schema_witness :
  let m := MoreSamples.loadedModule in
  let t := buildToolSchema (tables := Strings.excerptTables)
             "plugin/metrics/query" MoreSamples.queryTool in
  In t (GetTools (tables := Strings.excerptTables) m)
  /\ Required (InputSchema t) = ["expr"]
  /\ (exists pt,
        tools m !! Tool_Name t = Some pt
        /\ ReadOnlyHint t = ReadOnly (tool pt)
        /\ Tool_Description t = tool_Description (tool pt)
        /\ forall arg, In arg (tool_Args (tool pt)) ->
                       is_Some (Properties (InputSchema t) !! arg_Name arg))
  /\ DestructiveHint t = negb (ReadOnlyHint t)
  /\ schema_Type (InputSchema t) = "object"
  /\ (forall n, In n (Required (InputSchema t)) ->
                is_Some (Properties (InputSchema t) !! n))
  /\ (forall n p, Properties (InputSchema t) !! n = Some p ->
                  In (prop_type p) schemaTypes).
Proof.
  cbv zeta.
  assert (In (buildToolSchema (tables := Strings.excerptTables)
                "plugin/metrics/query" MoreSamples.queryTool)
             (GetTools (tables := Strings.excerptTables)
                MoreSamples.loadedModule)) as Hin.
  { vm_compute. auto. }
  split; [exact Hin |]. split; [reflexivity |].
  apply (GetTools_schema (tables := Strings.excerptTables) _ _ Hin).
Defined.

Section Calls.
Context {lib : Library} {host : Host}.

(** X22. [HandleCall] starts a child process only for a tool of its
    table, with the provider enabled, a command configured and, in safe
    mode, the tool marked read-only.  The command it starts is then
    fixed, but for the order of the manifest's variables: the path is
    the manifest's command, joined to the plugin's directory unless it is
    absolute; the arguments are the manifest's followed by
    [--nexus-plugin]; the input is the marshalled call; and [cmd.Env] is
    the configured entries followed by one entry for each variable of
    the manifest, so it stays nil exactly when there is neither. *)
Theorem HandleCall_process (m : Module) (name : string) (args : Arguments_)
    (cmd : Cmd) :
  In cmd (fst (HandleCall m name args)) ->
  exists c pt own,
    let plugins := Config.Plugins (Config.Modules c) in
    let spec := Spec_ (manifest pt) in
    cfg m = Some c
    /\ Enabled c = true
    /\ tools m !! name = Some pt
    /\ (Config.SafeMode (Config.Server c) = true -> ReadOnly (tool pt) = true)
    /\ Command spec <> ""
    /\ cmd_Path cmd
       = (if filepath_IsAbs (Command spec) then Command spec
          else filepath_Join [Config.Dir plugins;
                              Name (Metadata_ (manifest pt));
                              Command spec])
    /\ cmd_Args cmd = (Args spec ++ ["--nexus-plugin"])%list
    /\ json_Marshal (tool_Name (tool pt)) args = inl (cmd_Stdin cmd)
    /\ cmd_Env cmd = (Config.Env plugins ++ own)%list
    /\ Permutation own (assignments (Env spec))
    /\ (cmd_Env cmd = [] <-> Config.Env plugins = [] /\ Env spec = ∅).
Proof.
  unfold HandleCall, Enabled.
  destruct (cfg m) as [c|]; [| intros []].
  destruct (Config.Plugins_Enabled (Config.Plugins (Config.Modules c)))
    eqn:Hen; cbn [negb]; [| intros []].
  destruct (tools m !! name) as [pt|] eqn:Hpt; [| intros []].
  destruct (Config.SafeMode (Config.Server c) && negb (ReadOnly (tool pt)))
    eqn:Hsafe; [intros [] |].
  destruct (json_Marshal (tool_Name (tool pt)) args) as [data|] eqn:Hjson;
    [| intros []].
  destruct (String.eqb_spec (Command (Spec_ (manifest pt))) "") as [|Hcmd];
    [intros [] |].
  assert (forall built,
            In cmd [built] ->
            cmd = built) as Hone by (intros built [<- | []]; reflexivity).
  intros Hin.
  assert (cmd
          = {| cmd_Path :=
                 if filepath_IsAbs (Command (Spec_ (manifest pt)))
                 then Command (Spec_ (manifest pt))
                 else filepath_Join
                        [Config.Dir (Config.Plugins (Config.Modules c));
                         Name (Metadata_ (manifest pt));
                         Command (Spec_ (manifest pt))];
               cmd_Args := (Args (Spec_ (manifest pt))
                            ++ ["--nexus-plugin"])%list;
               cmd_Env := (Config.Env (Config.Plugins (Config.Modules c))
                           ++ assignments (Env (Spec_ (manifest pt))))%list;
               cmd_Stdin := data |}) as ->.
  { apply Hone. revert Hin.
    match goal with
    | |- context [CombinedOutput ?x] =>
      destruct (CombinedOutput x) as [output [failure|]]
    end; exact (fun H => H). }
  clear Hin Hone.
  exists c, pt, (assignments (Env (Spec_ (manifest pt)))).
  cbv zeta. cbn [cmd_Path cmd_Args cmd_Env cmd_Stdin].
  split; [reflexivity |]. split; [exact Hen |]. split; [reflexivity |].
  split.
  { intros Hs. rewrite Hs in Hsafe. now destruct (ReadOnly (tool pt)). }
  split; [exact Hcmd |]. split; [reflexivity |]. split; [reflexivity |].
  split; [exact Hjson |]. split; [reflexivity |].
  split; [reflexivity |].
  unfold assignments. split.
  - intros Hnil. apply app_eq_nil in Hnil as [Hconfigured Hown].
    split; [exact Hconfigured |].
    apply map_eq_nil in Hown. now apply map_to_list_empty_iff.
  - intros [-> ->]. now rewrite map_to_list_empty.
Qed.

(** X23. Once [Init] has set the configuration, [HandleCall] does not
    panic and starts at most one process.  Its only error is a failure to
    marshal the call, before any process is started; a process that
    fails gives an error result with its output, and one that succeeds
    gives its output, trimmed to the configured limit. *)
Theorem HandleCall_results (m : Module) (c : Config.NexusConfig)
    (name : string) (args : Arguments_) :
  cfg m = Some c ->
  exists cmds result,
    HandleCall m name args = (cmds, Returned result)
    /\ (List.length cmds <= 1)%nat
    /\ (forall e, result = inr e ->
          cmds = []
          /\ exists cause,
               e = "failed to marshal plugin input: " ++ cause)
    /\ (forall cmd, In cmd cmds ->
          result
          = inl (match CombinedOutput cmd with
                 | (output, Some failure) =>
                   NewToolResultError
                     ("plugin error: " ++ failure ++ ": "
                      ++ strings_TrimSpace output)
                 | (output, None) =>
                   NewToolResultText
                     (trimOutput output
                        (Config.Plugins_MaxBytes
                           (Config.Plugins (Config.Modules c))))
                 end)).
Proof.
  intros Hcfg. unfold HandleCall. rewrite Hcfg.
  destruct (negb (Config.Plugins_Enabled (Config.Plugins (Config.Modules c)))).
  { eexists _, _. split; [reflexivity |].
    split; [simpl; lia |]. split; [discriminate | intros ? []]. }
  destruct (tools m !! name) as [pt|].
  2:{ eexists _, _. split; [reflexivity |].
      split; [simpl; lia |]. split; [discriminate | intros ? []]. }
  destruct (Config.SafeMode (Config.Server c) && negb (ReadOnly (tool pt))).
  { eexists _, _. split; [reflexivity |].
    split; [simpl; lia |]. split; [discriminate | intros ? []]. }
  destruct (json_Marshal (tool_Name (tool pt)) args) as [data | cause].
  2:{ eexists _, _. split; [reflexivity |].
      split; [simpl; lia |]. split; [| intros ? []].
      intros e [= <-]. split; [reflexivity | now exists cause]. }
  destruct (String.eqb (Command (Spec_ (manifest pt))) "").
  { eexists _, _. split; [reflexivity |].
    split; [simpl; lia |]. split; [discriminate | intros ? []]. }
  match goal with
  | |- context [CombinedOutput ?x] =>
    destruct (CombinedOutput x) as [output [failure|]] eqn:Hrun
  end; (eexists _, _; split; [reflexivity |];
        split; [simpl; lia |]; split; [discriminate |];
        intros cmd [<- | []]; now rewrite Hrun).
Qed.

End Calls.

Lemma HandleCall_process_witness :
  let m := MoreSamples.loadedModule in
  let cmd := MoreSamples.queryCmd in
  In cmd (fst (HandleCall (lib := MoreSamples.pluginLibrary)
                          (host := Samples.sampleHost)
                          m "plugin/metrics/query" []))
  /\ exists c pt own,
       let plugins := Config.Plugins (Config.Modules c) in
       let spec := Spec_ (manifest pt) in
       cfg m = Some c
       /\ Enabled c = true
       /\ tools m !! "plugin/metrics/query" = Some pt
       /\ (Config.SafeMode (Config.Server c) = true ->
           ReadOnly (tool pt) = true)
       /\ Command spec <> ""
       /\ cmd_Path cmd
          = (if filepath_IsAbs (Host := Samples.sampleHost) (Command spec)
             then Command spec
             else filepath_Join (Library := MoreSamples.pluginLibrary)
                    [Config.Dir plugins; Name (Metadata_ (manifest pt));
                     Command spec])
       /\ cmd_Args cmd = (Args spec ++ ["--nexus-plugin"])%list
       /\ json_Marshal (Host := Samples.sampleHost)
                       (tool_Name (tool pt)) [] = inl (cmd_Stdin cmd)
       /\ cmd_Env cmd = (Config.Env plugins ++ own)%list
       /\ Permutation own (assignments (Env spec))
       /\ (cmd_Env cmd = [] <-> Config.Env plugins = [] /\ Env spec = ∅).
Proof.
  cbv zeta.
  assert (In MoreSamples.queryCmd
             (fst (HandleCall (lib := MoreSamples.pluginLibrary)
                              (host := Samples.sampleHost)
                              MoreSamples.loadedModule
                              "plugin/metrics/query" []))) as Hin.
  { vm_compute. now left. }
  split; [exact Hin |].
  apply (HandleCall_process (lib := MoreSamples.pluginLibrary)
                            (host := Samples.sampleHost) _ _ _ _ Hin).
Defined.

Lemma HandleCall_results_witness :
  let m := MoreSamples.loadedModule in
  exists cmds result,
    HandleCall (lib := MoreSamples.pluginLibrary)
               (host := Samples.sampleHost) m "plugin/metrics/query" []
    = (cmds, Returned result)
    /\ (List.length cmds <= 1)%nat
    /\ (forall e, result = inr e ->
          cmds = []
          /\ exists cause,
               e = "failed to marshal plugin input: " ++ cause)
    /\ (forall cmd, In cmd cmds ->
          result
          = inl (match CombinedOutput (Host := Samples.sampleHost) cmd with
                 | (output, Some failure) =>
                   NewToolResultError
                     ("plugin error: " ++ failure ++ ": "
                      ++ strings_TrimSpace (Host := Samples.sampleHost) output)
                 | (output, None) =>
                   NewToolResultText
                     (trimOutput output
                        (Config.Plugins_MaxBytes
                           (Config.Plugins
                              (Config.Modules MoreSamples.pluginsConfig))))
                 end)).
Proof.
  cbv zeta.
  apply (HandleCall_results (lib := MoreSamples.pluginLibrary)
                            (host := Samples.sampleHost)
                            MoreSamples.loadedModule
                            MoreSamples.pluginsConfig).
  reflexivity.
Defined.

Lemma split_at_first (x : ascii) (l1 r1 l2 r2 : list ascii) :
  ~ In x l1 -> ~ In x l2 ->
  (l1 ++ x :: r1 = l2 ++ x :: r2)%list -> l1 = l2 /\ r1 = r2.
Proof.
  revert l2. induction l1 as [|a l1 IH]; intros [|b l2] H1 H2 Heq;
    cbn in Heq.
  - injection Heq as ->. now split.
  - injection Heq as <- _. destruct H2. now left.
  - injection Heq as -> _. destruct H1. now left.
  - injection Heq as -> Heq.
    destruct (IH l2) as [-> ->]; auto.
    + intros ?. apply H1. now right.
    + intros ?. apply H2. now right.
Qed.

(** X24. For plugin names without a slash, the qualified tool name
    determines the plugin and the tool: two different pairs never get the
    same qualified name. *)
Theorem pluginToolName_injective (plugin1 tool1 plugin2 tool2 : string) :
  ~ In "/"%char (bytes plugin1) ->
  ~ In "/"%char (bytes plugin2) ->
  pluginToolName plugin1 tool1 = pluginToolName plugin2 tool2 ->
  plugin1 = plugin2 /\ tool1 = tool2.
Proof.
  intros H1 H2 Heq. unfold pluginToolName in Heq.
  apply (f_equal bytes) in Heq. rewrite !bytes_app in Heq.
  apply app_inv_head in Heq.
  change (bytes "/") with ["/"%char] in Heq. cbn [app] in Heq.
  destruct (split_at_first _ _ _ _ _ H1 H2 Heq) as [Hp Ht].
  split.
  - now rewrite <- (str_bytes plugin1), Hp, str_bytes.
  - now rewrite <- (str_bytes tool1), Ht, str_bytes.
Qed.

Lemma pluginToolName_injective_witness :
  ~ In "/"%char (bytes "ops")
  /\ pluginToolName "ops" "restart/now" = pluginToolName "ops" "restart/now"
  /\ "ops" = "ops" /\ "restart/now" = "restart/now".
Proof.
  assert (~ In "/"%char (bytes "ops")) as Hfree.
  { vm_compute. intuition discriminate. }
  split; [exact Hfree |]. split; [reflexivity |].
  apply (pluginToolName_injective "ops" "restart/now" "ops" "restart/now"
           Hfree Hfree).
  reflexivity.
Defined.

End PluginMore.

(** ** The installer *)

Module InstallerFacts.
Import Runtime Manifests Filepath Installer BytesFacts.

Lemma extFrom_suffix backwards tail :
  exists pre, (rev backwards ++ tail = pre ++ extFrom backwards tail)%list.
Proof.
  revert tail.
  induction backwards as [|b bw IH]; intros tail; cbn [extFrom rev].
  - exists tail. now rewrite app_nil_r.
  - destruct (isSeparator b).
    + eexists. now rewrite app_nil_r.
    + destruct (Ascii.eqb b ".").
      * exists (rev bw). now rewrite <- app_assoc.
      * destruct (IH (b :: tail)) as [pre Hpre]. exists pre.
        now rewrite <- app_assoc.
Qed.

Lemma Ext_suffix name :
  exists pre, bytes name = (pre ++ bytes (Ext name))%list.
Proof.
  destruct (extFrom_suffix (rev (bytes name)) []) as [pre Hpre].
  rewrite rev_involutive, app_nil_r in Hpre. exists pre.
  unfold Ext. now rewrite bytes_str.
Qed.

Lemma HasSuffix_app pre suffix s :
  bytes s = (pre ++ bytes suffix)%list -> HasSuffix s suffix = true.
Proof.
  intros Hs. unfold HasSuffix.
  rewrite <- !length_bytes, Hs, length_app.
  apply andb_true_intro. split; [apply Nat.leb_le; lia |].
  replace (List.length pre + List.length (bytes suffix)
           - List.length (bytes suffix))%nat
    with (List.length pre) by lia.
  rewrite drop_app_length, str_bytes. apply String.eqb_refl.
Qed.

Lemma TrimSuffix_app pre suffix s :
  bytes s = (pre ++ bytes suffix)%list -> TrimSuffix s suffix = str pre.
Proof.
  intros Hs. unfold TrimSuffix. rewrite (HasSuffix_app pre suffix s Hs).
  rewrite <- !length_bytes, Hs, length_app.
  replace (List.length pre + List.length (bytes suffix)
           - List.length (bytes suffix))%nat
    with (List.length pre) by lia.
  now rewrite take_app_length.
Qed.


(** X25. Cutting the extension off a name and putting it back gives
    the name: [trimExt] removes exactly what [filepath.Ext] finds. *)
Theorem trimExt_Ext (name : string) : trimExt name ++ Ext name = name.
Proof.
  destruct (Ext_suffix name) as [pre Hpre].
  unfold trimExt. rewrite (TrimSuffix_app pre _ _ Hpre).
  transitivity (str (pre ++ bytes (Ext name))).
  - now rewrite str_app, str_bytes.
  - rewrite <- Hpre. apply str_bytes.
Qed.

Section Install.
Context {tables : Strings.CaseTables} {lib : Library} {disk : Disk}.







(** X28. A download is never unpacked either: its temporary file has
    no extension (the name is [nexus-plugin-] and digits), so whatever
    the address named, [Install] copies the file under the temporary
    name, and then removes the temporary file. *)
Theorem download_is_copied (source destDir tmp : string) :
  source <> "" -> destDir <> "" ->
  os_MkdirAll destDir = None ->
  isRemote source = true ->
  download source = inl tmp ->
  os_Stat tmp = inl false ->
  Ext tmp = "" ->
  fst (Install source destDir)
  = [MkdirAll destDir; Get source;
     CopyFile tmp (filepath_Join [destDir; Base tmp]); Remove tmp].
Proof.
  intros Hsource Hdest Hmk Hremote Hget Hstat Hext. unfold Install.
  destruct (String.eqb_spec source ""); [contradiction |].
  destruct (String.eqb_spec destDir ""); [contradiction |].
  rewrite Hmk, Hremote, Hget. unfold place. rewrite Hstat, Hext.
  change (Strings.ToLower "") with "".
  cbn [String.eqb andb]. unfold attempt.
  now destruct (copyFile _ _).
Qed.

End Install.



Lemma download_is_copied_witness :
  fst (Install (tables := Strings.excerptTables)
               (lib := Samples.sampleLibrary)
               (disk := MoreSamples.sampleDisk)
               "https://example.org/ops.zip" "plugins")
  = [MkdirAll "plugins"; Get "https://example.org/ops.zip";
     CopyFile "/tmp/nexus-plugin-4187" "plugins/nexus-plugin-4187";
     Remove "/tmp/nexus-plugin-4187"].
Proof.
  apply (download_is_copied (tables := Strings.excerptTables)
                            (lib := Samples.sampleLibrary)
                            (disk := MoreSamples.sampleDisk)
                            "https://example.org/ops.zip" "plugins"
                            "/tmp/nexus-plugin-4187");
    try reflexivity; discriminate.
Defined.

End InstallerFacts.

(** ** The dispatcher *)

Module DispatchFacts.
Import Config Advertise Dispatch.

Section Server.
Context {tables : Strings.CaseTables} {Arguments_ Reply : Type}.
Variable NewToolResultError : string -> Reply.
Variable noArguments : Arguments_.
Variable TrimSpace : string -> string.

Lemma listed_summarize toolPolicy
    (provider : @NexusModule Arguments_ Reply) tool :
  listed (summarize toolPolicy provider tool)
  = negb (isDeny (Policy.Evaluate toolPolicy (mod_Name provider)
                                  (Tool_Name tool))).
Proof.
  unfold listed, summarize. cbn.
  now destruct (Policy.Evaluate toolPolicy (mod_Name provider)
                                (Tool_Name tool)).
Qed.

Lemma registerModule_listed toolPolicy
    (provider : @NexusModule Arguments_ Reply) tools :
  List.map registered (registerModule toolPolicy provider tools)
  = List.map summarized
      (List.filter listed (List.map (summarize toolPolicy provider) tools)).
Proof.
  induction tools as [|tool tools IH]; [reflexivity |].
  cbn [registerModule List.map List.filter]. rewrite listed_summarize.
  destruct (isDeny (Policy.Evaluate toolPolicy (mod_Name provider)
                                    (Tool_Name tool))); cbn [negb].
  - exact IH.
  - cbn [List.map]. now rewrite IH.
Qed.

Lemma summarize_name toolPolicy
    (seen seen' : @NexusModule Arguments_ Reply) tool :
  mod_Name seen = mod_Name seen' ->
  summarize toolPolicy seen tool = summarize toolPolicy seen' tool.
Proof. intros Hname. unfold summarize. now rewrite Hname. Qed.

Lemma filter_Permutation_list {A} (keep : A -> bool) (l k : list A) :
  Permutation l k -> Permutation (List.filter keep l) (List.filter keep k).
Proof.
  induction 1 as [| x l k _ IH | x y l | l k j _ IH1 _ IH2];
    cbn [List.filter].
  - constructor.
  - destruct (keep x); [now constructor | exact IH].
  - destruct (keep x), (keep y); try reflexivity. apply perm_swap.
  - now transitivity (List.filter keep k).
Qed.

(** X29. The tools the server registers are the tools the inventory
    lists with a status other than [denied], with the same provider,
    name and description, each as often in the one as in the other.
    Their order may differ: each of the two passes calls [GetTools]
    itself. *)
Theorem registered_as_listed
    (modules modules' : list (@NexusModule Arguments_ Reply))
    (toolPolicy : Policy.Policy) :
  Forall2 sameTools modules modules' ->
  Permutation
    (List.map registered (registerTools modules toolPolicy))
    (List.map summarized
       (List.filter listed (collectToolSummaries modules' toolPolicy))).
Proof.
  unfold registerTools, collectToolSummaries.
  induction 1 as [| seen seen' modules modules' [Hname Htools] _ IH];
    [constructor |].
  cbn [flat_map]. rewrite List.filter_app, !List.map_app.
  apply Permutation_app; [| exact IH].
  rewrite registerModule_listed.
  apply Permutation_map, filter_Permutation_list.
  rewrite (map_ext _ _ (fun tool => summarize_name toolPolicy _ _ tool Hname)).
  now apply Permutation_map.
Qed.

Lemma registerModule_In toolPolicy
    (provider : @NexusModule Arguments_ Reply) tools r :
  In r (registerModule toolPolicy provider tools) ->
  reg_Module r = provider
  /\ In (reg_Tool r) tools
  /\ reg_Name r = Tool_Name (reg_Tool r)
  /\ isDeny (Policy.Evaluate toolPolicy (mod_Name provider) (reg_Name r))
     = false.
Proof.
  induction tools as [|tool tools IH]; [intros [] |].
  cbn [registerModule].
  destruct (isDeny (Policy.Evaluate toolPolicy (mod_Name provider)
                                    (Tool_Name tool))) eqn:Hdeny.
  - intros Hin. destruct (IH Hin) as (? & ? & ? & ?).
    repeat split; auto. now right.
  - intros [<- | Hin].
    + cbn. repeat split; auto.
    + destruct (IH Hin) as (? & ? & ? & ?). repeat split; auto. now right.
Qed.

(** X30. The handler of a registered tool belongs to a provider of the
    list and to one of its tools that the policy does not deny, so its
    own policy check never blocks the call: it either refuses because a
    confirmation was asked and not given, without calling the provider,
    or calls the provider's [HandleCall] once, under the registered name,
    and returns its reply.  Without a terminal a confirmation is never
    given. *)
Theorem registered_handler (modules : list (@NexusModule Arguments_ Reply))
    (toolPolicy : Policy.Policy) (r : registration)
    (tty : option string) (request : option Arguments_) :
  In r (registerTools modules toolPolicy) ->
  let provider := reg_Module r in
  let decision :=
    Policy.Evaluate toolPolicy (mod_Name provider) (reg_Name r) in
  let confirmed := confirmTool TrimSpace (mod_Name provider) (reg_Name r) tty in
  let run := handle NewToolResultError noArguments TrimSpace toolPolicy r
                    tty request in
  In provider modules
  /\ In (reg_Tool r) (mod_GetTools provider)
  /\ reg_Name r = Tool_Name (reg_Tool r)
  /\ decision <> Policy.Deny
  /\ ((decision = Policy.Confirm /\ confirmed = false
       /\ run = ([], NewToolResultError "tool execution denied by user"))
      \/ ((decision = Policy.Allow \/ confirmed = true)
          /\ exists args,
               args = match request with
                      | Some a => a
                      | None => noArguments
                      end
               /\ run = ([Invoke (mod_Name provider) (reg_Name r) args],
                         mod_HandleCall provider (reg_Name r) args)))
  /\ (decision = Policy.Confirm -> tty = None -> fst run = []).
Proof.
  intros Hin. cbv zeta. unfold registerTools in Hin.
  apply in_flat_map in Hin as (provider & Hprovider & Hin).
  apply registerModule_In in Hin as (Hmod & Htool & Hname & Hdeny).
  subst provider.
  split; [exact Hprovider |]. split; [exact Htool |].
  split; [exact Hname |].
  unfold handle, handler. rewrite Hdeny.
  destruct (Policy.Evaluate toolPolicy (mod_Name (reg_Module r)) (reg_Name r))
    eqn:Hdecision; [| discriminate |]; cbn [isConfirm andb].
  - split; [discriminate |]. split; [| discriminate].
    right. split; [now left |]. eexists. split; reflexivity.
  - split; [discriminate |].
    destruct (confirmTool TrimSpace (mod_Name (reg_Module r)) (reg_Name r) tty)
      eqn:Hconfirm; cbn [negb].
    + split.
      * right. split; [now right |]. eexists. split; reflexivity.
      * intros _ ->. discriminate.
    + split; [| reflexivity]. left. now split.
Qed.

End Server.

Lemma registered_as_listed_witness :
  Forall2 sameTools [MoreSamples.echoModule] [MoreSamples.echoModuleAgain]
  /\ Permutation
       (List.map registered
          (registerTools (tables := Strings.excerptTables)
                         [MoreSamples.echoModule]
                         MoreSamples.confirmMetrics))
       (List.map summarized
          (List.filter listed
             (collectToolSummaries (tables := Strings.excerptTables)
                                   [MoreSamples.echoModuleAgain]
                                   MoreSamples.confirmMetrics))).
Proof.
  assert (Forall2 sameTools [MoreSamples.echoModule]
                  [MoreSamples.echoModuleAgain]) as Hsame.
  { constructor; [| constructor].
    split; [reflexivity | apply Permutation_rev]. }
  split; [exact Hsame |].
  apply (registered_as_listed (tables := Strings.excerptTables)
                              _ _ MoreSamples.confirmMetrics Hsame).
Defined.

Lemma registered_handler_witness :
  let r := MoreSamples.queryRegistration in
  let run tty :=
    handle (tables := Strings.excerptTables)
           (fun text => "error: " ++ text) [] (fun s => s)
           MoreSamples.confirmMetrics r tty None in
  registerTools (tables := Strings.excerptTables)
                [MoreSamples.echoModule] MoreSamples.confirmMetrics = [r]
  /\ run None = ([], "error: tool execution denied by user")
  /\ run (Some "yes")
     = ([Invoke "plugins" "plugin/metrics/query" []],
        "ran plugin/metrics/query")
  /\ reg_Name r = Tool_Name (reg_Tool r).
Proof.
  cbv zeta.
  assert (In MoreSamples.queryRegistration
             (registerTools (tables := Strings.excerptTables)
                            [MoreSamples.echoModule]
                            MoreSamples.confirmMetrics)) as Hin.
  { vm_compute. auto. }
  split; [vm_compute; reflexivity |].
  split; [vm_compute; reflexivity |].
  split; [vm_compute; reflexivity |].
  apply (registered_handler (tables := Strings.excerptTables)
                            (fun text => "error: " ++ text) [] (fun s => s)
                            [MoreSamples.echoModule]
                            MoreSamples.confirmMetrics
                            MoreSamples.queryRegistration None None Hin).
Defined.

End DispatchFacts.
